(** * DocForge: tenant resolution by host and subdomain session gating

    A shallow embedding of the domain-resolution, access-gate and
    subdomain-login code of [api/server.js] and [frontend/server.js].

    - The tenant collection is a list of records, in storage order;
      [Tenant.findOne] returns the first document matching the query.
    - [subdomainSessions] (a JS [Map]) and [req.cookies] (a JS object) are
      finite maps keyed by strings.
    - JS values that may be [undefined] or [null] are [option]s; the
      truthiness test of [if (x)], [x && y] and [x || y] is [truthy].
    - Time is the millisecond count of [Date.now()], an integer. *)

From Stdlib Require Import ZArith List Bool Ascii String Lia.
From stdpp Require Import base option strings gmap list.

Local Open Scope string_scope.
Local Open Scope Z_scope.

(** ** JavaScript string primitives used by the servers *)

Module JS.

(** Truthiness of a value that is [undefined], [null] or a string. *)
Definition truthy (v : option string) : bool :=
  match v with
  | Some s => negb (String.eqb s "")
  | None => false
  end.

(** [a || b] on possibly-missing strings. *)
Definition or_else (a b : option string) : option string :=
  if truthy a then a else b.

(** A possibly-null string interpolated in a template literal. *)
Definition interpolate (v : option string) : string :=
  match v with
  | Some s => s
  | None => "null"
  end.

(** [s.startsWith(p)] *)
Fixpoint startsWith (s p : string) {struct p} : bool :=
  match p with
  | EmptyString => true
  | String c p' =>
      match s with
      | EmptyString => false
      | String d s' => Ascii.eqb d c && startsWith s' p'
      end
  end.

(** [s.includes(p)]: [p] occurs at some position of [s]. *)
Fixpoint includes (s p : string) : bool :=
  startsWith s p ||
  match s with
  | EmptyString => false
  | String _ s' => includes s' p
  end.

(** [s.endsWith(p)] *)
Fixpoint endsWith (s p : string) : bool :=
  String.eqb s p ||
  match s with
  | EmptyString => false
  | String _ s' => endsWith s' p
  end.

(** [s.split(sep)] for a one-character separator; never empty. *)
Fixpoint split (sep : ascii) (s : string) : list string :=
  match s with
  | EmptyString => [EmptyString]
  | String c s' =>
      if Ascii.eqb c sep then EmptyString :: split sep s'
      else match split sep s' with
           | h :: t => String c h :: t
           | [] => [String c EmptyString]
           end
  end.

(** [arr[0]] on an array of strings ([undefined] cannot arise for the
    result of [split], which has at least one element). *)
Definition first (arr : list string) : string := hd EmptyString arr.

(** [s.includes(c)] for a single character. *)
Fixpoint has_char (c : ascii) (s : string) : bool :=
  match s with
  | EmptyString => false
  | String d s' => Ascii.eqb d c || has_char c s'
  end.

(** Strings are held as the bytes of their UTF-8 form, JavaScript counts
    UTF-16 code units. [units c] is what the byte [c] adds to
    [s.length]: a character counts at its first byte, once if it lies
    in the basic plane (sequences of one, two or three bytes) and twice
    if it does not (four bytes, a surrogate pair); the bytes that
    continue a sequence add nothing. *)
Definition units (c : ascii) : nat :=
  let n := nat_of_ascii c in
  if (n <? 128)%nat then 1%nat
  else if (n <? 192)%nat then 0%nat
  else if (n <? 240)%nat then 1%nat
  else 2%nat.

(** [s.length]. *)
Fixpoint length (s : string) : nat :=
  match s with
  | EmptyString => 0%nat
  | String c s' => (units c + length s')%nat
  end.

End JS.

(** ** Documents *)

(** [TenantSchema.domainSettings] *)
Record DomainSettings := {
  favicon : option string;
  customCSS : option string;
  logoUrl : option string;
  brandColor : option string
}.

(** [TenantSchema]; [_id] is the document's ObjectId in its string form. *)
Record Tenant := {
  _id : string;
  name : string;
  domain : string;
  apiKey : string;
  customDomain : option string;
  subdomain : option string;
  subdomainPassword : option string;
  domainVerified : bool;
  domainSettings : DomainSettings;
  createdAt : Z
}.

(** The entries of [subdomainSessions]. *)
Record Session := {
  tenantId : string;
  session_subdomain : option string;
  expires : Z
}.

(** The JSON object answered by [POST /api/tenant/by-domain]. *)
Module View.
Record t := {
  _id : string;
  name : string;
  domain : string;
  apiKey : string;
  customDomain : option string;
  subdomain : option string;
  subdomainPassword : option string;
  domainVerified : bool;
  domainSettings : DomainSettings
}.
End View.

(** [Tenant.findOne(q)]: the first stored document satisfying [q]. *)
Definition findOne (q : Tenant -> bool) (db : list Tenant) : option Tenant :=
  List.find q db.

(** Query [{ field: value }] on a nullable string field. *)
Definition field_is (v : string) (f : option string) : bool :=
  match f with
  | Some s => String.eqb s v
  | None => false
  end.

Definition by_customDomain (h : string) (t : Tenant) : bool :=
  field_is h (customDomain t).

Definition by_subdomain (l : string) (t : Tenant) : bool :=
  field_is l (subdomain t).

Definition by_apiKey (k : string) (t : Tenant) : bool :=
  String.eqb (apiKey t) k.

(** The parent domain searched for in the host header. *)
Definition parent_domain : string := ".docforge.com".

Definition dot : ascii := "."%char.

(** ** Requests, responses and server state *)

(** A cookie as passed to [res.cookie(name, value, options)]. *)
Record Cookie := {
  cookie_name : string;
  cookie_value : string;
  httpOnly : bool;
  secure : bool;
  maxAge : Z
}.

(** The body given to [res.json]: the endpoint's data or [{ error }]. *)
Inductive Payload (B : Type) : Type :=
| Data (b : B)
| Error (error : string).
Arguments Data {B} b.
Arguments Error {B} error.

Record Response (B : Type) := {
  status : nat;
  set_cookie : option Cookie;
  payload : Payload B
}.
Arguments status {B} _.
Arguments set_cookie {B} _.
Arguments payload {B} _.

Definition json {B : Type} (b : B) : Response B :=
  {| status := 200; set_cookie := None; payload := Data b |}.

Definition fail {B : Type} (code : nat) (msg : string) : Response B :=
  {| status := code; set_cookie := None; payload := Error msg |}.

(** The state of the API process: the tenant collection and the
    module-level [subdomainSessions] map. *)
Record Server := {
  tenants : list Tenant;
  subdomainSessions : gmap string Session
}.

(** What a gate does with a request: the two [next()] outcomes (skipped
    before any check, or let through after the checks) and the redirect
    to the login page. *)
Inductive Decision :=
| EXEMPT
| ALLOW
| CHALLENGE (redirectTarget : string).

Definition day_ms : Z := 24 * 60 * 60 * 1000.

(** The test shared by both gates:
    [path.startsWith('/api/') || ... '/css/' || ... '/js/' || ... '/images/'] *)
Definition skipped_path (p : string) : bool :=
  JS.startsWith p "/api/" || JS.startsWith p "/css/" ||
  JS.startsWith p "/js/" || JS.startsWith p "/images/".

Definition cookie_for (label : option string) : string :=
  "subdomain_auth_" +:+ JS.interpolate label.

Definition login_url (label : option string) : string :=
  "/subdomain-login?subdomain=" +:+ JS.interpolate label.

(** ** Hex encoding of random bytes: [buf.toString('hex')] *)

Definition hex_digit (n : N) : ascii :=
  match n with
  | 0%N => "0" | 1%N => "1" | 2%N => "2" | 3%N => "3"
  | 4%N => "4" | 5%N => "5" | 6%N => "6" | 7%N => "7"
  | 8%N => "8" | 9%N => "9" | 10%N => "a" | 11%N => "b"
  | 12%N => "c" | 13%N => "d" | 14%N => "e" | _ => "f"
  end%char.

Definition hex_value (c : ascii) : option N :=
  let n := N_of_ascii c in
  if ((48 <=? n) && (n <=? 57))%N then Some (n - 48)%N
  else if ((97 <=? n) && (n <=? 102))%N then Some (n - 87)%N
  else None.

Fixpoint toHex (buf : list Byte.byte) : string :=
  match buf with
  | [] => EmptyString
  | b :: rest =>
      let n := Byte.to_N b in
      String (hex_digit (n / 16)) (String (hex_digit (n mod 16)) (toHex rest))
  end.

(** Decoder, used to show that [toHex] loses nothing. *)
Fixpoint fromHex (s : string) : option (list Byte.byte) :=
  match s with
  | EmptyString => Some []
  | String c1 (String c2 rest) =>
      match hex_value c1, hex_value c2, fromHex rest with
      | Some h, Some l, Some bs =>
          match Byte.of_N (h * 16 + l) with
          | Some b => Some (b :: bs)
          | None => None
          end
      | _, _, _ => None
      end
  | String _ EmptyString => None
  end.

(** ** The API process ([api/server.js]) *)

Module Api.

(** [identifyTenantByDomain]: the value left in [req.domainTenant]. *)
Definition identifyTenantByDomain (db : list Tenant) (host : string)
  : option Tenant :=
  match findOne (by_customDomain host) db with
  | Some t => Some t
  | None =>
      if JS.includes host parent_domain
      then findOne (by_subdomain (JS.first (JS.split dot host))) db
      else None
  end.

(** [verifyApiKey]: the tenant put in [req.tenant], or the 401 reply. *)
Definition verifyApiKey {B : Type} (db : list Tenant) (key : option string)
  : Tenant + Response B :=
  if JS.truthy key then
    match findOne (by_apiKey (JS.interpolate key)) db with
    | Some t => inl t
    | None => inr (fail 401 "Invalid API key")
    end
  else inr (fail 401 "API key required").

(** The object that [POST /api/tenant/by-domain] gives to [res.json]. *)
Definition by_domain_json (t : Tenant) : View.t :=
  {| View._id := _id t;
     View.name := name t;
     View.domain := domain t;
     View.apiKey := apiKey t;
     View.customDomain := customDomain t;
     View.subdomain := subdomain t;
     View.subdomainPassword := subdomainPassword t;
     View.domainVerified := domainVerified t;
     View.domainSettings := domainSettings t |}.

(** [POST /api/tenant/by-domain] with body [{ domain, type }]. The route
    has no [verifyApiKey]: the [x-api-key] header of the request is
    never read. *)
Definition tenant_by_domain (db : list Tenant) (x_api_key : option string)
    (domain type : string) : Response View.t :=
  let tenant :=
    if String.eqb type "custom" then findOne (by_customDomain domain) db
    else if String.eqb type "subdomain" then findOne (by_subdomain domain) db
    else None in
  match tenant with
  | None => fail 404 "Tenant not found"
  | Some t => json (by_domain_json t)
  end.

(** [generateSubdomainToken], given the buffer that
    [crypto.randomBytes(32)] returned. *)
Definition generateSubdomainToken (randomBytes32 : list Byte.byte) : string :=
  toHex randomBytes32.

(** The session test of [verifySubdomainAccess]:
    [sessionToken && subdomainSessions.has(sessionToken)] and then
    [session.tenantId === _id.toString() && session.expires > Date.now()]. *)
Definition session_ok (sessions : gmap string Session) (now : Z)
    (t : Tenant) (sessionToken : option string) : bool :=
  if JS.truthy sessionToken then
    match sessions !! JS.interpolate sessionToken with
    | Some session =>
        String.eqb (tenantId session) (_id t) && (now <? expires session)
    | None => false
    end
  else false.

(** [verifySubdomainAccess]: the decision and [req.authenticatedTenant]. *)
Definition verifySubdomainAccess (sessions : gmap string Session) (now : Z)
    (path : string) (domainTenant : option Tenant)
    (cookies : gmap string string) : Decision * option Tenant :=
  if skipped_path path then (EXEMPT, None)
  else
    match domainTenant with
    | Some t =>
        let sessionToken := cookies !! cookie_for (subdomain t) in
        if session_ok sessions now t sessionToken
        then (ALLOW, Some t)
        else (CHALLENGE (login_url (subdomain t)), None)
    | None => (ALLOW, None)
    end.

(** The two middlewares in registration order. *)
Definition gate (srv : Server) (now : Z) (host path : string)
    (cookies : gmap string string) : Decision :=
  fst (verifySubdomainAccess (subdomainSessions srv) now path
         (identifyTenantByDomain (tenants srv) host) cookies).

(** What [POST /api/subdomain/login] answers on success. *)
Record LoginOk := {
  success : bool;
  redirectUrl : string
}.

(** [POST /api/subdomain/login] with body [{ subdomain, password }];
    [production] is [process.env.NODE_ENV === 'production']. *)
Definition subdomain_login (now : Z) (production : bool)
    (randomBytes32 : list Byte.byte) (srv : Server)
    (subdomain_ password : string) : Server * Response LoginOk :=
  match findOne (by_subdomain subdomain_) (tenants srv) with
  | None => (srv, fail 404 "Subdomain not found")
  | Some tenant =>
      if negb (JS.truthy (subdomainPassword tenant))
         || negb (String.eqb (JS.interpolate (subdomainPassword tenant)) password)
      then (srv, fail 401 "Invalid password")
      else
        let sessionToken := generateSubdomainToken randomBytes32 in
        let session :=
          {| tenantId := _id tenant;
             session_subdomain := subdomain tenant;
             expires := now + day_ms |} in
        ({| tenants := tenants srv;
            subdomainSessions := <[sessionToken := session]> (subdomainSessions srv) |},
         {| status := 200;
            set_cookie :=
              Some {| cookie_name := "subdomain_auth_" +:+ subdomain_;
                      cookie_value := sessionToken;
                      httpOnly := true;
                      secure := production;
                      maxAge := day_ms |};
            payload := Data {| success := true; redirectUrl := "/dashboard" |} |})
  end.

(** *** Tenant configuration routes *)

Definition is_alnum (c : ascii) : bool :=
  let n := N_of_ascii c in
  (((48 <=? n) && (n <=? 57)) || ((65 <=? n) && (n <=? 90))
   || ((97 <=? n) && (n <=? 122)))%N.

Definition is_alnum_dash (c : ascii) : bool :=
  is_alnum c || Ascii.eqb c "-".

(** [/^[a-zA-Z0-9][a-zA-Z0-9-]{0,61}[a-zA-Z0-9]$/]: a first and a last
    alphanumeric character around at most 61 characters of the middle
    class. *)
Definition isValidSubdomain (s : string) : bool :=
  match list_ascii_of_string s with
  | c :: r =>
      is_alnum c &&
      match rev r with
      | d :: m => is_alnum d && forallb is_alnum_dash m && (length m <=? 61)%nat
      | [] => false
      end
  | [] => false
  end.

(** [/^L(?:\.L)*$/] with [L] the label pattern above. No class of [L]
    contains the dot, so the match is: every piece between dots is an
    [L]. *)
Definition isValidDomain (s : string) : bool :=
  forallb isValidSubdomain (JS.split dot s).

(** [Tenant.findOne({ <field>: v, _id: { $ne: me._id } })] *)
Definition taken_by_other (q : Tenant -> bool) (me : Tenant)
    (db : list Tenant) : bool :=
  match findOne (fun d => q d && negb (String.eqb (_id d) (_id me))) db with
  | Some _ => true
  | None => false
  end.

(** [doc.save()] of a loaded document: the stored document with its
    [_id] is replaced. *)
Fixpoint save (doc : Tenant) (db : list Tenant) : list Tenant :=
  match db with
  | [] => []
  | d :: rest =>
      if String.eqb (_id d) (_id doc) then doc :: rest
      else d :: save doc rest
  end.

Definition set_domains (t : Tenant) (cd sd : option string) : Tenant :=
  {| _id := _id t; name := name t; domain := domain t; apiKey := apiKey t;
     customDomain := cd; subdomain := sd;
     subdomainPassword := subdomainPassword t;
     domainVerified := false;
     domainSettings := domainSettings t; createdAt := createdAt t |}.

Definition set_domainVerified (t : Tenant) (v : bool) : Tenant :=
  {| _id := _id t; name := name t; domain := domain t; apiKey := apiKey t;
     customDomain := customDomain t; subdomain := subdomain t;
     subdomainPassword := subdomainPassword t;
     domainVerified := v;
     domainSettings := domainSettings t; createdAt := createdAt t |}.

Definition set_domainSettings (t : Tenant) (ds : DomainSettings) : Tenant :=
  {| _id := _id t; name := name t; domain := domain t; apiKey := apiKey t;
     customDomain := customDomain t; subdomain := subdomain t;
     subdomainPassword := subdomainPassword t;
     domainVerified := domainVerified t;
     domainSettings := ds; createdAt := createdAt t |}.

Definition set_subdomainPassword (t : Tenant) (p : option string) : Tenant :=
  {| _id := _id t; name := name t; domain := domain t; apiKey := apiKey t;
     customDomain := customDomain t; subdomain := subdomain t;
     subdomainPassword := p;
     domainVerified := domainVerified t;
     domainSettings := domainSettings t; createdAt := createdAt t |}.

(** The [tenant] object of the reply of [POST /api/tenant/domain]. *)
Record DomainReply := {
  reply_customDomain : option string;
  reply_subdomain : option string;
  reply_domainVerified : bool
}.

(** [POST /api/tenant/domain] with body [{ customDomain, subdomain }]. *)
Definition tenant_domain (db : list Tenant) (x_api_key : option string)
    (customDomain_ subdomain_ : option string)
  : list Tenant * Response DomainReply :=
  match verifyApiKey db x_api_key with
  | inr r => (db, r)
  | inl tenant =>
      if JS.truthy customDomain_
         && negb (isValidDomain (JS.interpolate customDomain_))
      then (db, fail 400 "Invalid custom domain format")
      else if JS.truthy subdomain_
              && negb (isValidSubdomain (JS.interpolate subdomain_))
      then (db, fail 400 "Invalid subdomain format")
      else if JS.truthy customDomain_
              && taken_by_other (by_customDomain (JS.interpolate customDomain_))
                   tenant db
      then (db, fail 400 "Custom domain already in use")
      else if JS.truthy subdomain_
              && taken_by_other (by_subdomain (JS.interpolate subdomain_))
                   tenant db
      then (db, fail 400 "Subdomain already in use")
      else
        let tenant' :=
          set_domains tenant (JS.or_else customDomain_ None)
                             (JS.or_else subdomain_ None) in
        (save tenant' db,
         json {| reply_customDomain := customDomain tenant';
                 reply_subdomain := subdomain tenant';
                 reply_domainVerified := domainVerified tenant' |})
  end.

(** [POST /api/tenant/verify-domain]; [resolves d] says whether
    [dns.resolve4(d)] returned at least one record. *)
Definition tenant_verify_domain (resolves : string -> bool)
    (db : list Tenant) (x_api_key : option string)
  : list Tenant * Response bool :=
  match verifyApiKey db x_api_key with
  | inr r => (db, r)
  | inl tenant =>
      if negb (JS.truthy (customDomain tenant))
      then (db, fail 400 "No custom domain configured")
      else
        let isVerified := resolves (JS.interpolate (customDomain tenant)) in
        (save (set_domainVerified tenant isVerified) db, json isVerified)
  end.

(** [POST /api/tenant/branding] with body
    [{ favicon, customCSS, logoUrl, brandColor }]. *)
Definition tenant_branding (db : list Tenant) (x_api_key : option string)
    (favicon_ customCSS_ logoUrl_ brandColor_ : option string)
  : list Tenant * Response DomainSettings :=
  match verifyApiKey db x_api_key with
  | inr r => (db, r)
  | inl tenant =>
      let old := domainSettings tenant in
      let ds :=
        {| favicon := JS.or_else favicon_ (favicon old);
           customCSS := JS.or_else customCSS_ (customCSS old);
           logoUrl := JS.or_else logoUrl_ (logoUrl old);
           brandColor :=
             JS.or_else (JS.or_else brandColor_ (brandColor old))
                        (Some "#3B82F6") |} in
      (save (set_domainSettings tenant ds) db, json ds)
  end.

(** [POST /api/tenant/subdomain-password] with body [{ password }]. *)
Definition tenant_subdomain_password (db : list Tenant)
    (x_api_key : option string) (password : option string)
  : list Tenant * Response unit :=
  match verifyApiKey db x_api_key with
  | inr r => (db, r)
  | inl tenant =>
      if negb (JS.truthy password)
         || (JS.length (JS.interpolate password) <? 6)%nat
      then (db, fail 400 "Password must be at least 6 characters")
      else (save (set_subdomainPassword tenant password) db, json tt)
  end.

(** The state-changing requests of the subsystem. *)
Inductive Call :=
| PostTenantDomain (x_api_key customDomain_ subdomain_ : option string)
| PostVerifyDomain (x_api_key : option string)
| PostBranding (x_api_key favicon_ customCSS_ logoUrl_ brandColor_ : option string)
| PostSubdomainPassword (x_api_key password : option string)
| PostSubdomainLogin (now : Z) (randomBytes32 : list Byte.byte)
    (subdomain_ password : string).

Definition with_tenants (srv : Server) (db : list Tenant) : Server :=
  {| tenants := db; subdomainSessions := subdomainSessions srv |}.

Definition handle (resolves : string -> bool) (production : bool)
    (srv : Server) (c : Call) : Server :=
  match c with
  | PostTenantDomain k cd sd =>
      with_tenants srv (fst (tenant_domain (tenants srv) k cd sd))
  | PostVerifyDomain k =>
      with_tenants srv (fst (tenant_verify_domain resolves (tenants srv) k))
  | PostBranding k f c l b =>
      with_tenants srv (fst (tenant_branding (tenants srv) k f c l b))
  | PostSubdomainPassword k p =>
      with_tenants srv (fst (tenant_subdomain_password (tenants srv) k p))
  | PostSubdomainLogin now rnd sd p =>
      fst (subdomain_login now production rnd srv sd p)
  end.

Definition run (resolves : string -> bool) (production : bool)
    (srv : Server) (cs : list Call) : Server :=
  fold_left (handle resolves production) cs srv.

End Api.

(** ** The rendering process ([frontend/server.js]) *)

Module Frontend.

(** [apiCall('/tenant/by-domain', { method: 'POST', data })] against a
    reachable API process: [response.data] for a 2xx answer, [null]
    otherwise (axios throws and [apiCall] catches). *)
Definition apiCall_by_domain (db : list Tenant) (domain type : string)
  : option View.t :=
  let r := Api.tenant_by_domain db None domain type in
  match payload r with
  | Data v => if (status r =? 200)%nat then Some v else None
  | Error _ => None
  end.

(** The tenant lookup of [identifyTenantByDomain], given the function
    that performs the two [apiCall]s. *)
Definition lookup (apiCall : string -> string -> option View.t)
    (host : string) : option View.t :=
  match apiCall host "custom" with
  | Some v => Some v
  | None =>
      if JS.includes host parent_domain
      then apiCall (JS.first (JS.split dot host)) "subdomain"
      else None
  end.

(** [identifyTenantByDomain]: the decision and [req.domainTenant]
    ([req.autoApiKey] is its [apiKey]). *)
Definition identifyTenantByDomain (apiCall : string -> string -> option View.t)
    (host path : string) (cookies : gmap string string)
  : Decision * option View.t :=
  if skipped_path path then (EXEMPT, None)
  else
    match lookup apiCall host with
    | Some tenant =>
        if JS.truthy (View.subdomain tenant)
           && JS.truthy (View.subdomainPassword tenant)
        then
          let sessionToken := cookies !! cookie_for (View.subdomain tenant) in
          if String.eqb path "/subdomain-login" then (EXEMPT, Some tenant)
          else if negb (JS.truthy sessionToken)
          then (CHALLENGE (login_url (View.subdomain tenant)), Some tenant)
          else (ALLOW, Some tenant)
        else (ALLOW, Some tenant)
    | None => (ALLOW, None)
    end.

(** The gate of the rendering process in front of a reachable API
    process whose tenant collection is [db]. *)
Definition gate (db : list Tenant) (host path : string)
    (cookies : gmap string string) : Decision :=
  fst (identifyTenantByDomain (apiCall_by_domain db) host path cookies).

(** The tenant the middleware looks up for a host in front of a
    reachable API process: [req.domainTenant] for a request whose path
    is not skipped. *)
Definition resolve (db : list Tenant) (host : string) : option View.t :=
  lookup (apiCall_by_domain db) host.

End Frontend.

(** ** Sample directory

    Tenants used to run the definitions: [acme] and [beta] are password
    protected and have a custom domain, [open_docs] has a subdomain and
    no password, and [squatter] claims as its custom domain the host
    under the parent domain that also names [acme]'s subdomain. *)

Definition default_settings : DomainSettings :=
  {| favicon := None; customCSS := None; logoUrl := None;
     brandColor := Some "#3B82F6" |}.

Definition acme : Tenant :=
  {| _id := "66d1f0a2c4e8b9a1d2e3f401"; name := "Acme"; domain := "acme.io";
     apiKey := "a3f1c2d4"; customDomain := Some "docs.acme.io";
     subdomain := Some "acme"; subdomainPassword := Some "secret123";
     domainVerified := false; domainSettings := default_settings;
     createdAt := 1725000000000 |}.

Definition beta : Tenant :=
  {| _id := "66d1f0a2c4e8b9a1d2e3f402"; name := "Beta"; domain := "beta.dev";
     apiKey := "b7e9d0f1"; customDomain := Some "docs.beta.dev";
     subdomain := Some "beta"; subdomainPassword := Some "hunter22";
     domainVerified := false; domainSettings := default_settings;
     createdAt := 1725000001000 |}.

Definition open_docs : Tenant :=
  {| _id := "66d1f0a2c4e8b9a1d2e3f403"; name := "Open"; domain := "open.org";
     apiKey := "c5a6b7c8"; customDomain := None;
     subdomain := Some "open"; subdomainPassword := None;
     domainVerified := false; domainSettings := default_settings;
     createdAt := 1725000002000 |}.

Definition squatter : Tenant :=
  {| _id := "66d1f0a2c4e8b9a1d2e3f404"; name := "Squatter"; domain := "sq.net";
     apiKey := "d9e8f7a6"; customDomain := Some "acme.docforge.com";
     subdomain := None; subdomainPassword := None;
     domainVerified := false; domainSettings := default_settings;
     createdAt := 1725000003000 |}.

Definition directory : list Tenant := [acme; beta; open_docs].

Definition contested_directory : list Tenant := [acme; squatter].

Definition fresh_server : Server :=
  {| tenants := directory; subdomainSessions := ∅ |}.

(** Thirty-two bytes standing for one output of [crypto.randomBytes(32)]. *)
Definition sample_bytes : list Byte.byte :=
  [Byte.x9f; Byte.x02; Byte.xe1; Byte.x5b; Byte.x77; Byte.xc0; Byte.x3a; Byte.x18;
   Byte.xd4; Byte.x6e; Byte.x21; Byte.xfa; Byte.x0b; Byte.x95; Byte.x43; Byte.xbc;
   Byte.x10; Byte.x8d; Byte.xe7; Byte.x5f; Byte.x2c; Byte.xa9; Byte.x64; Byte.x31;
   Byte.xf6; Byte.x0e; Byte.x7a; Byte.xc3; Byte.x88; Byte.x1d; Byte.xb2; Byte.x49].

(** The directory constraints that the configuration route checks before
    it writes: no two tenants share a custom domain or a subdomain. *)
Definition unique_by (f : Tenant -> option string) (db : list Tenant) : Prop :=
  forall t1 t2 v, In t1 db -> In t2 db -> f t1 = Some v -> f t2 = Some v -> t1 = t2.

(** A tenant bound to [d] in the mode named by the [type] of a
    by-domain request. *)
Definition bound_to (type d : string) (t : Tenant) : Prop :=
  (type = "custom" /\ customDomain t = Some d) \/
  (type = "subdomain" /\ subdomain t = Some d).

(** ** Frames of the configuration routes

    What each update may change in a stored tenant: everything outside
    the named fields is equal before and after. *)

Record same_but_domains (t t' : Tenant) : Prop := {
  sbd_id : _id t' = _id t;
  sbd_name : name t' = name t;
  sbd_domain : domain t' = domain t;
  sbd_apiKey : apiKey t' = apiKey t;
  sbd_password : subdomainPassword t' = subdomainPassword t;
  sbd_settings : domainSettings t' = domainSettings t;
  sbd_createdAt : createdAt t' = createdAt t
}.

Record same_but_password (t t' : Tenant) : Prop := {
  sbp_id : _id t' = _id t;
  sbp_name : name t' = name t;
  sbp_domain : domain t' = domain t;
  sbp_apiKey : apiKey t' = apiKey t;
  sbp_customDomain : customDomain t' = customDomain t;
  sbp_subdomain : subdomain t' = subdomain t;
  sbp_verified : domainVerified t' = domainVerified t;
  sbp_settings : domainSettings t' = domainSettings t;
  sbp_createdAt : createdAt t' = createdAt t
}.

Record same_but_settings (t t' : Tenant) : Prop := {
  sbs_id : _id t' = _id t;
  sbs_name : name t' = name t;
  sbs_domain : domain t' = domain t;
  sbs_apiKey : apiKey t' = apiKey t;
  sbs_customDomain : customDomain t' = customDomain t;
  sbs_subdomain : subdomain t' = subdomain t;
  sbs_password : subdomainPassword t' = subdomainPassword t;
  sbs_verified : domainVerified t' = domainVerified t;
  sbs_createdAt : createdAt t' = createdAt t
}.

(** Identifier and API key of a stored tenant. *)
Definition credentials (t : Tenant) : string * string := (_id t, apiKey t).

(** ** Further routes of the API process

    The remaining tenant, credential, analytics and administration
    routes of [api/server.js]. What the code takes from its libraries is
    a parameter of the route: the ObjectId cast that mongoose applies to
    an [:id] parameter ([castObjectId], [None] when the cast fails), the
    text of the error it throws ([castError]), and the text of a failed
    [save] ([saveError]). *)

(** The JSON object answered by [GET /api/tenant/info]. *)
Module Info.
Record t := {
  _id : string;
  name : string;
  domain : string;
  customDomain : option string;
  subdomain : option string;
  domainVerified : bool;
  domainSettings : DomainSettings;
  createdAt : Z
}.
End Info.

(** [CredentialSchema] *)
Module Credential.
Record secrets := {
  id : option string;
  username : option string;
  email : option string;
  mobile : option string;
  password : option string;
  apiKey : option string;
  endpoint : option string;
  accountId : option string;
  region : option string;
  customFields : gmap string string
}.
Record deployment := {
  provider : option string;
  deploy_region : option string;
  deploy_accountId : option string;
  instanceId : option string
}.
Record t := {
  _id : string;
  tenantId : string;
  environment : string;
  serviceName : string;
  credentials : secrets;
  deploymentInfo : deployment;
  createdAt : Z;
  updatedAt : Z
}.
End Credential.

(** [PageSchema] *)
Module Page.
Record t := {
  _id : string;
  tenantId : string;
  title : string;
  slug : string;
  content : string;
  category : string;
  tags : list string;
  weight : Z;
  createdAt : Z;
  updatedAt : Z
}.
End Page.

(** [[...new Set(xs)]]: the distinct strings of [xs] in the order of
    their first occurrence. *)
Definition set_add (seen : list string) (x : string) : list string :=
  if existsb (String.eqb x) seen then seen else (seen ++ [x])%list.

Definition distinct (xs : list string) : list string :=
  fold_left set_add xs [].

(** [arr.sort((a, b) => key(b) - key(a))]: the stable sort by
    decreasing key (also the order of [.sort({ field: -1 })], with
    documents of equal key left in storage order). *)
Fixpoint insert_desc {A : Type} (key : A -> Z) (x : A) (sorted : list A)
  : list A :=
  match sorted with
  | [] => [x]
  | y :: rest =>
      if key x <? key y then y :: insert_desc key x rest
      else x :: y :: rest
  end.

Definition sort_desc {A : Type} (key : A -> Z) (l : list A) : list A :=
  fold_right (insert_desc key) [] l.

(** [arr.slice(0, n)] *)
Definition slice0 {A : Type} (n : nat) (l : list A) : list A := firstn n l.

Module Routes.

(** [GET /api/tenant/info] *)
Definition tenant_info (db : list Tenant) (x_api_key : option string)
  : Response Info.t :=
  match Api.verifyApiKey db x_api_key with
  | inr r => r
  | inl tenant =>
      json {| Info._id := _id tenant;
              Info.name := name tenant;
              Info.domain := domain tenant;
              Info.customDomain := customDomain tenant;
              Info.subdomain := subdomain tenant;
              Info.domainVerified := domainVerified tenant;
              Info.domainSettings := domainSettings tenant;
              Info.createdAt := createdAt tenant |}
  end.

(** Why [tenant.save()] of a new document throws: the [required]
    validators of the schema (a missing or empty string fails them), or
    a duplicate key of the [_id] index or of the unique [name] index. *)
Inductive SaveError :=
| ValidationFailed (paths : list string)
| DuplicateKey (index : string).

(** The schema paths of a new tenant that fail [required: true]. *)
Definition missing_paths (name_ domain_ : option string) : list string :=
  ((if JS.truthy name_ then [] else ["name"]) ++
   (if JS.truthy domain_ then [] else ["domain"]))%list.

(** The reply [{ tenant, apiKey }] of [POST /api/tenant]. *)
Record Created := {
  created_tenant : Tenant;
  created_apiKey : string
}.

(** [POST /api/tenant] with body [{ name, domain }]; [new_id] is the
    ObjectId given to the new document, [now] the [Date.now] default of
    [createdAt], [randomBytes32] the buffer of [crypto.randomBytes(32)]. *)
Definition create_tenant (saveError : SaveError -> string)
    (new_id : string) (now : Z) (randomBytes32 : list Byte.byte)
    (db : list Tenant) (name_ domain_ : option string)
  : list Tenant * Response Created :=
  let apiKey_ := toHex randomBytes32 in
  let tenant :=
    {| _id := new_id;
       name := JS.interpolate name_;
       domain := JS.interpolate domain_;
       apiKey := apiKey_;
       customDomain := None;
       subdomain := None;
       subdomainPassword := None;
       domainVerified := false;
       domainSettings :=
         {| favicon := None; customCSS := None; logoUrl := None;
            brandColor := Some "#3B82F6" |};
       createdAt := now |} in
  match missing_paths name_ domain_ with
  | _ :: _ as paths => (db, fail 400 (saveError (ValidationFailed paths)))
  | [] =>
      if existsb (fun d => String.eqb (_id d) new_id) db
      then (db, fail 400 (saveError (DuplicateKey "_id")))
      else if existsb (fun d => String.eqb (name d) (name tenant)) db
      then (db, fail 400 (saveError (DuplicateKey "name")))
      else ((db ++ [tenant])%list,
            json {| created_tenant := tenant; created_apiKey := apiKey_ |})
  end.

(** A row of [GET /api/debug/tenants]: the projection
    ['name domain apiKey createdAt'] and the [_id]. *)
Record DebugRow := {
  debug_id : string;
  debug_name : string;
  debug_domain : string;
  debug_apiKey : string;
  debug_createdAt : Z
}.

(** [GET /api/debug/tenants]; the route has no middleware. *)
Definition debug_tenants (db : list Tenant) (x_api_key : option string)
  : Response (list DebugRow) :=
  json (map (fun t => {| debug_id := _id t; debug_name := name t;
                         debug_domain := domain t; debug_apiKey := apiKey t;
                         debug_createdAt := createdAt t |})
            (sort_desc createdAt db)).

(** [process.env.SUPER_ADMIN_KEY || 'docforge-super-admin-2025'] *)
Definition SUPER_ADMIN_KEY (env : option string) : string :=
  JS.interpolate (JS.or_else env (Some "docforge-super-admin-2025")).

(** [verifySuperAdmin]: [None] is [next()], otherwise the 403 reply.
    [header] is [req.headers['x-super-admin-key']], [query] is
    [req.query.adminKey]. *)
Definition verifySuperAdmin {B : Type} (env header query : option string)
  : option (Response B) :=
  let adminKey := JS.or_else header query in
  if negb (JS.truthy adminKey)
     || negb (String.eqb (JS.interpolate adminKey) (SUPER_ADMIN_KEY env))
  then Some (fail 403 "Super admin access required")
  else None.

(** The collections that the administration routes touch. *)
Record Collections := {
  all_tenants : list Tenant;
  all_credentials : list Credential.t;
  all_pages : list Page.t
}.

(** [Model.findByIdAndDelete(id)]: the first document with this [_id]
    is removed. *)
Fixpoint remove_by_id (oid : string) (db : list Tenant) : list Tenant :=
  match db with
  | [] => []
  | d :: rest =>
      if String.eqb (_id d) oid then rest else d :: remove_by_id oid rest
  end.

(** [DELETE /api/admin/tenant/:id] *)
Definition admin_delete_tenant (castObjectId : string -> option string)
    (castError : string -> string) (env header query : option string)
    (c : Collections) (id : string) : Collections * Response string :=
  match verifySuperAdmin env header query with
  | Some denied => (c, denied)
  | None =>
      match castObjectId id with
      | None => (c, fail 500 (castError id))
      | Some oid =>
          match findOne (fun d => String.eqb (_id d) oid) (all_tenants c) with
          | None => (c, fail 404 "Tenant not found")
          | Some tenant =>
              ({| all_tenants := remove_by_id oid (all_tenants c);
                  all_credentials :=
                    List.filter (fun cr => negb (String.eqb (Credential.tenantId cr)
                                                       (_id tenant)))
                           (all_credentials c);
                  all_pages := all_pages c |},
               json "Tenant deleted successfully")
          end
      end
  end.

(** [GET /api/credentials] *)
Definition get_credentials (db : list Tenant) (creds : list Credential.t)
    (x_api_key : option string) : Response (list Credential.t) :=
  match Api.verifyApiKey db x_api_key with
  | inr r => r
  | inl tenant =>
      json (List.filter (fun cr => String.eqb (Credential.tenantId cr) (_id tenant))
                   creds)
  end.

(** The filter [{ _id: id, tenantId: req.tenant._id }]. *)
Definition own_credential (oid : string) (tenant : Tenant)
    (cr : Credential.t) : bool :=
  String.eqb (Credential._id cr) oid
  && String.eqb (Credential.tenantId cr) (_id tenant).

(** [GET /api/credentials/:id] *)
Definition get_credential (castObjectId : string -> option string)
    (castError : string -> string) (db : list Tenant)
    (creds : list Credential.t) (x_api_key : option string) (id : string)
  : Response Credential.t :=
  match Api.verifyApiKey db x_api_key with
  | inr r => r
  | inl tenant =>
      match castObjectId id with
      | None => fail 400 (castError id)
      | Some oid =>
          match List.find (own_credential oid tenant) creds with
          | None => fail 404 "Credential not found"
          | Some cr => json cr
          end
      end
  end.

(** [Credential.findOneAndDelete(q)]: the first match is removed. *)
Fixpoint remove_first (q : Credential.t -> bool) (creds : list Credential.t)
  : list Credential.t :=
  match creds with
  | [] => []
  | cr :: rest => if q cr then rest else cr :: remove_first q rest
  end.

(** [DELETE /api/credentials/:id] *)
Definition delete_credential (castObjectId : string -> option string)
    (castError : string -> string) (db : list Tenant)
    (creds : list Credential.t) (x_api_key : option string) (id : string)
  : list Credential.t * Response string :=
  match Api.verifyApiKey db x_api_key with
  | inr r => (creds, r)
  | inl tenant =>
      match castObjectId id with
      | None => (creds, fail 400 (castError id))
      | Some oid =>
          match List.find (own_credential oid tenant) creds with
          | None => (creds, fail 404 "Credential not found")
          | Some _ =>
              (remove_first (own_credential oid tenant) creds,
               json "Credential deleted successfully")
          end
      end
  end.

(** An entry of [recentPages] in the analytics reply. *)
Record RecentPage := {
  recent_title : string;
  recent_category : string;
  recent_updatedAt : Z
}.

(** The reply of [GET /api/analytics]. *)
Record Analytics := {
  analytics_pages : nat;
  analytics_credentials : nat;
  analytics_comments : nat;
  analytics_categories : nat;
  analytics_tags : nat;
  recentPages : list RecentPage;
  categoryBreakdown : list (string * nat)
}.

(** [GET /api/analytics] *)
Definition analytics (db : list Tenant) (all_pages_ : list Page.t)
    (creds : list Credential.t) (x_api_key : option string)
  : Response Analytics :=
  match Api.verifyApiKey db x_api_key with
  | inr r => r
  | inl tenant =>
      let pages :=
        List.filter (fun p => String.eqb (Page.tenantId p) (_id tenant)) all_pages_ in
      let credentials :=
        List.filter (fun cr => String.eqb (Credential.tenantId cr) (_id tenant)) creds in
      let categories := distinct (map Page.category pages) in
      let tags := distinct (flat_map Page.tags pages) in
      let sorted := sort_desc Page.updatedAt pages in
      json {| analytics_pages := length sorted;
              analytics_credentials := length credentials;
              analytics_comments := 0;
              analytics_categories := length categories;
              analytics_tags := length tags;
              recentPages :=
                map (fun p => {| recent_title := Page.title p;
                                 recent_category := Page.category p;
                                 recent_updatedAt := Page.updatedAt p |})
                    (slice0 5 sorted);
              categoryBreakdown :=
                map (fun cat =>
                       (cat, length (List.filter (fun p => String.eqb (Page.category p) cat)
                                            sorted)))
                    categories |}
  end.

End Routes.

(** ** Page routes of the rendering process

    The routes of [frontend/server.js] that decide between a redirect
    and a render. The two [apiCall]s they make are parameters:
    [apiCall_info key] is [apiCall('/tenant/info', ...)] and
    [apiCall_pages key] is [apiCall('/pages', ...)] with the header
    [X-API-Key: key]; both answer [None] for [null]. *)

Module Site.

(** What a route does with [res]. *)
Inductive Reply (L : Type) : Type :=
| Redirect (url : string)
| Render (view : string) (locals : L)
| Send (status : nat) (body : string).
Arguments Redirect {L} url.
Arguments Render {L} view locals.
Arguments Send {L} status body.

(** [req.query.apiKey || req.headers['x-api-key'] || req.autoApiKey];
    [req.autoApiKey] is the [apiKey] of [req.domainTenant]. *)
Definition autoApiKey (domainTenant : option View.t) : option string :=
  match domainTenant with
  | Some tenant => Some (View.apiKey tenant)
  | None => None
  end.

Definition request_apiKey (query header : option string)
    (domainTenant : option View.t) : option string :=
  JS.or_else (JS.or_else query header) (autoApiKey domainTenant).

(** [Math.max(...xs)] of a non-empty array of times. *)
Definition max_time (x : Z) (xs : list Z) : Z := fold_left Z.max xs x.

Record Stats := {
  totalPages : nat;
  categories : nat;
  recentPages : list Page.t;
  lastUpdated : option Z
}.

(** The locals given to the [index] view. *)
Record HomeLocals := {
  home_title : string;
  home_page : string;
  home_tenant : option Info.t;
  home_apiKey : string;
  home_pages : list Page.t;
  home_stats : Stats
}.

(** The [stats] object of the home route. [pages.sort] sorts the array
    in place, so the array the view receives afterwards is the sorted
    one: the result is the pair of the statistics and that array. *)
Definition home_stats_of (pages : list Page.t) : Stats * list Page.t :=
  let total := length pages in
  let cats := length (distinct (map Page.category pages)) in
  let sorted := sort_desc Page.updatedAt pages in
  ({| totalPages := total;
      categories := cats;
      recentPages := slice0 3 sorted;
      lastUpdated :=
        match map Page.updatedAt sorted with
        | [] => None
        | t :: ts => Some (max_time t ts)
        end |},
   sorted).

(** [app.get('/')] *)
Definition home (apiCall_info : string -> option Info.t)
    (apiCall_pages : string -> option (list Page.t))
    (domainTenant : option View.t) (query header : option string)
  : Reply HomeLocals :=
  let apiKey_ := request_apiKey query header domainTenant in
  let via_domain :=
    match domainTenant with
    | Some tenant => if negb (JS.truthy query) then Some tenant else None
    | None => None
    end in
  match via_domain with
  | Some tenant => Redirect ("/dashboard?apiKey=" +:+ View.apiKey tenant)
  | None =>
      let '(tenant, pages, stats) :=
        if JS.truthy apiKey_ then
          let key := JS.interpolate apiKey_ in
          let '(stats, sorted) :=
            home_stats_of (default [] (apiCall_pages key)) in
          (apiCall_info key, sorted, stats)
        else
          (None, [],
           {| totalPages := 0; categories := 0;
              recentPages := []; lastUpdated := None |}) in
      Render "index"
        {| home_title :=
             match tenant with
             | Some info => Info.name info +:+ " Documentation"
             | None => "DocForge - Where Great Documentation is Forged"
             end;
           home_page := "home";
           home_tenant := tenant;
           home_apiKey := JS.interpolate (JS.or_else apiKey_ (Some ""));
           home_pages := pages;
           home_stats := stats |}
  end.

(** The locals given to the [domains] view. *)
Record DomainsLocals := {
  domains_title : string;
  domains_page : string;
  domains_tenant : option Info.t;
  domains_apiKey : string
}.

(** [app.get('/domains')] *)
Definition domains (apiCall_info : string -> option Info.t)
    (domainTenant : option View.t) (query : option string)
  : Reply DomainsLocals :=
  let apiKey_ := JS.or_else query (autoApiKey domainTenant) in
  if negb (JS.truthy apiKey_) then Redirect "/connect"
  else if JS.truthy (autoApiKey domainTenant) && negb (JS.truthy query)
  then Redirect ("/domains?apiKey=" +:+ JS.interpolate (autoApiKey domainTenant))
  else
    Render "domains"
      {| domains_title := "Domain Settings - DocForge";
         domains_page := "domains";
         domains_tenant := apiCall_info (JS.interpolate apiKey_);
         domains_apiKey := JS.interpolate apiKey_ |}.

(** The locals given to the [subdomain-login] view. *)
Record LoginLocals := {
  login_title : string;
  login_subdomain : string
}.

(** [app.get('/subdomain-login')]; [subdomain_] is [req.query.subdomain]. *)
Definition subdomain_login_page (subdomain_ : option string)
  : Reply LoginLocals :=
  if negb (JS.truthy subdomain_) then Redirect "/"
  else
    Render "subdomain-login"
      {| login_title := "Access Required - " +:+ JS.interpolate subdomain_;
         login_subdomain := JS.interpolate subdomain_ |}.

(** [app.get('/admin')]; [adminKey] is [req.query.adminKey]. *)
Definition admin (env adminKey : option string) : Reply (string * string) :=
  if negb (JS.truthy adminKey)
     || negb (String.eqb (JS.interpolate adminKey) (Routes.SUPER_ADMIN_KEY env))
  then Send 403 "Super admin access required"
  else Render "admin" ("Super Admin - DocForge", "admin").

(** The middleware followed by a route: the redirect of the gate, or
    what the route does with the [req.domainTenant] the gate left. *)
Definition behind_gate {L : Type}
    (apiCall : string -> string -> option View.t)
    (host path : string) (cookies : gmap string string)
    (route : option View.t -> Reply L) : Reply L :=
  match Frontend.identifyTenantByDomain apiCall host path cookies with
  | (CHALLENGE target, _) => Redirect target
  | (_, domainTenant) => route domainTenant
  end.

End Site.

(** ** The tool dispatcher of [mcp-server/index.js]

    The handler of [CallToolRequestSchema]: a [switch] on the tool name
    around the methods of the server, inside a [try] whose [catch] turns
    a thrown error into a result flagged [isError]. The methods, which
    call the API over HTTP, are a parameter: each either returns a
    result or throws an error with a message. *)

Module Mcp.

Inductive Tool :=
| createTenant | createPage | getPages | addCredentials | getCredentials
| updatePage | deletePage | updateCredentials | deleteCredentials
| getTenantInfo | uploadFile.

(** The [name]s of the tools answered to [ListToolsRequestSchema], in
    the order of the list. *)
Definition advertised : list string :=
  ["create_tenant"; "create_page"; "get_pages"; "add_credentials";
   "get_credentials"; "update_page"; "delete_page"; "update_credentials";
   "delete_credentials"; "get_tenant_info"; "upload_file"].

(** The [case] labels of the [switch (name)]. *)
Definition dispatch (name : string) : option Tool :=
  if String.eqb name "create_tenant" then Some createTenant
  else if String.eqb name "create_page" then Some createPage
  else if String.eqb name "get_pages" then Some getPages
  else if String.eqb name "add_credentials" then Some addCredentials
  else if String.eqb name "get_credentials" then Some getCredentials
  else if String.eqb name "update_page" then Some updatePage
  else if String.eqb name "delete_page" then Some deletePage
  else if String.eqb name "update_credentials" then Some updateCredentials
  else if String.eqb name "delete_credentials" then Some deleteCredentials
  else if String.eqb name "get_tenant_info" then Some getTenantInfo
  else if String.eqb name "upload_file" then Some uploadFile
  else None.

(** A tool result [{ content: [{ type: "text", text }], isError }];
    an absent [isError] is [false]. *)
Record ToolResult := {
  text : string;
  isError : bool
}.

Inductive Outcome :=
| Returned (r : ToolResult)
| Threw (message : string).

(** The request handler of [CallToolRequestSchema]. *)
Definition callTool {Args : Type} (methods : Tool -> Args -> Outcome)
    (name : string) (args : Args) : ToolResult :=
  let attempt :=
    match dispatch name with
    | Some tool => methods tool args
    | None => Threw ("Unknown tool: " +:+ name)
    end in
  match attempt with
  | Returned r => r
  | Threw message => {| text := "Error: " +:+ message; isError := true |}
  end.

End Mcp.

(** ** Sample pages and credentials *)

Definition no_secrets : Credential.secrets :=
  {| Credential.id := None; Credential.username := None;
     Credential.email := None; Credential.mobile := None;
     Credential.password := None; Credential.apiKey := None;
     Credential.endpoint := None; Credential.accountId := None;
     Credential.region := None; Credential.customFields := ∅ |}.

Definition no_deployment : Credential.deployment :=
  {| Credential.provider := None; Credential.deploy_region := None;
     Credential.deploy_accountId := None; Credential.instanceId := None |}.

Definition credential_of (id owner service : string) : Credential.t :=
  {| Credential._id := id; Credential.tenantId := owner;
     Credential.environment := "production";
     Credential.serviceName := service;
     Credential.credentials := no_secrets;
     Credential.deploymentInfo := no_deployment;
     Credential.createdAt := 1725000005000;
     Credential.updatedAt := 1725000005000 |}.

Definition sample_credentials : list Credential.t :=
  [credential_of "66d1f0a2c4e8b9a1d2e3f501" (_id acme) "billing";
   credential_of "66d1f0a2c4e8b9a1d2e3f502" (_id beta) "search";
   credential_of "66d1f0a2c4e8b9a1d2e3f503" (_id acme) "mailer"].

Definition page_of (id owner title category : string) (updated : Z) : Page.t :=
  {| Page._id := id; Page.tenantId := owner; Page.title := title;
     Page.slug := title; Page.content := "# " +:+ title;
     Page.category := category; Page.tags := [category];
     Page.weight := 999; Page.createdAt := 1725000006000;
     Page.updatedAt := updated |}.

Definition sample_pages : list Page.t :=
  [page_of "66d1f0a2c4e8b9a1d2e3f601" (_id acme) "install" "guides" 1725000010000;
   page_of "66d1f0a2c4e8b9a1d2e3f602" (_id acme) "auth" "api" 1725000030000;
   page_of "66d1f0a2c4e8b9a1d2e3f603" (_id beta) "intro" "guides" 1725000040000;
   page_of "66d1f0a2c4e8b9a1d2e3f604" (_id acme) "deploy" "guides" 1725000020000].

Definition sample_collections : Routes.Collections :=
  {| Routes.all_tenants := directory;
     Routes.all_credentials := sample_credentials;
     Routes.all_pages := sample_pages |}.

(** A password of two euro signs: six bytes, two code units. *)
Definition two_euro_signs : string :=
  String (ascii_of_nat 226) (String (ascii_of_nat 130) (String (ascii_of_nat 172)
  (String (ascii_of_nat 226) (String (ascii_of_nat 130) (String (ascii_of_nat 172)
  EmptyString))))).

(** The value of a hexadecimal digit of either case. *)
Definition hex_value_any (c : ascii) : option N :=
  match hex_value c with
  | Some n => Some n
  | None =>
      let n := N_of_ascii c in
      if ((65 <=? n) && (n <=? 70))%N then Some (n - 55)%N else None
  end.

(** A string of hexadecimal digits in lower case. *)
Fixpoint lower_hex (s : string) : option string :=
  match s with
  | EmptyString => Some EmptyString
  | String c s' =>
      match hex_value_any c, lower_hex s' with
      | Some n, Some r => Some (String (hex_digit n) r)
      | _, _ => None
      end
  end.

(** An ObjectId cast for the samples, on the form the ids of this
    program have: a string of 24 hexadecimal digits of either case is
    cast to the id it denotes, which prints in lower case. Which other
    strings are cast depends on the version of the driver; the sample
    refuses them, and the statements take the cast as a variable. *)
Definition cast24 (s : string) : option string :=
  if (String.length s =? 24)%nat then lower_hex s else None.

(** ** The API process as a whole *)






(** ** Vocabulary of the further properties *)

(** The header value [k] passes [verifyApiKey] as tenant [t]: it is a
    non-empty string and [t] is the first stored tenant with this key. *)
Definition authenticates (db : list Tenant) (k : option string) (t : Tenant)
  : Prop :=
  exists key, k = Some key /\ key <> EmptyString /\
              findOne (by_apiKey key) db = Some t.

(** The reply of [verifyApiKey] to a header that does not pass. *)
Definition key_refused {B : Type} (k : option string) : Response B :=
  fail 401 (if JS.truthy k then "Invalid API key" else "API key required").

(** The directory invariant: distinct [_id]s, and no custom domain or
    subdomain bound to two tenants. *)
Definition directory_ok (db : list Tenant) : Prop :=
  List.NoDup (map _id db) /\
  unique_by customDomain db /\
  unique_by subdomain db.

(** A list of pages is in the order newest update first. *)
Fixpoint newest_first {A : Type} (key : A -> Z) (l : list A) : Prop :=
  match l with
  | [] => True
  | x :: rest => (forall y, In y rest -> key y <= key x) /\ newest_first key rest
  end.

(** * Properties *)

(** ** Strings *)

Section Strings.

Lemma startsWith_app (p r : string) : JS.startsWith (p +:+ r) p = true.
Proof.
  induction p as [|c p IH]; simpl; [reflexivity|].
  rewrite Ascii.eqb_refl. exact IH.
Qed.

Lemma startsWith_inv (s p : string) :
  JS.startsWith s p = true -> exists r, s = p +:+ r.
Proof.
  revert s. induction p as [|c p IH]; intros s H; simpl in *.
  - exists s. reflexivity.
  - destruct s as [|d s]; [discriminate|].
    apply andb_true_iff in H as [Hc Hs].
    apply Ascii.eqb_eq in Hc. subst d.
    destruct (IH _ Hs) as [r ->]. exists r. reflexivity.
Qed.

Lemma includes_inv (s p : string) :
  JS.includes s p = true -> exists a b, s = a +:+ p +:+ b.
Proof.
  induction s as [|c s IH]; simpl; intros H.
  - rewrite orb_false_r in H. apply startsWith_inv in H as [r ->].
    exists EmptyString, r. reflexivity.
  - apply orb_true_iff in H as [H|H].
    + apply startsWith_inv in H as [r ->]. exists EmptyString, r. reflexivity.
    + destruct (IH H) as (a & b & ->). exists (String c a), b. reflexivity.
Qed.

Lemma includes_app (a p b : string) : JS.includes (a +:+ p +:+ b) p = true.
Proof.
  induction a as [|c a IH]; simpl.
  - destruct (p +:+ b) eqn:E; simpl; rewrite <- E, startsWith_app; reflexivity.
  - rewrite IH. apply orb_true_r.
Qed.

(** [includes] is the substring test. *)
Lemma includes_spec (s p : string) :
  JS.includes s p = true <-> exists a b, s = a +:+ p +:+ b.
Proof.
  split; [apply includes_inv|].
  intros (a & b & ->). apply includes_app.
Qed.

Lemma string_app_empty_r (s : string) : s +:+ EmptyString = s.
Proof.
  induction s as [|c s IH]; [reflexivity|].
  change (String c (s +:+ EmptyString) = String c s). f_equal. exact IH.
Qed.

Lemma endsWith_spec (s p : string) :
  JS.endsWith s p = true <-> exists a, s = a +:+ p.
Proof.
  split.
  - induction s as [|c s IH]; cbn [JS.endsWith]; intros H.
    + rewrite orb_false_r in H. apply String.eqb_eq in H. subst p.
      exists EmptyString. reflexivity.
    + apply orb_true_iff in H as [H|H].
      * apply String.eqb_eq in H. exists EmptyString. auto.
      * destruct (IH H) as [a ->]. exists (String c a). reflexivity.
  - intros [a ->]. induction a as [|c a IH].
    + change (JS.endsWith p p = true).
      destruct p; cbn [JS.endsWith]; rewrite String.eqb_refl; reflexivity.
    + change (JS.endsWith (String c (a +:+ p)) p = true).
      cbn [JS.endsWith]. rewrite IH. apply orb_true_r.
Qed.

(** A host that ends with the parent domain also contains it. *)
Lemma endsWith_includes (s p : string) :
  JS.endsWith s p = true -> JS.includes s p = true.
Proof.
  intros H. apply endsWith_spec in H as [a ->].
  apply includes_spec. exists a, EmptyString.
  rewrite string_app_empty_r. reflexivity.
Qed.

Lemma split_nonempty (sep : ascii) (s : string) : JS.split sep s <> [].
Proof.
  induction s as [|c s IH]; simpl; [discriminate|].
  destruct (Ascii.eqb c sep); [discriminate|].
  destruct (JS.split sep s); discriminate.
Qed.

(** [s.split(sep)[0]] is the text before the first separator. *)
Lemma split_first_spec (sep : ascii) (s : string) :
  let l := JS.first (JS.split sep s) in
  JS.has_char sep l = false /\
  (s = l \/ exists rest, s = l +:+ String sep rest).
Proof.
  induction s as [|c s IH]; simpl.
  - split; [reflexivity | left; reflexivity].
  - destruct (Ascii.eqb c sep) eqn:E; simpl.
    + split; [reflexivity|]. right. exists s.
      apply Ascii.eqb_eq in E. subst. reflexivity.
    + simpl in IH. destruct IH as [Hn Hs].
      pose proof (split_nonempty sep s) as Hne.
      destruct (JS.split sep s) as [|h t]; [contradiction|]. simpl in *.
      rewrite E, Hn. split; [reflexivity|].
      destruct Hs as [->|[rest ->]]; [left | right; exists rest]; reflexivity.
Qed.

End Strings.

(** ** Directory lookups *)

Section Directory.

Lemma field_is_true (v : string) (f : option string) :
  field_is v f = true <-> f = Some v.
Proof.
  destruct f as [s|]; simpl; [|split; discriminate].
  rewrite String.eqb_eq. split; congruence.
Qed.

Lemma findOne_Some (q : Tenant -> bool) (db : list Tenant) (t : Tenant) :
  findOne q db = Some t -> In t db /\ q t = true.
Proof. apply find_some. Qed.

Lemma findOne_None (q : Tenant -> bool) (db : list Tenant) :
  (forall t, In t db -> q t = false) -> findOne q db = None.
Proof.
  intros H. unfold findOne. destruct (find q db) as [t|] eqn:E; [|reflexivity].
  apply find_some in E as [Hin Hq]. rewrite (H _ Hin) in Hq. discriminate.
Qed.

Lemma findOne_the (q : Tenant -> bool) (db : list Tenant) (t : Tenant) :
  In t db -> q t = true ->
  (forall t', In t' db -> q t' = true -> t' = t) ->
  findOne q db = Some t.
Proof.
  intros Hin Hq Huniq. unfold findOne.
  destruct (find q db) as [t'|] eqn:E.
  - apply find_some in E as [Hin' Hq']. f_equal. auto.
  - eapply find_none in E; [|exact Hin]. congruence.
Qed.

Lemma findOne_field (f : Tenant -> option string) (db : list Tenant)
    (t : Tenant) (v : string) :
  unique_by f db -> In t db -> f t = Some v ->
  findOne (fun d => field_is v (f d)) db = Some t.
Proof.
  intros Hu Hin Hf. apply findOne_the; [exact Hin | |].
  - apply field_is_true. exact Hf.
  - intros t' Hin' Hq. apply field_is_true in Hq. eapply Hu; eauto.
Qed.

Lemma apiCall_by_domain_custom (db : list Tenant) (h : string) :
  Frontend.apiCall_by_domain db h "custom"
  = Api.by_domain_json <$> findOne (by_customDomain h) db.
Proof.
  unfold Frontend.apiCall_by_domain, Api.tenant_by_domain. simpl.
  destruct (findOne (by_customDomain h) db); reflexivity.
Qed.

Lemma apiCall_by_domain_subdomain (db : list Tenant) (l : string) :
  Frontend.apiCall_by_domain db l "subdomain"
  = Api.by_domain_json <$> findOne (by_subdomain l) db.
Proof.
  unfold Frontend.apiCall_by_domain, Api.tenant_by_domain. simpl.
  destruct (findOne (by_subdomain l) db); reflexivity.
Qed.

(** With the API process reachable, the rendering process resolves a
    host to the JSON view of the tenant the API process resolves it to. *)
Lemma frontend_resolve_agrees (db : list Tenant) (host : string) :
  Frontend.resolve db host
  = Api.by_domain_json <$> Api.identifyTenantByDomain db host.
Proof.
  unfold Frontend.resolve, Frontend.lookup, Api.identifyTenantByDomain.
  rewrite apiCall_by_domain_custom.
  destruct (findOne (by_customDomain host) db); simpl; [reflexivity|].
  destruct (JS.includes host parent_domain); [|reflexivity].
  apply apiCall_by_domain_subdomain.
Qed.

End Directory.

(** ** Domain resolver *)

Section Resolver.

Lemma no_custom_match (db : list Tenant) (host : string) :
  (forall t, In t db -> customDomain t <> Some host) ->
  findOne (by_customDomain host) db = None.
Proof.
  intros H. apply findOne_None. intros t Hin.
  destruct (by_customDomain host t) eqn:E; [|reflexivity].
  apply field_is_true in E. destruct (H t Hin E).
Qed.

(** C5, as stated, fails: the host test is [includes], not [endsWith].
    The host [acme.docforge.com.evil.net] does not end with the parent
    domain and is nobody's custom domain, yet it resolves to the tenant
    whose subdomain is [acme]. *)
Lemma host_not_ending_with_parent_resolves :
  ~ (forall (db : list Tenant) (host : string),
        JS.endsWith host parent_domain = false ->
        (forall t, In t db -> customDomain t <> Some host) ->
        Api.identifyTenantByDomain db host = None).
Proof.
  intros H.
  specialize (H directory "acme.docforge.com.evil.net" eq_refl).
  assert (Hn : forall t, In t directory ->
                 customDomain t <> Some "acme.docforge.com.evil.net").
  { intros t [<-|[<-|[<-|[]]]]; discriminate. }
  specialize (H Hn). vm_compute in H. discriminate.
Qed.

(** C5 (amended): for a host that is no tenant's custom domain, both
    processes look a subdomain up exactly when the host contains the
    parent domain [.docforge.com] somewhere (not necessarily at its end);
    the label looked up is the text before the first dot; a host that
    does not contain the parent domain resolves to no tenant. *)
Theorem subdomain_lookup_iff_host_includes_parent
    (db : list Tenant) (host : string) :
  (forall t, In t db -> customDomain t <> Some host) ->
  let label := JS.first (JS.split dot host) in
  (JS.includes host parent_domain = true
     <-> exists a b, host = a +:+ parent_domain +:+ b) /\
  (JS.has_char dot label = false /\
     (host = label \/ exists rest, host = label +:+ String dot rest)) /\
  Api.identifyTenantByDomain db host
    = (if JS.includes host parent_domain
       then findOne (by_subdomain label) db else None) /\
  Frontend.resolve db host
    = (if JS.includes host parent_domain
       then Api.by_domain_json <$> findOne (by_subdomain label) db else None) /\
  (JS.includes host parent_domain = false ->
     Api.identifyTenantByDomain db host = None /\
     Frontend.resolve db host = None).
Proof.
  intros Hn label.
  pose proof (no_custom_match db host Hn) as Hc.
  assert (Ha : Api.identifyTenantByDomain db host
               = if JS.includes host parent_domain
                 then findOne (by_subdomain label) db else None).
  { unfold Api.identifyTenantByDomain. rewrite Hc. reflexivity. }
  assert (Hf : Frontend.resolve db host
               = if JS.includes host parent_domain
                 then Api.by_domain_json <$> findOne (by_subdomain label) db
                 else None).
  { rewrite frontend_resolve_agrees, Ha.
    destruct (JS.includes host parent_domain); reflexivity. }
  split; [apply includes_spec|].
  split; [apply split_first_spec|].
  split; [exact Ha|]. split; [exact Hf|].
  intros Hi. rewrite Ha, Hf, Hi. split; reflexivity.
Qed.

Lemma subdomain_lookup_iff_host_includes_parent_witness :
  (forall t, In t directory -> customDomain t <> Some "open.docforge.com:3001") /\
  Api.identifyTenantByDomain directory "open.docforge.com:3001"
    = (if JS.includes "open.docforge.com:3001" parent_domain
       then findOne (by_subdomain (JS.first (JS.split dot "open.docforge.com:3001")))
              directory
       else None).
Proof.
  assert (Hn : forall t, In t directory ->
                 customDomain t <> Some "open.docforge.com:3001").
  { intros t [<-|[<-|[<-|[]]]]; discriminate. }
  split; [exact Hn|].
  exact (proj1 (proj2 (proj2
    (subdomain_lookup_iff_host_includes_parent directory _ Hn)))).
Defined.

(** C6: a host equal to a tenant's custom domain resolves to that
    tenant, in both processes, whatever the subdomain lookup would have
    found: the custom-domain query runs first and the subdomain branch
    is taken only when it found nothing. *)
Theorem custom_domain_resolved_first
    (db : list Tenant) (host : string) (t : Tenant) :
  unique_by customDomain db ->
  In t db ->
  customDomain t = Some host ->
  Api.identifyTenantByDomain db host = Some t /\
  Frontend.resolve db host = Some (Api.by_domain_json t).
Proof.
  intros Hu Hin Hc.
  assert (Ha : Api.identifyTenantByDomain db host = Some t).
  { unfold Api.identifyTenantByDomain, by_customDomain.
    rewrite (findOne_field customDomain db t host Hu Hin Hc). reflexivity. }
  split; [exact Ha|].
  rewrite frontend_resolve_agrees, Ha. reflexivity.
Qed.

Lemma contested_unique_customDomain : unique_by customDomain contested_directory.
Proof.
  intros t1 t2 v H1 H2 E1 E2.
  destruct H1 as [<-|[<-|[]]]; destruct H2 as [<-|[<-|[]]];
    simpl in E1, E2; solve [reflexivity | congruence].
Defined.

(** [acme.docforge.com] is [squatter]'s custom domain and also names
    [acme]'s subdomain: it resolves to [squatter]. *)
Lemma custom_domain_resolved_first_witness :
  unique_by customDomain contested_directory /\
  In squatter contested_directory /\
  customDomain squatter = Some "acme.docforge.com" /\
  JS.includes "acme.docforge.com" parent_domain = true /\
  subdomain acme = Some (JS.first (JS.split dot "acme.docforge.com")) /\
  Api.identifyTenantByDomain contested_directory "acme.docforge.com"
    = Some squatter /\
  Frontend.resolve contested_directory "acme.docforge.com"
    = Some (Api.by_domain_json squatter).
Proof.
  assert (Hin : In squatter contested_directory) by (simpl; auto).
  split; [exact contested_unique_customDomain|].
  split; [exact Hin|]. split; [reflexivity|]. split; [reflexivity|].
  split; [reflexivity|].
  exact (custom_domain_resolved_first contested_directory "acme.docforge.com"
           squatter contested_unique_customDomain Hin eq_refl).
Defined.

(** C4: [POST /api/tenant/by-domain] never looks at the [x-api-key]
    header, and for a tenant bound to the requested domain it answers
    200 with a JSON object that carries the tenant's [apiKey] and the
    stored [subdomainPassword] as they are. *)
Theorem by_domain_discloses_secrets
    (db : list Tenant) (x_api_key : option string) (type d : string)
    (t : Tenant) :
  In t db ->
  bound_to type d t ->
  (forall t', In t' db -> bound_to type d t' -> t' = t) ->
  Api.tenant_by_domain db x_api_key d type = Api.tenant_by_domain db None d type /\
  exists v,
    Api.tenant_by_domain db None d type
      = {| status := 200; set_cookie := None; payload := Data v |} /\
    View.apiKey v = apiKey t /\
    View.subdomainPassword v = subdomainPassword t /\
    Frontend.apiCall_by_domain db d type = Some v.
Proof.
  intros Hin Hb Hu. split; [reflexivity|].
  exists (Api.by_domain_json t).
  assert (Hfind :
    (if String.eqb type "custom" then findOne (by_customDomain d) db
     else if String.eqb type "subdomain" then findOne (by_subdomain d) db
     else None) = Some t).
  { destruct Hb as [[-> Hc]|[-> Hs]]; simpl.
    - apply findOne_the; [exact Hin | apply field_is_true; exact Hc |].
      intros t' Hin' Hq. apply Hu; [exact Hin'|]. left. split; [reflexivity|].
      apply field_is_true. exact Hq.
    - apply findOne_the; [exact Hin | apply field_is_true; exact Hs |].
      intros t' Hin' Hq. apply Hu; [exact Hin'|]. right. split; [reflexivity|].
      apply field_is_true. exact Hq. }
  unfold Frontend.apiCall_by_domain, Api.tenant_by_domain.
  rewrite Hfind. simpl. repeat split; reflexivity.
Qed.

Lemma by_domain_discloses_secrets_witness :
  In acme directory /\
  bound_to "subdomain" "acme" acme /\
  (forall t', In t' directory -> bound_to "subdomain" "acme" t' -> t' = acme) /\
  exists v,
    Api.tenant_by_domain directory None "acme" "subdomain"
      = {| status := 200; set_cookie := None; payload := Data v |} /\
    View.apiKey v = "a3f1c2d4" /\
    View.subdomainPassword v = Some "secret123".
Proof.
  assert (Hin : In acme directory) by (simpl; auto).
  assert (Hb : bound_to "subdomain" "acme" acme) by (right; split; reflexivity).
  assert (Hu : forall t', In t' directory ->
                 bound_to "subdomain" "acme" t' -> t' = acme).
  { intros t' [<-|[<-|[<-|[]]]] [[E _]|[_ E]];
      solve [reflexivity | discriminate E]. }
  split; [exact Hin|]. split; [exact Hb|]. split; [exact Hu|].
  destruct (by_domain_discloses_secrets directory None "subdomain" "acme" acme
              Hin Hb Hu) as [_ [v (Hr & Hk & Hp & _)]].
  exists v. split; [exact Hr|]. split; [exact Hk | exact Hp].
Defined.

End Resolver.

(** ** Access gates *)

Section Gates.

Lemma truthy_spec (v : option string) :
  JS.truthy v = true <-> exists s, v = Some s /\ s <> EmptyString.
Proof.
  destruct v as [s|]; simpl.
  - rewrite negb_true_iff, String.eqb_neq. split.
    + intros H. exists s. split; [reflexivity | exact H].
    + intros (s' & [= <-] & H). exact H.
  - split; [discriminate | intros (s & H & _); discriminate].
Qed.

(** The session test of the API gate passes exactly for a non-empty
    token that the store maps to a session of this tenant that has not
    expired. *)
Lemma session_ok_spec (sessions : gmap string Session) (now : Z)
    (t : Tenant) (tok : option string) :
  Api.session_ok sessions now t tok = true <->
  exists v s, tok = Some v /\ v <> EmptyString /\ sessions !! v = Some s /\
              tenantId s = _id t /\ now < expires s.
Proof.
  unfold Api.session_ok. split.
  - destruct (JS.truthy tok) eqn:Ht; [|discriminate].
    apply truthy_spec in Ht as (v & -> & Hv). simpl.
    destruct (sessions !! v) as [s|] eqn:Hs; [|discriminate].
    intros H. apply andb_true_iff in H as [H1 H2].
    apply String.eqb_eq in H1. apply Z.ltb_lt in H2.
    exists v, s. auto.
  - intros (v & s & -> & Hv & Hs & Hid & Hexp).
    assert (Ht : JS.truthy (Some v) = true).
    { apply truthy_spec. exists v. auto. }
    rewrite Ht. simpl. rewrite Hs, Hid, String.eqb_refl. simpl.
    apply Z.ltb_lt. exact Hexp.
Qed.

(** On the API gate the rule of spec 4.2(5) holds: for a resolved tenant
    and a path that is not skipped, a token that is unknown, bound to
    another tenant, or expired is answered by the redirect. *)
Lemma api_gate_challenges_invalid_session
    (sessions : gmap string Session) (now : Z) (path : string)
    (t : Tenant) (cookies : gmap string string) :
  skipped_path path = false ->
  (forall v s, cookies !! cookie_for (subdomain t) = Some v ->
               sessions !! v = Some s ->
               tenantId s <> _id t \/ expires s <= now) ->
  Api.verifySubdomainAccess sessions now path (Some t) cookies
  = (CHALLENGE (login_url (subdomain t)), None).
Proof.
  intros Hp Hbad. unfold Api.verifySubdomainAccess. rewrite Hp.
  destruct (Api.session_ok sessions now t (cookies !! cookie_for (subdomain t)))
    eqn:E; [|reflexivity].
  apply session_ok_spec in E as (v & s & Hc & _ & Hs & Hid & Hexp).
  destruct (Hbad v s Hc Hs) as [H|H]; [congruence | lia].
Qed.

(** On the API gate a resolved tenant is let through only on a stored,
    unexpired session whose [tenantId] is this tenant's [_id]. *)
Lemma api_gate_allow_needs_bound_session
    (sessions : gmap string Session) (now : Z) (path : string)
    (t : Tenant) (cookies : gmap string string) (a : option Tenant) :
  Api.verifySubdomainAccess sessions now path (Some t) cookies = (ALLOW, a) ->
  exists v s, cookies !! cookie_for (subdomain t) = Some v /\
              sessions !! v = Some s /\
              tenantId s = _id t /\ now < expires s.
Proof.
  unfold Api.verifySubdomainAccess.
  destruct (skipped_path path); [discriminate|].
  destruct (Api.session_ok sessions now t (cookies !! cookie_for (subdomain t)))
    eqn:E; [|discriminate].
  intros _. apply session_ok_spec in E as (v & s & Hc & _ & Hs & Hid & Hexp).
  exists v, s. auto.
Qed.

(** The rendering process lets every request for a tenant without a
    subdomain password through. *)
Lemma frontend_gate_allows_without_password
    (apiCall : string -> string -> option View.t)
    (host path : string) (cookies : gmap string string) (v : View.t) :
  skipped_path path = false ->
  Frontend.lookup apiCall host = Some v ->
  JS.truthy (View.subdomainPassword v) = false ->
  Frontend.identifyTenantByDomain apiCall host path cookies = (ALLOW, Some v).
Proof.
  intros Hp Hl Hpw. unfold Frontend.identifyTenantByDomain.
  rewrite Hp, Hl, Hpw, andb_false_r. reflexivity.
Qed.

(** The rendering process looks at the presence of the cookie only: any
    non-empty value passes, whatever the session store of the API
    process holds. *)
Lemma frontend_gate_allows_any_token
    (apiCall : string -> string -> option View.t)
    (host path : string) (cookies : gmap string string) (v : View.t)
    (tok : string) :
  skipped_path path = false ->
  path <> "/subdomain-login" ->
  Frontend.lookup apiCall host = Some v ->
  cookies !! cookie_for (View.subdomain v) = Some tok ->
  tok <> EmptyString ->
  Frontend.identifyTenantByDomain apiCall host path cookies = (ALLOW, Some v).
Proof.
  intros Hp Hl Hv Hc Ht. unfold Frontend.identifyTenantByDomain.
  rewrite Hp, Hv.
  destruct (JS.truthy (View.subdomain v) && JS.truthy (View.subdomainPassword v));
    [|reflexivity].
  apply String.eqb_neq in Hl. rewrite Hl, Hc.
  assert (JS.truthy (Some tok) = true) as ->
    by (apply truthy_spec; exists tok; auto).
  reflexivity.
Qed.

(** The API gate never reads [subdomainPassword]: without a session
    every resolved tenant is redirected. *)
Lemma api_gate_challenges_without_cookie
    (sessions : gmap string Session) (now : Z) (path : string) (t : Tenant)
    (cookies : gmap string string) :
  skipped_path path = false ->
  cookies !! cookie_for (subdomain t) = None ->
  Api.verifySubdomainAccess sessions now path (Some t) cookies
  = (CHALLENGE (login_url (subdomain t)), None).
Proof.
  intros Hp Hc. apply api_gate_challenges_invalid_session; [exact Hp|].
  intros v s Hv. congruence.
Qed.

(** C1 (code defect, rendering process): [beta] has a subdomain
    password, the path [/] is not skipped and no session exists at all,
    yet the cookie value [garbage] is let through by the gate of
    [frontend/server.js]; the gate of [api/server.js] redirects the same
    request. *)
Theorem frontend_gate_accepts_garbage_cookie :
  Api.identifyTenantByDomain directory "beta.docforge.com" = Some beta /\
  subdomainPassword beta = Some "hunter22" /\
  skipped_path "/" = false /\
  subdomainSessions fresh_server !! "garbage" = None /\
  Frontend.gate directory "beta.docforge.com" "/"
    {[ "subdomain_auth_beta" := "garbage" ]} = ALLOW /\
  Api.gate fresh_server 1725000100000 "beta.docforge.com" "/"
    {[ "subdomain_auth_beta" := "garbage" ]}
    = CHALLENGE "/subdomain-login?subdomain=beta".
Proof. repeat split; vm_compute; reflexivity. Qed.

(** C2 (code defect, API process): [open_docs] has no subdomain
    password, yet [verifySubdomainAccess] redirects a request for its
    host to the login page; the gate of the rendering process lets the
    same request through. *)
Theorem api_gate_challenges_passwordless_tenant :
  Api.identifyTenantByDomain directory "open.docforge.com" = Some open_docs /\
  subdomainPassword open_docs = None /\
  skipped_path "/" = false /\
  Api.gate fresh_server 1725000100000 "open.docforge.com" "/" ∅
    = CHALLENGE "/subdomain-login?subdomain=open" /\
  Frontend.gate directory "open.docforge.com" "/" ∅ = ALLOW.
Proof. repeat split; vm_compute; reflexivity. Qed.

(** C3 (code defect, rendering process): the token minted by a login to
    [beta] is stored with [beta]'s identifier; presented under the
    cookie name of [acme] to [acme]'s host it is let through by the gate
    of [frontend/server.js], which has no session store to consult; the
    gate of [api/server.js] redirects the same request. *)
Theorem frontend_gate_accepts_other_tenants_session :
  let logged := Api.subdomain_login 1725000100000 true sample_bytes
                  fresh_server "beta" "hunter22" in
  let token := Api.generateSubdomainToken sample_bytes in
  status (snd logged) = 200%nat /\
  tenantId <$> (subdomainSessions (fst logged) !! token) = Some (_id beta) /\
  _id beta <> _id acme /\
  Api.identifyTenantByDomain (tenants (fst logged)) "acme.docforge.com" = Some acme /\
  Frontend.gate (tenants (fst logged)) "acme.docforge.com" "/"
    {[ "subdomain_auth_acme" := token ]} = ALLOW /\
  Api.gate (fst logged) 1725000200000 "acme.docforge.com" "/"
    {[ "subdomain_auth_acme" := token ]}
    = CHALLENGE "/subdomain-login?subdomain=acme".
Proof.
  cbv zeta. repeat split; try (vm_compute; reflexivity).
  vm_compute. discriminate.
Qed.

(** The skipped paths are those with one of the four prefixes. *)
Lemma skipped_path_spec (path : string) :
  skipped_path path = true <->
  exists r, path = "/api/" +:+ r \/ path = "/css/" +:+ r \/
            path = "/js/" +:+ r \/ path = "/images/" +:+ r.
Proof.
  unfold skipped_path. rewrite !orb_true_iff. split.
  - intros [[[H|H]|H]|H]; apply startsWith_inv in H as [r ->]; exists r; auto.
  - intros (r & [ -> | [ -> | [ -> | -> ] ] ]); rewrite startsWith_app; auto.
Qed.

(** C9: the API gate does not exempt the login page.
    [verifySubdomainAccess] skips the four prefixes and has no case for
    [/subdomain-login]: a request for the login page of Beta that
    carries no cookie is redirected to [/subdomain-login?subdomain=beta],
    the page it asked for, whatever the session store and the clock, so
    following the redirect gives the same redirect again. The gate of
    the rendering process has the case ('Skip auth check for login
    page') and lets the same request through. *)
Theorem api_gate_redirects_login_page_to_itself
    (sessions : gmap string Session) (now : Z) :
  let srv := {| tenants := directory; subdomainSessions := sessions |} in
  Api.gate srv now "beta.docforge.com" "/subdomain-login" ∅
  = CHALLENGE "/subdomain-login?subdomain=beta" /\
  Api.gate srv now "beta.docforge.com" "/subdomain-login" ∅ <> EXEMPT /\
  Frontend.gate directory "beta.docforge.com" "/subdomain-login" ∅ = EXEMPT.
Proof.
  cbv zeta.
  assert (Ha : Api.gate {| tenants := directory; subdomainSessions := sessions |}
                 now "beta.docforge.com" "/subdomain-login" ∅
               = CHALLENGE "/subdomain-login?subdomain=beta") by reflexivity.
  split; [exact Ha|]. split; [rewrite Ha; discriminate | reflexivity].
Qed.



End Gates.

(** ** Credential issuer *)

Section Login.

Lemma hex_byte_roundtrip (b : Byte.byte) :
  let n := Byte.to_N b in
  hex_value (hex_digit (n / 16)) = Some (n / 16)%N /\
  hex_value (hex_digit (n mod 16)) = Some (n mod 16)%N /\
  Byte.of_N (n / 16 * 16 + n mod 16) = Some b.
Proof. destruct b; vm_compute; auto. Qed.

Lemma toHex_length (buf : list Byte.byte) :
  String.length (toHex buf) = (2 * length buf)%nat.
Proof.
  induction buf as [|b buf IH]; [reflexivity|].
  cbn [toHex String.length length]. rewrite IH. lia.
Qed.

Lemma fromHex_toHex (buf : list Byte.byte) : fromHex (toHex buf) = Some buf.
Proof.
  induction buf as [|b buf IH]; [reflexivity|].
  cbn [toHex fromHex].
  destruct (hex_byte_roundtrip b) as (H1 & H2 & H3).
  cbv zeta in H1, H2, H3. rewrite H1, H2, IH, H3. reflexivity.
Qed.

(** Distinct buffers give distinct tokens: the token keeps every bit of
    the random buffer. *)
Lemma toHex_inj (b1 b2 : list Byte.byte) : toHex b1 = toHex b2 -> b1 = b2.
Proof.
  intros H. apply (f_equal fromHex) in H.
  rewrite !fromHex_toHex in H. congruence.
Qed.

Lemma login_password_test (stored : option string) (pw : string) :
  negb (JS.truthy stored)
  || negb (String.eqb (JS.interpolate stored) pw) = false
  <-> stored = Some pw /\ pw <> EmptyString.
Proof.
  rewrite orb_false_iff, !negb_false_iff, truthy_spec, String.eqb_eq. split.
  - intros [(s & -> & Hs) Heq]. simpl in Heq. subst s. auto.
  - intros [-> Hne]. split; [exists pw; auto | reflexivity].
Qed.

(** A login for a known subdomain with its stored, non-empty password
    is answered 200. *)
Lemma login_succeeds (now : Z) (production : bool) (rnd : list Byte.byte)
    (srv : Server) (sd pw : string) (tenant : Tenant) :
  findOne (by_subdomain sd) (tenants srv) = Some tenant ->
  subdomainPassword tenant = Some pw ->
  pw <> EmptyString ->
  status (snd (Api.subdomain_login now production rnd srv sd pw)) = 200%nat.
Proof.
  intros Hf Hp Hne. unfold Api.subdomain_login. rewrite Hf.
  destruct (login_password_test (subdomainPassword tenant) pw) as [_ H].
  rewrite (H (conj Hp Hne)). reflexivity.
Qed.

(** Every login that is not answered 200 sets no cookie and returns the
    server state it was given. *)
Lemma login_refused_no_effect (now : Z) (production : bool)
    (rnd : list Byte.byte) (srv : Server) (sd pw : string) :
  let r := Api.subdomain_login now production rnd srv sd pw in
  status (snd r) <> 200%nat ->
  fst r = srv /\ set_cookie (snd r) = None.
Proof.
  unfold Api.subdomain_login.
  destruct (findOne (by_subdomain sd) (tenants srv)) as [t|]; simpl; [|auto].
  destruct (negb (JS.truthy (subdomainPassword t))
            || negb (String.eqb (JS.interpolate (subdomainPassword t)) pw));
    simpl; [auto | congruence].
Qed.

(** The state and the answer of an accepted login. *)
Lemma login_result (now : Z) (production : bool) (rnd : list Byte.byte)
    (srv : Server) (sd pw : string) (tenant : Tenant) :
  findOne (by_subdomain sd) (tenants srv) = Some tenant ->
  subdomainPassword tenant = Some pw ->
  pw <> EmptyString ->
  Api.subdomain_login now production rnd srv sd pw
  = ({| tenants := tenants srv;
        subdomainSessions :=
          <[Api.generateSubdomainToken rnd :=
              {| tenantId := _id tenant; session_subdomain := Some sd;
                 expires := now + day_ms |}]> (subdomainSessions srv) |},
     {| status := 200;
        set_cookie :=
          Some {| cookie_name := "subdomain_auth_" +:+ sd;
                  cookie_value := Api.generateSubdomainToken rnd;
                  httpOnly := true; secure := production; maxAge := day_ms |};
        payload := Data {| Api.success := true;
                           Api.redirectUrl := "/dashboard" |} |}).
Proof.
  intros Hf Hp Hne.
  assert (Hsd : subdomain tenant = Some sd).
  { apply findOne_Some in Hf as [_ Hq]. apply field_is_true in Hq. exact Hq. }
  unfold Api.subdomain_login. rewrite Hf.
  destruct (login_password_test (subdomainPassword tenant) pw) as [_ H].
  rewrite (H (conj Hp Hne)), Hsd. reflexivity.
Qed.

(** An answer 200 means the stored password was non-empty and given. *)
Lemma login_ok_password (now : Z) (production : bool) (rnd : list Byte.byte)
    (srv : Server) (sd pw : string) (tenant : Tenant) :
  findOne (by_subdomain sd) (tenants srv) = Some tenant ->
  status (snd (Api.subdomain_login now production rnd srv sd pw)) = 200%nat ->
  subdomainPassword tenant = Some pw /\ pw <> EmptyString.
Proof.
  intros Hf. unfold Api.subdomain_login. rewrite Hf.
  destruct (negb (JS.truthy (subdomainPassword tenant))
            || negb (String.eqb (JS.interpolate (subdomainPassword tenant)) pw))
    eqn:E; [simpl; discriminate|].
  intros _. apply login_password_test. exact E.
Qed.

(** C7: a successful login with the tenant's stored password draws the
    token from the 32 random bytes (64 hex digits from which the 256 bits
    are recovered), stores under it a session with the tenant's [_id],
    the subdomain label and [expires = now + 24h], leaves the tenants
    alone, and sets the cookie [subdomain_auth_<label>] to the token,
    [httpOnly], [secure] exactly in production, with a 24h [maxAge]. *)
Theorem login_success_mints_session
    (now : Z) (production : bool) (rnd : list Byte.byte) (srv : Server)
    (sd pw : string) (tenant : Tenant) :
  length rnd = 32%nat ->
  findOne (by_subdomain sd) (tenants srv) = Some tenant ->
  subdomainPassword tenant = Some pw ->
  status (snd (Api.subdomain_login now production rnd srv sd pw)) = 200%nat ->
  let r := Api.subdomain_login now production rnd srv sd pw in
  let token := Api.generateSubdomainToken rnd in
  String.length token = 64%nat /\
  fromHex token = Some rnd /\
  (forall rnd', Api.generateSubdomainToken rnd' = token -> rnd' = rnd) /\
  subdomainSessions (fst r)
    = <[token := {| tenantId := _id tenant;
                    session_subdomain := Some sd;
                    expires := now + 24 * 60 * 60 * 1000 |}]>
        (subdomainSessions srv) /\
  tenants (fst r) = tenants srv /\
  snd r = {| status := 200;
             set_cookie :=
               Some {| cookie_name := "subdomain_auth_" +:+ sd;
                       cookie_value := token;
                       httpOnly := true;
                       secure := production;
                       maxAge := 24 * 60 * 60 * 1000 |};
             payload := Data {| Api.success := true;
                                Api.redirectUrl := "/dashboard" |} |} /\
  subdomain tenant = Some sd.
Proof.
  intros Hlen Hf Hp Hok r token.
  split. { unfold token, Api.generateSubdomainToken.
           rewrite toHex_length, Hlen. reflexivity. }
  split. { apply fromHex_toHex. }
  split. { intros rnd' H. apply toHex_inj. exact H. }
  destruct (login_ok_password _ _ _ _ _ _ _ Hf Hok) as [_ Hne].
  subst r token.
  rewrite (login_result now production rnd srv sd pw tenant Hf Hp Hne).
  repeat split; try reflexivity.
  apply findOne_Some in Hf as [_ Hq]. apply field_is_true in Hq. exact Hq.
Qed.

Lemma login_success_mints_session_witness :
  length sample_bytes = 32%nat /\
  findOne (by_subdomain "beta") (tenants fresh_server) = Some beta /\
  subdomainPassword beta = Some "hunter22" /\
  status (snd (Api.subdomain_login 1725000100000 true sample_bytes
                 fresh_server "beta" "hunter22")) = 200%nat /\
  subdomainSessions
    (fst (Api.subdomain_login 1725000100000 true sample_bytes
            fresh_server "beta" "hunter22"))
  = <[Api.generateSubdomainToken sample_bytes :=
        {| tenantId := _id beta; session_subdomain := Some "beta";
           expires := 1725000100000 + 24 * 60 * 60 * 1000 |}]> ∅.
Proof.
  split; [reflexivity|]. split; [reflexivity|]. split; [reflexivity|].
  split; [reflexivity|].
  exact (proj1 (proj2 (proj2 (proj2
    (login_success_mints_session 1725000100000 true sample_bytes fresh_server
       "beta" "hunter22" beta eq_refl eq_refl eq_refl eq_refl))))).
Defined.

(** C8: a login whose subdomain matches no tenant, or whose password is
    not the one stored for the tenant, is answered by an error (404
    "Subdomain not found", respectively 401 "Invalid password"), sets no
    cookie and returns the server state, session store included, as it
    was. *)
Theorem login_failure_changes_nothing
    (now : Z) (production : bool) (rnd : list Byte.byte) (srv : Server)
    (sd pw : string) :
  (forall t, findOne (by_subdomain sd) (tenants srv) = Some t ->
             subdomainPassword t <> Some pw) ->
  let r := Api.subdomain_login now production rnd srv sd pw in
  fst r = srv /\
  subdomainSessions (fst r) = subdomainSessions srv /\
  set_cookie (snd r) = None /\
  ((findOne (by_subdomain sd) (tenants srv) = None /\
    snd r = {| status := 404; set_cookie := None;
               payload := Error "Subdomain not found" |}) \/
   (exists t, findOne (by_subdomain sd) (tenants srv) = Some t /\
    snd r = {| status := 401; set_cookie := None;
               payload := Error "Invalid password" |})).
Proof.
  intros Hbad. unfold Api.subdomain_login.
  destruct (findOne (by_subdomain sd) (tenants srv)) as [t|] eqn:Hf; simpl.
  - destruct (negb (JS.truthy (subdomainPassword t))
              || negb (String.eqb (JS.interpolate (subdomainPassword t)) pw))
      eqn:E; simpl.
    + repeat split; try reflexivity. right. exists t. auto.
    + apply login_password_test in E as [Hp _]. destruct (Hbad t eq_refl Hp).
  - repeat split; try reflexivity. left. auto.
Qed.

Lemma login_failure_changes_nothing_witness :
  (forall t, findOne (by_subdomain "beta") (tenants fresh_server) = Some t ->
             subdomainPassword t <> Some "letmein") /\
  fst (Api.subdomain_login 1725000100000 true sample_bytes fresh_server
         "beta" "letmein") = fresh_server /\
  set_cookie (snd (Api.subdomain_login 1725000100000 true sample_bytes
                     fresh_server "beta" "letmein")) = None.
Proof.
  assert (H : forall t, findOne (by_subdomain "beta") (tenants fresh_server) = Some t ->
                        subdomainPassword t <> Some "letmein").
  { intros t Ht. vm_compute in Ht. injection Ht as <-. discriminate. }
  split; [exact H|].
  destruct (login_failure_changes_nothing 1725000100000 true sample_bytes
              fresh_server "beta" "letmein" H) as (H1 & _ & H3 & _).
  split; [exact H1 | exact H3].
Defined.

(** The end-to-end behaviour of the API gate after a login: the cookie
    that the login set opens the tenant's pages while the clock is before
    [now + 24h] and is answered by the redirect from then on. *)
Lemma api_gate_after_login
    (now later : Z) (production : bool) (rnd : list Byte.byte) (srv : Server)
    (sd pw path : string) (tenant : Tenant) :
  length rnd = 32%nat ->
  findOne (by_subdomain sd) (tenants srv) = Some tenant ->
  subdomainPassword tenant = Some pw ->
  pw <> EmptyString ->
  skipped_path path = false ->
  let r := Api.subdomain_login now production rnd srv sd pw in
  forall c, set_cookie (snd r) = Some c ->
  fst (Api.verifySubdomainAccess (subdomainSessions (fst r)) later path
         (Some tenant) {[ cookie_name c := cookie_value c ]})
  = if later <? now + day_ms then ALLOW
    else CHALLENGE (login_url (Some sd)).
Proof.
  intros Hlen Hf Hp Hne Hpath r c Hc. subst r.
  rewrite (login_result now production rnd srv sd pw tenant Hf Hp Hne) in *.
  cbn [fst snd set_cookie subdomainSessions] in *. injection Hc as <-.
  assert (Hsd : subdomain tenant = Some sd).
  { apply findOne_Some in Hf as [_ Hq]. apply field_is_true in Hq. exact Hq. }
  unfold Api.verifySubdomainAccess. rewrite Hpath, Hsd.
  cbn [cookie_name cookie_value cookie_for JS.interpolate].
  rewrite lookup_singleton_eq.
  unfold Api.session_ok.
  assert (Ht : JS.truthy (Some (Api.generateSubdomainToken rnd)) = true).
  { apply truthy_spec. eexists. split; [reflexivity|].
    intros E. apply (f_equal String.length) in E.
    unfold Api.generateSubdomainToken in E.
    rewrite toHex_length, Hlen in E. discriminate. }
  rewrite Ht. cbn [JS.interpolate]. rewrite lookup_insert_eq.
  cbn [tenantId expires]. rewrite String.eqb_refl. cbn [andb].
  destruct (later <? now + day_ms); reflexivity.
Qed.

End Login.

(** ** Tenant configuration: what the updates leave alone *)

Section Frames.

Variable resolves : string -> bool.
Variable production : bool.

Lemma verifyApiKey_In {B : Type} (db : list Tenant) (k : option string)
    (t : Tenant) :
  @Api.verifyApiKey B db k = inl t -> In t db.
Proof.
  unfold Api.verifyApiKey. destruct (JS.truthy k); [|discriminate].
  destruct (findOne _ db) as [t'|] eqn:E; [|discriminate].
  intros [= <-]. apply findOne_Some in E. tauto.
Qed.

Lemma Forall2_same {A : Type} (R : A -> A -> Prop) (l : list A) :
  (forall x, R x x) -> Forall2 R l l.
Proof. intros H. induction l; constructor; auto. Qed.

(** Saving a changed copy of a stored document relates the collection
    to itself pointwise: the document by the change, the others by
    identity. *)
Lemma save_pointwise (R : Tenant -> Tenant -> Prop)
    (db : list Tenant) (t t' : Tenant) :
  (forall x, R x x) ->
  List.NoDup (map _id db) ->
  In t db ->
  _id t' = _id t ->
  R t t' ->
  Forall2 R db (Api.save t' db).
Proof.
  intros Hrefl Hnd Hin Hid HR.
  induction db as [|d rest IH]; [constructor|].
  simpl in Hnd. apply NoDup_cons_iff in Hnd as [Hfresh Hnd].
  cbn [Api.save]. destruct (String.eqb (_id d) (_id t')) eqn:E.
  - apply String.eqb_eq in E. destruct Hin as [->|Hin].
    + constructor; [exact HR | apply Forall2_same; exact Hrefl].
    + exfalso. apply Hfresh. rewrite E, Hid. apply in_map. exact Hin.
  - apply String.eqb_neq in E. destruct Hin as [->|Hin]; [congruence|].
    constructor; [apply Hrefl | apply IH; assumption].
Qed.

Lemma Forall2_credentials (R : Tenant -> Tenant -> Prop) (db db' : list Tenant) :
  (forall x y, R x y -> credentials y = credentials x) ->
  Forall2 R db db' ->
  map credentials db' = map credentials db.
Proof.
  intros HR H. induction H as [|x y l l' Hxy _ IH]; [reflexivity|].
  simpl. rewrite IH, (HR _ _ Hxy). reflexivity.
Qed.

Ltac frame_fields := constructor; reflexivity.

Ltac by_save :=
  eapply save_pointwise; [intro; frame_fields | assumption
                         | eapply verifyApiKey_In; eassumption
                         | reflexivity | frame_fields].

Lemma tenant_domain_frame (db : list Tenant)
    (k customDomain_ subdomain_ : option string) :
  List.NoDup (map _id db) ->
  Forall2 same_but_domains db
    (fst (Api.tenant_domain db k customDomain_ subdomain_)).
Proof.
  intros Hnd. unfold Api.tenant_domain.
  destruct (Api.verifyApiKey db k) as [t|r] eqn:Hk;
    [|apply Forall2_same; intro; frame_fields].
  repeat match goal with
         | |- context [if ?c then _ else _] =>
             destruct c; [apply Forall2_same; intro; frame_fields|]
         end.
  cbn [fst]. by_save.
Qed.

Lemma tenant_subdomain_password_frame (db : list Tenant)
    (k password : option string) :
  List.NoDup (map _id db) ->
  Forall2 same_but_password db
    (fst (Api.tenant_subdomain_password db k password)).
Proof.
  intros Hnd. unfold Api.tenant_subdomain_password.
  destruct (Api.verifyApiKey db k) as [t|r] eqn:Hk;
    [|apply Forall2_same; intro; frame_fields].
  match goal with
  | |- context [if ?c then _ else _] =>
      destruct c; [apply Forall2_same; intro; frame_fields|]
  end.
  cbn [fst]. by_save.
Qed.

Lemma tenant_branding_frame (db : list Tenant)
    (k favicon_ customCSS_ logoUrl_ brandColor_ : option string) :
  List.NoDup (map _id db) ->
  Forall2 same_but_settings db
    (fst (Api.tenant_branding db k favicon_ customCSS_ logoUrl_ brandColor_)).
Proof.
  intros Hnd. unfold Api.tenant_branding.
  destruct (Api.verifyApiKey db k) as [t|r] eqn:Hk;
    [|apply Forall2_same; intro; frame_fields].
  cbn [fst]. by_save.
Qed.

Lemma tenant_verify_domain_credentials (db : list Tenant) (k : option string) :
  List.NoDup (map _id db) ->
  map credentials (fst (Api.tenant_verify_domain resolves db k))
  = map credentials db.
Proof.
  intros Hnd. unfold Api.tenant_verify_domain.
  destruct (Api.verifyApiKey db k) as [t|r] eqn:Hk; [|reflexivity].
  destruct (negb (JS.truthy (customDomain t))); [reflexivity|].
  cbn [fst].
  apply (Forall2_credentials (fun x y => credentials y = credentials x));
    [auto|].
  eapply save_pointwise; [reflexivity | assumption
                         | eapply verifyApiKey_In; eassumption
                         | reflexivity | reflexivity].
Qed.

Lemma ids_of_credentials (db db' : list Tenant) :
  map credentials db' = map credentials db -> map _id db' = map _id db.
Proof.
  intros H. apply (f_equal (map fst)) in H.
  rewrite !map_map in H. exact H.
Qed.

(** One request keeps the identifier and the API key of every stored
    tenant, position by position. *)
Lemma handle_keeps_credentials (srv : Server) (c : Api.Call) :
  List.NoDup (map _id (tenants srv)) ->
  map credentials (tenants (Api.handle resolves production srv c))
  = map credentials (tenants srv).
Proof.
  intros Hnd. destruct c; cbn [Api.handle Api.with_tenants tenants].
  - eapply Forall2_credentials; [|apply tenant_domain_frame; exact Hnd].
    intros x y []. unfold credentials. congruence.
  - apply tenant_verify_domain_credentials. exact Hnd.
  - eapply Forall2_credentials; [|apply tenant_branding_frame; exact Hnd].
    intros x y []. unfold credentials. congruence.
  - eapply Forall2_credentials; [|apply tenant_subdomain_password_frame; exact Hnd].
    intros x y []. unfold credentials. congruence.
  - unfold Api.subdomain_login.
    destruct (findOne _ (tenants srv)); [|reflexivity].
    match goal with
    | |- context [if ?c then _ else _] => destruct c; reflexivity
    end.
Qed.

Lemma run_keeps_credentials (calls : list Api.Call) (srv : Server) :
  List.NoDup (map _id (tenants srv)) ->
  map credentials (tenants (Api.run resolves production srv calls))
  = map credentials (tenants srv).
Proof.
  revert srv. induction calls as [|c calls IH]; intros srv Hnd; [reflexivity|].
  unfold Api.run in *. cbn [fold_left].
  pose proof (handle_keeps_credentials srv c Hnd) as Hstep.
  rewrite IH, Hstep; [reflexivity|].
  rewrite (ids_of_credentials _ _ Hstep). exact Hnd.
Qed.

(** *** The directory keeps its bindings unique *)

Lemma taken_by_other_false (q : Tenant -> bool) (me : Tenant)
    (db : list Tenant) :
  Api.taken_by_other q me db = false ->
  forall d, In d db -> q d = true -> _id d = _id me.
Proof.
  unfold Api.taken_by_other, findOne. intros H d Hin Hq.
  destruct (find _ db) eqn:E; [discriminate|].
  pose proof (find_none _ _ E d Hin) as Hd. cbn beta in Hd.
  rewrite Hq in Hd. cbn [andb] in Hd.
  apply negb_false_iff, String.eqb_eq in Hd. exact Hd.
Qed.

Lemma In_save (db : list Tenant) (t' x : Tenant) :
  List.NoDup (map _id db) ->
  In x (Api.save t' db) ->
  x = t' \/ (In x db /\ _id x <> _id t').
Proof.
  induction db as [|d rest IH]; intros Hnd Hin; [destruct Hin|].
  simpl in Hnd. apply NoDup_cons_iff in Hnd as [Hfresh Hnd].
  cbn [Api.save] in Hin. destruct (String.eqb (_id d) (_id t')) eqn:E.
  - apply String.eqb_eq in E. destruct Hin as [<-|Hin]; [left; reflexivity|].
    right. split; [right; exact Hin|].
    intros Hx. apply Hfresh. rewrite E, <- Hx. apply in_map. exact Hin.
  - apply String.eqb_neq in E. destruct Hin as [<-|Hin].
    + right. split; [left; reflexivity | exact E].
    + destruct (IH Hnd Hin) as [->|[Hx Hne]]; [left; reflexivity|].
      right. split; [right; exact Hx | exact Hne].
Qed.

Lemma save_unique (f : Tenant -> option string) (db : list Tenant)
    (t' : Tenant) :
  List.NoDup (map _id db) ->
  unique_by f db ->
  (forall d v, In d db -> f t' = Some v -> f d = Some v -> _id d = _id t') ->
  unique_by f (Api.save t' db).
Proof.
  intros Hnd Hu Hfree t1 t2 v H1 H2 E1 E2.
  apply In_save in H1; [|exact Hnd]. apply In_save in H2; [|exact Hnd].
  destruct H1 as [->|[H1 N1]]; destruct H2 as [->|[H2 N2]].
  - reflexivity.
  - destruct N2. eapply Hfree; eauto.
  - destruct N1. eapply Hfree; eauto.
  - eapply Hu; eauto.
Qed.

Lemma or_else_None_Some (a : option string) (v : string) :
  JS.or_else a None = Some v -> JS.truthy a = true /\ a = Some v.
Proof.
  unfold JS.or_else. destruct (JS.truthy a); [auto | discriminate].
Qed.

(** The checks of the domain update do their job: a directory in which
    no two tenants share a custom domain or a subdomain stays so. *)
Lemma tenant_domain_keeps_bindings_unique (db : list Tenant)
    (k customDomain_ subdomain_ : option string) :
  List.NoDup (map _id db) ->
  unique_by customDomain db ->
  unique_by subdomain db ->
  let db' := fst (Api.tenant_domain db k customDomain_ subdomain_) in
  unique_by customDomain db' /\ unique_by subdomain db'.
Proof.
  intros Hnd Hc Hs. unfold Api.tenant_domain.
  destruct (Api.verifyApiKey db k) as [t|r]; [|auto].
  destruct (JS.truthy customDomain_
            && negb (Api.isValidDomain (JS.interpolate customDomain_))); [auto|].
  destruct (JS.truthy subdomain_
            && negb (Api.isValidSubdomain (JS.interpolate subdomain_))); [auto|].
  destruct (JS.truthy customDomain_ && Api.taken_by_other _ t db) eqn:E3; [auto|].
  destruct (JS.truthy subdomain_ && Api.taken_by_other _ t db) eqn:E4; [auto|].
  cbn [fst]. split; apply save_unique; try assumption.
  - intros d v Hin Hv Hd. cbn [Api.set_domains customDomain _id] in *.
    apply or_else_None_Some in Hv as [Ht ->].
    rewrite Ht in E3. cbn [andb JS.interpolate] in E3.
    apply (taken_by_other_false _ _ _ E3 d Hin).
    apply field_is_true. exact Hd.
  - intros d v Hin Hv Hd. cbn [Api.set_domains subdomain _id] in *.
    apply or_else_None_Some in Hv as [Ht ->].
    rewrite Ht in E4. cbn [andb JS.interpolate] in E4.
    apply (taken_by_other_false _ _ _ E4 d Hin).
    apply field_is_true. exact Hd.
Qed.

End Frames.

(** C10: with the stored [_id]s distinct, the domain update changes at
    most [customDomain], [subdomain] and [domainVerified] of a stored
    tenant, the password update at most [subdomainPassword], the
    branding update at most [domainSettings]; and after any sequence of
    domain, verification, branding, password and login requests every
    stored tenant has the [_id] and the [apiKey] it had before. *)
Theorem apiKey_unchanged_by_configuration
    (resolves : string -> bool) (production : bool) (db : list Tenant) :
  List.NoDup (map _id db) ->
  (forall k customDomain_ subdomain_,
     Forall2 same_but_domains db
       (fst (Api.tenant_domain db k customDomain_ subdomain_))) /\
  (forall k password,
     Forall2 same_but_password db
       (fst (Api.tenant_subdomain_password db k password))) /\
  (forall k favicon_ customCSS_ logoUrl_ brandColor_,
     Forall2 same_but_settings db
       (fst (Api.tenant_branding db k favicon_ customCSS_ logoUrl_ brandColor_))) /\
  (forall sessions calls,
     let srv := {| tenants := db; subdomainSessions := sessions |} in
     map apiKey (tenants (Api.run resolves production srv calls)) = map apiKey db /\
     map _id (tenants (Api.run resolves production srv calls)) = map _id db).
Proof.
  intros Hnd.
  split; [intros; apply tenant_domain_frame; exact Hnd|].
  split; [intros; apply tenant_subdomain_password_frame; exact Hnd|].
  split; [intros; apply tenant_branding_frame; exact Hnd|].
  intros sessions calls srv.
  pose proof (run_keeps_credentials resolves production calls srv Hnd) as H.
  split.
  - apply (f_equal (map snd)) in H. rewrite !map_map in H. exact H.
  - apply (f_equal (map fst)) in H. rewrite !map_map in H. exact H.
Qed.

Lemma directory_ids_distinct : List.NoDup (map _id directory).
Proof.
  repeat constructor; simpl; intros H;
    repeat (destruct H as [H|H]; [discriminate H|]); exact H.
Defined.

(** [open_docs] sets a custom domain, a password and a logo: the three
    fields change and the three API keys stay. *)
Lemma apiKey_unchanged_by_configuration_witness :
  let calls :=
    [Api.PostTenantDomain (Some "c5a6b7c8") (Some "docs.open.org") (Some "open");
     Api.PostSubdomainPassword (Some "c5a6b7c8") (Some "opensesame");
     Api.PostBranding (Some "c5a6b7c8") None None (Some "/uploads/logo.png") None] in
  let after := tenants (Api.run (fun _ => true) true fresh_server calls) in
  List.NoDup (map _id directory) /\
  map customDomain after = [Some "docs.acme.io"; Some "docs.beta.dev"; Some "docs.open.org"] /\
  map subdomainPassword after = [Some "secret123"; Some "hunter22"; Some "opensesame"] /\
  map apiKey after = map apiKey directory.
Proof.
  cbv zeta.
  split; [exact directory_ids_distinct|].
  split; [reflexivity|]. split; [reflexivity|].
  destruct (apiKey_unchanged_by_configuration (fun _ => true) true directory
              directory_ids_distinct) as (_ & _ & _ & H).
  exact (proj1 (H ∅ _)).
Defined.

(** * Further properties of the two processes *)

(** ** API key guard and configuration routes *)

Section ConfigRoutes.

Lemma verifyApiKey_spec {B : Type} (db : list Tenant) (k : option string)
    (t : Tenant) :
  @Api.verifyApiKey B db k = inl t <-> authenticates db k t.
Proof.
  unfold Api.verifyApiKey, authenticates. split.
  - destruct (JS.truthy k) eqn:Ht; [|discriminate].
    apply truthy_spec in Ht as (key & -> & Hne). simpl.
    destruct (findOne (by_apiKey key) db) as [t'|] eqn:E; [|discriminate].
    intros [= <-]. exists key. auto.
  - intros (key & -> & Hne & Hf).
    assert (JS.truthy (Some key) = true) as ->
      by (apply truthy_spec; exists key; auto).
    simpl. rewrite Hf. reflexivity.
Qed.

Lemma verifyApiKey_refuses {B : Type} (db : list Tenant) (k : option string) :
  (forall t, ~ authenticates db k t) ->
  @Api.verifyApiKey B db k = inr (key_refused k).
Proof.
  intros Hno. unfold Api.verifyApiKey, key_refused.
  destruct (JS.truthy k) eqn:Ht; [|reflexivity].
  destruct (findOne (by_apiKey (JS.interpolate k)) db) as [t|] eqn:E;
    [|reflexivity].
  exfalso. apply (Hno t). apply truthy_spec in Ht as (key & -> & Hne).
  exists key. auto.
Qed.

Lemma verifyApiKey_inr_status {B : Type} (db : list Tenant)
    (k : option string) (r : Response B) :
  Api.verifyApiKey db k = inr r -> status r = 401%nat /\ set_cookie r = None.
Proof.
  unfold Api.verifyApiKey. destruct (JS.truthy k).
  - destruct (findOne _ db); [discriminate|]. intros [= <-]. auto.
  - intros [= <-]. auto.
Qed.

Lemma authenticates_In (db : list Tenant) (k : option string) (t : Tenant) :
  authenticates db k t -> In t db /\ k = Some (apiKey t).
Proof.
  intros (key & -> & _ & Hf). apply findOne_Some in Hf as [Hin Hq].
  apply String.eqb_eq in Hq. subst key. auto.
Qed.

(** X1: a request whose [x-api-key] header is missing, empty or the key
    of no stored tenant is answered 401 by every configuration route and
    by the info route, and the tenant collection is returned as it was. *)
Theorem config_routes_refuse_unknown_key
    (resolves : string -> bool) (db : list Tenant) (k : option string) :
  (forall t, ~ authenticates db k t) ->
  (forall cd sd, Api.tenant_domain db k cd sd = (db, key_refused k)) /\
  Api.tenant_verify_domain resolves db k = (db, key_refused k) /\
  (forall f c l b, Api.tenant_branding db k f c l b = (db, key_refused k)) /\
  (forall p, Api.tenant_subdomain_password db k p = (db, key_refused k)) /\
  Routes.tenant_info db k = key_refused k.
Proof.
  intros Hno.
  unfold Api.tenant_domain, Api.tenant_verify_domain, Api.tenant_branding,
    Api.tenant_subdomain_password, Routes.tenant_info.
  rewrite !(verifyApiKey_refuses db k Hno). repeat split; reflexivity.
Qed.

Lemma config_routes_refuse_unknown_key_witness :
  (forall t, ~ authenticates directory (Some "00000000") t) /\
  Api.tenant_subdomain_password directory (Some "00000000") (Some "opensesame")
  = (directory, {| status := 401; set_cookie := None;
                   payload := Error "Invalid API key" |}).
Proof.
  assert (H : forall t, ~ authenticates directory (Some "00000000") t).
  { intros t (key & [= <-] & _ & Hf). vm_compute in Hf. discriminate. }
  split; [exact H|].
  destruct (config_routes_refuse_unknown_key (fun _ => true) directory
              (Some "00000000") H) as (_ & _ & _ & Hp & _).
  exact (Hp (Some "opensesame")).
Defined.

Lemma authenticates_verified {B : Type} (db : list Tenant)
    (k : option string) (t : Tenant) :
  authenticates db k t -> @Api.verifyApiKey B db k = inl t.
Proof. apply verifyApiKey_spec. Qed.

(** After [save] the changed copy is found wherever the original was
    the first match, as long as it still matches. *)
Lemma findOne_save (q : Tenant -> bool) (db : list Tenant) (t t' : Tenant) :
  List.NoDup (map _id db) ->
  findOne q db = Some t ->
  _id t' = _id t ->
  q t' = true ->
  findOne q (Api.save t' db) = Some t'.
Proof.
  unfold findOne. intros Hnd Hf Hid Hq.
  induction db as [|d rest IH]; [discriminate|].
  simpl in Hnd. apply NoDup_cons_iff in Hnd as [Hfresh Hnd].
  cbn [find] in Hf. cbn [Api.save].
  destruct (q d) eqn:Hd.
  - injection Hf as ->. rewrite Hid, String.eqb_refl. cbn [find].
    rewrite Hq. reflexivity.
  - assert (Hin : In t rest) by (apply find_some in Hf; tauto).
    assert (Hne : String.eqb (_id d) (_id t') = false).
    { apply String.eqb_neq. intros E. apply Hfresh. rewrite E, Hid.
      apply in_map. exact Hin. }
    rewrite Hne. cbn [find]. rewrite Hd. apply IH; assumption.
Qed.

Lemma findOne_save_None (q : Tenant -> bool) (db : list Tenant) (t' : Tenant) :
  findOne q db = None ->
  q t' = false ->
  findOne q (Api.save t' db) = None.
Proof.
  unfold findOne. intros Hf Hq.
  induction db as [|d rest IH]; [reflexivity|].
  cbn [find] in Hf. cbn [Api.save]. destruct (q d) eqn:Hd; [discriminate|].
  destruct (String.eqb (_id d) (_id t')); cbn [find].
  - rewrite Hq. exact Hf.
  - rewrite Hd. apply IH. exact Hf.
Qed.

Lemma authenticates_save (db : list Tenant) (k : option string)
    (t t' : Tenant) :
  List.NoDup (map _id db) ->
  authenticates db k t ->
  _id t' = _id t ->
  apiKey t' = apiKey t ->
  authenticates (Api.save t' db) k t'.
Proof.
  intros Hnd (key & -> & Hne & Hf) Hid Hk. exists key.
  split; [reflexivity|]. split; [exact Hne|].
  apply (findOne_save _ db t t' Hnd Hf Hid).
  apply findOne_Some in Hf as [_ Hq]. unfold by_apiKey in *.
  rewrite Hk. exact Hq.
Qed.

Lemma save_In (db : list Tenant) (t t' : Tenant) :
  In t db -> _id t' = _id t -> In t' (Api.save t' db).
Proof.
  intros Hin Hid. induction db as [|d rest IH]; [destruct Hin|].
  cbn [Api.save]. destruct (String.eqb (_id d) (_id t')) eqn:E.
  - left. reflexivity.
  - destruct Hin as [->|Hin].
    + rewrite Hid, String.eqb_refl in E. discriminate.
    + right. apply IH. exact Hin.
Qed.

Lemma save_ids (db : list Tenant) (t' : Tenant) :
  map _id (Api.save t' db) = map _id db.
Proof.
  induction db as [|d rest IH]; [reflexivity|].
  cbn [Api.save]. destruct (String.eqb (_id d) (_id t')) eqn:E.
  - apply String.eqb_eq in E. simpl. rewrite E. reflexivity.
  - simpl. rewrite IH. reflexivity.
Qed.

(** What an accepted domain update did. *)
Lemma tenant_domain_accepted (db : list Tenant)
    (k customDomain_ subdomain_ : option string) :
  status (snd (Api.tenant_domain db k customDomain_ subdomain_)) = 200%nat ->
  exists t,
    authenticates db k t /\
    fst (Api.tenant_domain db k customDomain_ subdomain_)
    = Api.save (Api.set_domains t (JS.or_else customDomain_ None)
                                  (JS.or_else subdomain_ None)) db /\
    (JS.truthy customDomain_ = true ->
       Api.isValidDomain (JS.interpolate customDomain_) = true /\
       Api.taken_by_other (by_customDomain (JS.interpolate customDomain_)) t db
       = false) /\
    (JS.truthy subdomain_ = true ->
       Api.isValidSubdomain (JS.interpolate subdomain_) = true /\
       Api.taken_by_other (by_subdomain (JS.interpolate subdomain_)) t db
       = false).
Proof.
  unfold Api.tenant_domain.
  destruct (Api.verifyApiKey db k) as [t|r] eqn:Hk.
  - apply verifyApiKey_spec in Hk.
    destruct (JS.truthy customDomain_) eqn:Tc; destruct (JS.truthy subdomain_) eqn:Ts;
      cbn [andb];
      repeat match goal with
             | |- context [if negb ?c then _ else _] =>
                 destruct c eqn:?; cbn [negb]; [|cbn; discriminate]
             | |- context [if Api.taken_by_other ?q ?t ?d then _ else _] =>
                 destruct (Api.taken_by_other q t d) eqn:?; [cbn; discriminate|]
             end;
      intros _; exists t; cbn [fst];
      repeat split; try assumption; try reflexivity; try discriminate.
  - cbn [snd]. intros H. apply verifyApiKey_inr_status in Hk as [Hs _].
    rewrite Hs in H. discriminate.
Qed.

(** X2: with distinct stored [_id]s, each configuration route leaves
    every stored tenant whose [apiKey] is not the one in the request's
    header exactly as it was, and changes no [_id]. *)
Theorem config_routes_change_only_callers_tenant
    (resolves : string -> bool) (db : list Tenant) (k : option string) :
  List.NoDup (map _id db) ->
  let untouched d d' := _id d' = _id d /\ (Some (apiKey d) <> k -> d' = d) in
  (forall cd sd, Forall2 untouched db (fst (Api.tenant_domain db k cd sd))) /\
  Forall2 untouched db (fst (Api.tenant_verify_domain resolves db k)) /\
  (forall f c l b, Forall2 untouched db (fst (Api.tenant_branding db k f c l b))) /\
  (forall p, Forall2 untouched db (fst (Api.tenant_subdomain_password db k p))).
Proof.
  intros Hnd untouched.
  assert (Hrefl : forall x, untouched x x) by (intro; split; auto).
  assert (Hsave : forall t t', authenticates db k t -> _id t' = _id t ->
                    Forall2 untouched db (Api.save t' db)).
  { intros t t' Ha Hid. apply authenticates_In in Ha as [Hin Hk].
    apply (save_pointwise untouched db t t' Hrefl Hnd Hin Hid).
    split; [exact Hid|]. intros Hne. destruct (Hne (eq_sym Hk)). }
  repeat split; intros.
  - unfold Api.tenant_domain.
    destruct (Api.verifyApiKey db k) as [t|r] eqn:Hk;
      [|apply Forall2_same; exact Hrefl].
    apply verifyApiKey_spec in Hk.
    repeat match goal with
           | |- context [if ?c then _ else _] =>
               destruct c; [apply Forall2_same; exact Hrefl|]
           end.
    apply (Hsave t); [exact Hk | reflexivity].
  - unfold Api.tenant_verify_domain.
    destruct (Api.verifyApiKey db k) as [t|r] eqn:Hk;
      [|apply Forall2_same; exact Hrefl].
    apply verifyApiKey_spec in Hk.
    destruct (negb (JS.truthy (customDomain t)));
      [apply Forall2_same; exact Hrefl|].
    apply (Hsave t); [exact Hk | reflexivity].
  - unfold Api.tenant_branding.
    destruct (Api.verifyApiKey db k) as [t|r] eqn:Hk;
      [|apply Forall2_same; exact Hrefl].
    apply verifyApiKey_spec in Hk.
    apply (Hsave t); [exact Hk | reflexivity].
  - unfold Api.tenant_subdomain_password.
    destruct (Api.verifyApiKey db k) as [t|r] eqn:Hk;
      [|apply Forall2_same; exact Hrefl].
    apply verifyApiKey_spec in Hk.
    match goal with
    | |- context [if ?c then _ else _] =>
        destruct c; [apply Forall2_same; exact Hrefl|]
    end.
    apply (Hsave t); [exact Hk | reflexivity].
Qed.

Lemma config_routes_change_only_callers_tenant_witness :
  List.NoDup (map _id directory) /\
  Forall2 (fun d d' => _id d' = _id d /\
                       (Some (apiKey d) <> Some "c5a6b7c8" -> d' = d))
    directory
    (fst (Api.tenant_subdomain_password directory (Some "c5a6b7c8")
            (Some "opensesame"))).
Proof.
  split; [exact directory_ids_distinct|].
  destruct (config_routes_change_only_callers_tenant (fun _ => true) directory
              (Some "c5a6b7c8") directory_ids_distinct) as (_ & _ & _ & H).
  exact (H (Some "opensesame")).
Defined.

(** X3: with distinct stored [_id]s, after an accepted domain update the
    info route, asked with the same key, reports exactly the submitted
    bindings ([null] for a binding that was left out or empty) and
    [domainVerified = false], and the other fields as before. *)
Theorem domain_update_read_back
    (db : list Tenant) (k customDomain_ subdomain_ : option string) :
  List.NoDup (map _id db) ->
  status (snd (Api.tenant_domain db k customDomain_ subdomain_)) = 200%nat ->
  exists before after,
    Routes.tenant_info db k = json before /\
    Routes.tenant_info (fst (Api.tenant_domain db k customDomain_ subdomain_)) k
    = json after /\
    Info.customDomain after = JS.or_else customDomain_ None /\
    Info.subdomain after = JS.or_else subdomain_ None /\
    Info.domainVerified after = false /\
    Info._id after = Info._id before /\
    Info.name after = Info.name before /\
    Info.domain after = Info.domain before /\
    Info.domainSettings after = Info.domainSettings before /\
    Info.createdAt after = Info.createdAt before.
Proof.
  intros Hnd Hok.
  destruct (tenant_domain_accepted db k customDomain_ subdomain_ Hok)
    as (t & Ha & -> & _).
  pose proof (authenticates_save db k t
                (Api.set_domains t (JS.or_else customDomain_ None)
                                   (JS.or_else subdomain_ None))
                Hnd Ha eq_refl eq_refl) as Ha'.
  unfold Routes.tenant_info.
  rewrite (authenticates_verified db k t Ha).
  rewrite (authenticates_verified _ k _ Ha').
  eexists. eexists. repeat split; reflexivity.
Qed.

Lemma domain_update_read_back_witness :
  List.NoDup (map _id directory) /\
  status (snd (Api.tenant_domain directory (Some "a3f1c2d4") None
                 (Some "acme-docs"))) = 200%nat /\
  exists after,
    Routes.tenant_info
      (fst (Api.tenant_domain directory (Some "a3f1c2d4") None (Some "acme-docs")))
      (Some "a3f1c2d4") = json after /\
    Info.customDomain after = None /\
    Info.subdomain after = Some "acme-docs".
Proof.
  split; [exact directory_ids_distinct|]. split; [reflexivity|].
  destruct (domain_update_read_back directory (Some "a3f1c2d4") None
              (Some "acme-docs") directory_ids_distinct eq_refl)
    as (before & after & _ & H2 & H3 & H4 & _).
  exists after. split; [exact H2|]. split; [exact H3 | exact H4].
Defined.

End ConfigRoutes.

(** ** Domain and subdomain validation, and what it lets through *)

Section Validation.

Lemma string_length_chars (s : string) :
  String.length s = length (list_ascii_of_string s).
Proof. induction s as [|c s IH]; simpl; congruence. Qed.

Lemma has_char_chars (c : ascii) (s : string) :
  JS.has_char c s = existsb (fun d => Ascii.eqb d c) (list_ascii_of_string s).
Proof. induction s as [|d s IH]; simpl; congruence. Qed.

Lemma split_app (sep : ascii) (a b : string) :
  JS.split sep (a +:+ String sep b) = (JS.split sep a ++ JS.split sep b)%list.
Proof.
  induction a as [|c a IH].
  - change (JS.split sep (String sep b) = ([EmptyString] ++ JS.split sep b)%list).
    cbn [JS.split]. rewrite Ascii.eqb_refl. reflexivity.
  - change (JS.split sep (String c (a +:+ String sep b))
            = (JS.split sep (String c a) ++ JS.split sep b)%list).
    cbn [JS.split]. rewrite IH.
    destruct (Ascii.eqb c sep); [reflexivity|].
    pose proof (split_nonempty sep a) as Hne.
    destruct (JS.split sep a) as [|h t]; [contradiction | reflexivity].
Qed.

Lemma split_without_sep (sep : ascii) (s : string) :
  JS.has_char sep s = false -> JS.split sep s = [s].
Proof.
  induction s as [|c s IH]; [reflexivity|].
  cbn [JS.has_char JS.split]. intros H. apply orb_false_iff in H as [Hc Hs].
  rewrite Hc, (IH Hs). reflexivity.
Qed.

(** The host built from a label without dots gives the label back. *)
Lemma split_first_of_host (s rest : string) :
  JS.has_char dot s = false ->
  JS.first (JS.split dot (s +:+ String dot rest)) = s.
Proof.
  intros H. rewrite split_app, (split_without_sep dot s H). reflexivity.
Qed.

Lemma forallb_reversed {A : Type} (f : A -> bool) (l : list A) :
  forallb f (rev l) = forallb f l.
Proof.
  induction l as [|x l IH]; [reflexivity|].
  cbn [rev forallb]. rewrite forallb_app, IH. cbn [forallb].
  rewrite andb_true_r. apply andb_comm.
Qed.

Lemma alnum_dash_not_dot (c : ascii) :
  Api.is_alnum_dash c = true -> Ascii.eqb c dot = false.
Proof.
  destruct (Ascii.eqb c dot) eqn:E; [|reflexivity].
  apply Ascii.eqb_eq in E. subst c. vm_compute. discriminate.
Qed.

Lemma alnum_is_alnum_dash (c : ascii) :
  Api.is_alnum c = true -> Api.is_alnum_dash c = true.
Proof. unfold Api.is_alnum_dash. intros ->. reflexivity. Qed.

Lemma valid_subdomain_facts (s : string) :
  Api.isValidSubdomain s = true ->
  (2 <= String.length s <= 63)%nat /\
  forallb Api.is_alnum_dash (list_ascii_of_string s) = true /\
  JS.has_char dot s = false /\
  (exists c m d, list_ascii_of_string s = (c :: m ++ [d])%list /\
                 Api.is_alnum c = true /\ Api.is_alnum d = true).
Proof.
  unfold Api.isValidSubdomain. intros H.
  assert (Hshape : exists c m d,
             list_ascii_of_string s = (c :: m ++ [d])%list /\
             Api.is_alnum c = true /\ Api.is_alnum d = true /\
             forallb Api.is_alnum_dash m = true /\ (length m <= 61)%nat).
  { destruct (list_ascii_of_string s) as [|c r]; [discriminate|].
    apply andb_true_iff in H as [Hc H].
    destruct (rev r) as [|d m] eqn:Hr; [discriminate|].
    apply andb_true_iff in H as [H Hl]. apply andb_true_iff in H as [Hd Hm].
    apply Nat.leb_le in Hl.
    exists c, (rev m), d. rewrite length_rev, forallb_reversed.
    repeat split; try assumption.
    f_equal. rewrite <- (rev_involutive r), Hr. reflexivity. }
  destruct Hshape as (c & m & d & Hs & Hc & Hd & Hm & Hl).
  assert (Hall : forallb Api.is_alnum_dash (list_ascii_of_string s) = true).
  { rewrite Hs. cbn [forallb]. rewrite forallb_app, Hm. cbn [forallb].
    rewrite (alnum_is_alnum_dash c Hc), (alnum_is_alnum_dash d Hd). reflexivity. }
  split. { rewrite string_length_chars, Hs. cbn [length].
           rewrite length_app. cbn [length]. lia. }
  split; [exact Hall|].
  split. { rewrite has_char_chars.
           destruct (existsb _ _) eqn:E; [|reflexivity].
           apply existsb_exists in E as (x & Hin & Hx).
           rewrite forallb_forall in Hall.
           rewrite (alnum_dash_not_dot x (Hall x Hin)) in Hx. discriminate. }
  exists c, m, d. auto.
Qed.

(** X4: a string accepted by [isValidSubdomain] has between 2 and 63
    characters, each a letter, a digit or a hyphen, begins and ends with
    a letter or digit, and contains no dot. *)
Theorem valid_subdomain_shape (s : string) :
  Api.isValidSubdomain s = true ->
  (2 <= String.length s <= 63)%nat /\
  forallb Api.is_alnum_dash (list_ascii_of_string s) = true /\
  JS.has_char dot s = false /\
  (exists c m d, list_ascii_of_string s = (c :: m ++ [d])%list /\
                 Api.is_alnum c = true /\ Api.is_alnum d = true).
Proof. exact (valid_subdomain_facts s). Qed.

Lemma valid_subdomain_shape_witness :
  Api.isValidSubdomain "acme-docs" = true /\
  (2 <= String.length "acme-docs" <= 63)%nat /\
  JS.has_char dot "acme-docs" = false.
Proof.
  split; [reflexivity|].
  destruct (valid_subdomain_shape "acme-docs" eq_refl) as (Hl & _ & Hd & _).
  split; [exact Hl | exact Hd].
Defined.

Lemma valid_domain_by_labels_aux :
  (forall a b, Api.isValidDomain (a +:+ String dot b)
               = Api.isValidDomain a && Api.isValidDomain b) /\
  (forall s, JS.has_char dot s = false ->
             Api.isValidDomain s = Api.isValidSubdomain s).
Proof.
  split.
  - intros. unfold Api.isValidDomain. rewrite split_app. apply forallb_app.
  - intros s H. unfold Api.isValidDomain.
    rewrite (split_without_sep dot s H). cbn [forallb]. apply andb_true_r.
Qed.

(** X5: [isValidDomain] judges a domain label by label: a name with a
    dot is valid exactly when the parts before and after the dot are;
    a name without dots is judged as a subdomain label (no top-level
    domain is asked for); the empty name is invalid, so a leading, a
    trailing or a doubled dot is refused. *)
Theorem valid_domain_by_labels :
  (forall a b, Api.isValidDomain (a +:+ String dot b)
               = Api.isValidDomain a && Api.isValidDomain b) /\
  (forall s, JS.has_char dot s = false ->
             Api.isValidDomain s = Api.isValidSubdomain s) /\
  Api.isValidDomain EmptyString = false /\
  (forall b, Api.isValidDomain (String dot b) = false) /\
  (forall a, Api.isValidDomain (a +:+ String dot EmptyString) = false) /\
  (forall a b, Api.isValidDomain (a +:+ String dot (String dot b)) = false).
Proof.
  assert (Happ : forall a b, Api.isValidDomain (a +:+ String dot b)
                             = Api.isValidDomain a && Api.isValidDomain b).
  { intros. unfold Api.isValidDomain. rewrite split_app. apply forallb_app. }
  split; [exact Happ|].
  split. { intros s H. unfold Api.isValidDomain.
           rewrite (split_without_sep dot s H). cbn [forallb].
           apply andb_true_r. }
  split; [reflexivity|].
  split. { intros b. apply (Happ EmptyString b). }
  split. { intros a. rewrite Happ. apply andb_false_r. }
  intros a b. rewrite Happ.
  change (String dot b) with (EmptyString +:+ String dot b).
  rewrite Happ. apply andb_false_r.
Qed.

End Validation.

(** ** Bindings: from the configuration route to the resolver *)

Section Bindings.

Lemma includes_suffix (a p : string) : JS.includes (a +:+ p) p = true.
Proof.
  apply includes_spec. exists a, EmptyString.
  rewrite string_app_empty_r. reflexivity.
Qed.

Lemma taken_by_other_true (q : Tenant -> bool) (me other : Tenant)
    (db : list Tenant) :
  In other db -> q other = true -> _id other <> _id me ->
  Api.taken_by_other q me db = true.
Proof.
  intros Hin Hq Hne. unfold Api.taken_by_other, findOne.
  destruct (find _ db) eqn:E; [reflexivity|].
  pose proof (find_none _ _ E other Hin) as H. cbn beta in H.
  rewrite Hq in H. apply String.eqb_neq in Hne. rewrite Hne in H. discriminate.
Qed.

Lemma taken_by_other_free (q : Tenant -> bool) (me : Tenant)
    (db : list Tenant) :
  (forall d, In d db -> q d = true -> _id d = _id me) ->
  Api.taken_by_other q me db = false.
Proof.
  intros H. unfold Api.taken_by_other.
  destruct (findOne _ db) as [d|] eqn:E; [|reflexivity].
  apply findOne_Some in E as [Hin Hq]. apply andb_true_iff in Hq as [Hq Hne].
  apply negb_true_iff, String.eqb_neq in Hne. destruct (Hne (H d Hin Hq)).
Qed.

(** The accepted case of the domain update, forwards. *)
Lemma tenant_domain_accepts (db : list Tenant)
    (k customDomain_ subdomain_ : option string) (t : Tenant) :
  authenticates db k t ->
  (JS.truthy customDomain_ = true ->
     Api.isValidDomain (JS.interpolate customDomain_) = true /\
     Api.taken_by_other (by_customDomain (JS.interpolate customDomain_)) t db
     = false) ->
  (JS.truthy subdomain_ = true ->
     Api.isValidSubdomain (JS.interpolate subdomain_) = true /\
     Api.taken_by_other (by_subdomain (JS.interpolate subdomain_)) t db
     = false) ->
  let t' := Api.set_domains t (JS.or_else customDomain_ None)
                              (JS.or_else subdomain_ None) in
  Api.tenant_domain db k customDomain_ subdomain_
  = (Api.save t' db,
     json {| Api.reply_customDomain := customDomain t';
             Api.reply_subdomain := subdomain t';
             Api.reply_domainVerified := false |}).
Proof.
  intros Ha Hc Hs t'. unfold Api.tenant_domain.
  rewrite (authenticates_verified db k t Ha).
  destruct (JS.truthy customDomain_) eqn:Tc; destruct (JS.truthy subdomain_) eqn:Ts;
    cbn [andb];
    try (destruct (Hc eq_refl) as [-> ->]);
    try (destruct (Hs eq_refl) as [-> ->]);
    reflexivity.
Qed.

(** X6: in a directory that satisfies the invariant, once a domain
    update that submits the label [s] has been accepted, the host
    [s.docforge.com] (claimed by nobody as a custom domain) resolves, in
    both processes, to the tenant that owns the key, now carrying [s] as
    its subdomain. *)
Theorem subdomain_binding_resolves
    (db : list Tenant) (k customDomain_ : option string) (s : string) :
  directory_ok db ->
  s <> EmptyString ->
  status (snd (Api.tenant_domain db k customDomain_ (Some s))) = 200%nat ->
  let db' := fst (Api.tenant_domain db k customDomain_ (Some s)) in
  let host := s +:+ parent_domain in
  (forall d, In d db' -> customDomain d <> Some host) ->
  exists t',
    Api.identifyTenantByDomain db' host = Some t' /\
    authenticates db' k t' /\
    subdomain t' = Some s /\
    Frontend.resolve db' host = Some (Api.by_domain_json t').
Proof.
  intros (Hnd & Huc & Hus) Hne Hok db' host Hfree.
  assert (Hts : JS.truthy (Some s) = true)
    by (apply truthy_spec; exists s; auto).
  pose proof (tenant_domain_keeps_bindings_unique db k customDomain_ (Some s)
                Hnd Huc Hus) as [_ Hus'].
  destruct (tenant_domain_accepted db k customDomain_ (Some s) Hok)
    as (t & Ha & Hdb & _ & Hvalid).
  destruct (Hvalid Hts) as [Hv _]. cbn [JS.interpolate] in Hv.
  destruct (valid_subdomain_facts s Hv) as (_ & _ & Hnodot & _).
  fold db' in Hdb, Hus'.
  set (t' := Api.set_domains t (JS.or_else customDomain_ None)
                               (JS.or_else (Some s) None)) in *.
  assert (Hsub : subdomain t' = Some s).
  { unfold t'. cbn [Api.set_domains subdomain]. unfold JS.or_else.
    rewrite Hts. reflexivity. }
  assert (Hin : In t' db').
  { rewrite Hdb. apply (save_In db t t'); [|reflexivity].
    apply authenticates_In in Ha. tauto. }
  assert (Hres : Api.identifyTenantByDomain db' host = Some t').
  { unfold Api.identifyTenantByDomain.
    rewrite (no_custom_match db' host Hfree).
    unfold host. rewrite includes_suffix.
    change parent_domain with (String dot "docforge.com").
    rewrite (split_first_of_host s "docforge.com" Hnodot).
    apply (findOne_field subdomain db' t' s Hus' Hin Hsub). }
  exists t'. split; [exact Hres|].
  split. { rewrite Hdb. apply (authenticates_save db k t t' Hnd Ha); reflexivity. }
  split; [exact Hsub|].
  rewrite frontend_resolve_agrees, Hres. reflexivity.
Qed.

Lemma directory_is_ok : directory_ok directory.
Proof.
  split; [exact directory_ids_distinct|]. split.
  - intros t1 t2 v H1 H2 E1 E2.
    destruct H1 as [<-|[<-|[<-|[]]]]; destruct H2 as [<-|[<-|[<-|[]]]];
      simpl in E1, E2; solve [reflexivity | congruence].
  - intros t1 t2 v H1 H2 E1 E2.
    destruct H1 as [<-|[<-|[<-|[]]]]; destruct H2 as [<-|[<-|[<-|[]]]];
      simpl in E1, E2; solve [reflexivity | congruence].
Defined.

Lemma subdomain_binding_resolves_witness :
  let db' := fst (Api.tenant_domain directory (Some "c5a6b7c8") None
                    (Some "open-docs")) in
  directory_ok directory /\
  "open-docs" <> EmptyString /\
  status (snd (Api.tenant_domain directory (Some "c5a6b7c8") None
                 (Some "open-docs"))) = 200%nat /\
  (forall d, In d db' -> customDomain d <> Some ("open-docs" +:+ parent_domain)) /\
  exists t', Api.identifyTenantByDomain db' "open-docs.docforge.com" = Some t' /\
             subdomain t' = Some "open-docs".
Proof.
  cbv zeta.
  assert (Hne : "open-docs" <> EmptyString) by discriminate.
  assert (Hfree : forall d,
            In d (fst (Api.tenant_domain directory (Some "c5a6b7c8") None
                         (Some "open-docs"))) ->
            customDomain d <> Some ("open-docs" +:+ parent_domain)).
  { intros d Hin. vm_compute in Hin.
    destruct Hin as [<-|[<-|[<-|[]]]]; discriminate. }
  split; [exact directory_is_ok|]. split; [exact Hne|].
  split; [reflexivity|]. split; [exact Hfree|].
  destruct (subdomain_binding_resolves directory (Some "c5a6b7c8") None
              "open-docs" directory_is_ok Hne eq_refl Hfree)
    as (t' & Hr & _ & Hs & _).
  exists t'. split; [exact Hr | exact Hs].
Defined.

(** X7: a domain update that asks for a custom domain or a subdomain
    already stored for a tenant with another [_id] is answered 400 and
    the collection is returned as it was. *)
Theorem taken_binding_refused
    (db : list Tenant) (k customDomain_ subdomain_ : option string)
    (t other : Tenant) (d : string) :
  authenticates db k t ->
  In other db ->
  _id other <> _id t ->
  d <> EmptyString ->
  (customDomain_ = Some d /\ customDomain other = Some d) \/
  (subdomain_ = Some d /\ subdomain other = Some d) ->
  let r := Api.tenant_domain db k customDomain_ subdomain_ in
  fst r = db /\ status (snd r) = 400%nat /\
  exists msg, payload (snd r) = Error msg.
Proof.
  intros Ha Hin Hid Hne Hb r. subst r. unfold Api.tenant_domain.
  rewrite (authenticates_verified db k t Ha).
  assert (Ht : JS.truthy (Some d) = true)
    by (apply truthy_spec; exists d; auto).
  repeat match goal with
         | |- context [if ?c then _ else _] =>
             destruct c eqn:?; [cbn; eauto|]
         end.
  exfalso. destruct Hb as [[-> Ho]|[-> Ho]].
  - rewrite Ht in *. cbn [andb JS.interpolate] in *.
    rewrite (taken_by_other_true (by_customDomain d) t other db Hin) in *;
      [discriminate | apply field_is_true; exact Ho | exact Hid].
  - rewrite Ht in *. cbn [andb JS.interpolate] in *.
    rewrite (taken_by_other_true (by_subdomain d) t other db Hin) in *;
      [discriminate | apply field_is_true; exact Ho | exact Hid].
Qed.

Lemma taken_binding_refused_witness :
  authenticates directory (Some "c5a6b7c8") open_docs /\
  In acme directory /\
  _id acme <> _id open_docs /\
  fst (Api.tenant_domain directory (Some "c5a6b7c8") None (Some "acme"))
  = directory /\
  status (snd (Api.tenant_domain directory (Some "c5a6b7c8") None (Some "acme")))
  = 400%nat.
Proof.
  assert (Ha : authenticates directory (Some "c5a6b7c8") open_docs).
  { exists "c5a6b7c8". split; [reflexivity|]. split; [discriminate | reflexivity]. }
  assert (Hin : In acme directory) by (simpl; auto).
  assert (Hid : _id acme <> _id open_docs) by discriminate.
  split; [exact Ha|]. split; [exact Hin|]. split; [exact Hid|].
  destruct (taken_binding_refused directory (Some "c5a6b7c8") None (Some "acme")
              open_docs acme "acme" Ha Hin Hid ltac:(discriminate)
              (or_intror (conj eq_refl eq_refl))) as (H1 & H2 & _).
  split; [exact H1 | exact H2].
Defined.

Lemma parent_label_valid : Api.isValidDomain "docforge.com" = true.
Proof. reflexivity. Qed.

(** X8: validation does not keep hosts under the parent domain out of
    the custom domains. For a valid label [s] whose host [s.docforge.com]
    resolves to tenant [a] by its subdomain, another tenant [b] may
    submit that host as its custom domain: the update is accepted, and
    from then on the host resolves to [b] in both processes, the
    custom-domain lookup coming first. *)
Theorem custom_domain_shadows_subdomain
    (db : list Tenant) (k : option string) (s : string) (a b : Tenant) :
  List.NoDup (map _id db) ->
  authenticates db k b ->
  Api.isValidSubdomain s = true ->
  (forall d, In d db -> customDomain d <> Some (s +:+ parent_domain)) ->
  findOne (by_subdomain s) db = Some a ->
  _id a <> _id b ->
  let host := s +:+ parent_domain in
  let r := Api.tenant_domain db k (Some host) None in
  Api.identifyTenantByDomain db host = Some a /\
  status (snd r) = 200%nat /\
  exists b',
    Api.identifyTenantByDomain (fst r) host = Some b' /\
    Frontend.resolve (fst r) host = Some (Api.by_domain_json b') /\
    _id b' = _id b /\ apiKey b' = apiKey b /\ _id b' <> _id a.
Proof.
  intros Hnd Ha Hv Hfree Hsub Hab host r.
  destruct (valid_subdomain_facts s Hv) as (Hlen & _ & Hnodot & _).
  assert (Hhost : host <> EmptyString).
  { unfold host. destruct s; [simpl in Hlen; lia | discriminate]. }
  assert (Ht : JS.truthy (Some host) = true)
    by (apply truthy_spec; exists host; auto).
  assert (Hbefore : Api.identifyTenantByDomain db host = Some a).
  { unfold Api.identifyTenantByDomain.
    rewrite (no_custom_match db host Hfree).
    unfold host. rewrite includes_suffix.
    change parent_domain with (String dot "docforge.com").
    rewrite (split_first_of_host s "docforge.com" Hnodot). exact Hsub. }
  assert (Hvalid : Api.isValidDomain host = true).
  { unfold host. change parent_domain with (String dot "docforge.com").
    destruct valid_domain_by_labels_aux as [Happ Hone].
    rewrite Happ, (Hone s Hnodot), Hv. reflexivity. }
  set (b' := Api.set_domains b (JS.or_else (Some host) None) (JS.or_else None None)).
  assert (Hrun : r = (Api.save b' db,
                      json {| Api.reply_customDomain := customDomain b';
                              Api.reply_subdomain := subdomain b';
                              Api.reply_domainVerified := false |})).
  { apply (tenant_domain_accepts db k (Some host) None b Ha).
    - intros _. cbn [JS.interpolate]. split; [exact Hvalid|].
      apply taken_by_other_free. intros d Hin Hq.
      apply field_is_true in Hq. destruct (Hfree d Hin Hq).
    - discriminate. }
  assert (Hcd : customDomain b' = Some host).
  { unfold b'. cbn [Api.set_domains customDomain]. unfold JS.or_else.
    rewrite Ht. reflexivity. }
  assert (Hafter : Api.identifyTenantByDomain (fst r) host = Some b').
  { rewrite Hrun. cbn [fst]. unfold Api.identifyTenantByDomain.
    assert (findOne (by_customDomain host) (Api.save b' db) = Some b') as ->;
      [|reflexivity].
    apply findOne_the.
    - apply (save_In db b b'); [|reflexivity].
      apply authenticates_In in Ha. tauto.
    - apply field_is_true. exact Hcd.
    - intros d Hin Hq. apply In_save in Hin; [|exact Hnd].
      destruct Hin as [->|[Hin _]]; [reflexivity|].
      apply field_is_true in Hq. destruct (Hfree d Hin Hq). }
  split; [exact Hbefore|].
  split; [rewrite Hrun; reflexivity|].
  exists b'. split; [exact Hafter|].
  split; [rewrite frontend_resolve_agrees, Hafter; reflexivity|].
  repeat split; try reflexivity.
  intros E. apply Hab. symmetry. exact E.
Qed.

Lemma custom_domain_shadows_subdomain_witness :
  List.NoDup (map _id directory) /\
  authenticates directory (Some "c5a6b7c8") open_docs /\
  Api.isValidSubdomain "acme" = true /\
  (forall d, In d directory -> customDomain d <> Some ("acme" +:+ parent_domain)) /\
  findOne (by_subdomain "acme") directory = Some acme /\
  _id acme <> _id open_docs /\
  Api.identifyTenantByDomain directory "acme.docforge.com" = Some acme /\
  exists b',
    Api.identifyTenantByDomain
      (fst (Api.tenant_domain directory (Some "c5a6b7c8")
              (Some "acme.docforge.com") None))
      "acme.docforge.com" = Some b' /\
    _id b' = _id open_docs.
Proof.
  assert (Ha : authenticates directory (Some "c5a6b7c8") open_docs).
  { exists "c5a6b7c8". split; [reflexivity|]. split; [discriminate | reflexivity]. }
  assert (Hfree : forall d, In d directory ->
                    customDomain d <> Some ("acme" +:+ parent_domain)).
  { intros d [<-|[<-|[<-|[]]]]; discriminate. }
  assert (Hid : _id acme <> _id open_docs) by discriminate.
  split; [exact directory_ids_distinct|]. split; [exact Ha|].
  split; [reflexivity|]. split; [exact Hfree|]. split; [reflexivity|].
  split; [exact Hid|].
  destruct (custom_domain_shadows_subdomain directory (Some "c5a6b7c8") "acme"
              acme open_docs directory_ids_distinct Ha eq_refl Hfree eq_refl Hid)
    as (H1 & _ & b' & H2 & _ & H3 & _).
  split; [exact H1|]. exists b'. split; [exact H2 | exact H3].
Defined.

End Bindings.

(** ** Verification, branding and password updates *)

Section Updates.

Variable resolves : string -> bool.
Variable production : bool.

(** X9: for the tenant that owns the key, the verification route
    answers 400 and changes nothing when no custom domain is stored;
    otherwise it answers the DNS outcome for the stored custom domain,
    and the info route then reports that outcome as [domainVerified]
    with the bindings unchanged. *)
Theorem verify_domain_records_dns
    (db : list Tenant) (k : option string) (t : Tenant) :
  List.NoDup (map _id db) ->
  authenticates db k t ->
  let r := Api.tenant_verify_domain resolves db k in
  (JS.truthy (customDomain t) = false ->
     r = (db, fail 400 "No custom domain configured")) /\
  (forall d, customDomain t = Some d -> d <> EmptyString ->
     snd r = json (resolves d) /\
     exists after,
       Routes.tenant_info (fst r) k = json after /\
       Info.domainVerified after = resolves d /\
       Info.customDomain after = Some d /\
       Info.subdomain after = subdomain t).
Proof.
  intros Hnd Ha r. subst r. unfold Api.tenant_verify_domain.
  rewrite (authenticates_verified db k t Ha). split.
  - intros ->. reflexivity.
  - intros d Hd Hne.
    assert (JS.truthy (customDomain t) = true) as ->
      by (apply truthy_spec; exists d; auto).
    cbn [negb fst snd]. rewrite Hd. cbn [JS.interpolate].
    split; [reflexivity|].
    pose proof (authenticates_save db k t
                  (Api.set_domainVerified t (resolves d))
                  Hnd Ha eq_refl eq_refl) as Ha'.
    unfold Routes.tenant_info. rewrite (authenticates_verified _ k _ Ha').
    eexists. split; [reflexivity|]. cbn. rewrite Hd. auto.
Qed.

Lemma or_else_again (a b : option string) :
  JS.or_else a (JS.or_else a b) = JS.or_else a b.
Proof. unfold JS.or_else. destruct (JS.truthy a); reflexivity. Qed.

Lemma or_else_truthy (a b : option string) :
  JS.truthy b = true -> JS.truthy (JS.or_else a b) = true.
Proof. unfold JS.or_else. destruct (JS.truthy a) eqn:E; auto. Qed.

Lemma save_again (t' : Tenant) (db : list Tenant) :
  Api.save t' (Api.save t' db) = Api.save t' db.
Proof.
  induction db as [|d rest IH]; [reflexivity|].
  cbn [Api.save]. destruct (String.eqb (_id d) (_id t')) eqn:E; cbn [Api.save].
  - rewrite String.eqb_refl. reflexivity.
  - rewrite E, IH. reflexivity.
Qed.

Lemma tenant_branding_run
    (db : list Tenant) (k favicon_ customCSS_ logoUrl_ brandColor_ : option string)
    (t : Tenant) :
  authenticates db k t ->
  exists ds,
    Api.tenant_branding db k favicon_ customCSS_ logoUrl_ brandColor_
    = (Api.save (Api.set_domainSettings t ds) db, json ds) /\
    favicon ds = JS.or_else favicon_ (favicon (domainSettings t)) /\
    customCSS ds = JS.or_else customCSS_ (customCSS (domainSettings t)) /\
    logoUrl ds = JS.or_else logoUrl_ (logoUrl (domainSettings t)) /\
    brandColor ds
    = JS.or_else (JS.or_else brandColor_ (brandColor (domainSettings t)))
                 (Some "#3B82F6").
Proof.
  intros Ha. unfold Api.tenant_branding.
  rewrite (authenticates_verified db k t Ha).
  eexists. split; [reflexivity|]. repeat split; reflexivity.
Qed.

Lemma brandColor_settles (b old : option string) :
  let c := JS.or_else (JS.or_else b old) (Some "#3B82F6") in
  JS.or_else (JS.or_else b c) (Some "#3B82F6") = c.
Proof.
  cbv zeta. unfold JS.or_else.
  destruct (JS.truthy b) eqn:Tb; rewrite ?Tb.
  - reflexivity.
  - destruct (JS.truthy old) eqn:To; rewrite ?Tb, ?To; reflexivity.
Qed.

(** X10: a branding update never empties a setting: a field that held a
    non-empty value holds a non-empty value afterwards, [brandColor] is
    always non-empty afterwards, the info route reports the settings the
    update answered, and sending the same update again changes nothing. *)
Theorem branding_never_clears
    (db : list Tenant) (k favicon_ customCSS_ logoUrl_ brandColor_ : option string)
    (t : Tenant) :
  List.NoDup (map _id db) ->
  authenticates db k t ->
  let r := Api.tenant_branding db k favicon_ customCSS_ logoUrl_ brandColor_ in
  let old := domainSettings t in
  exists ds,
    snd r = json ds /\
    (exists after, Routes.tenant_info (fst r) k = json after /\
                   Info.domainSettings after = ds) /\
    (JS.truthy (favicon old) = true -> JS.truthy (favicon ds) = true) /\
    (JS.truthy (customCSS old) = true -> JS.truthy (customCSS ds) = true) /\
    (JS.truthy (logoUrl old) = true -> JS.truthy (logoUrl ds) = true) /\
    JS.truthy (brandColor ds) = true /\
    Api.tenant_branding (fst r) k favicon_ customCSS_ logoUrl_ brandColor_
    = (fst r, json ds).
Proof.
  intros Hnd Ha r old. subst r old.
  destruct (tenant_branding_run db k favicon_ customCSS_ logoUrl_ brandColor_ t Ha)
    as (ds & Hrun & Hf & Hc & Hl & Hb).
  rewrite Hrun. cbn [fst snd].
  pose proof (authenticates_save db k t (Api.set_domainSettings t ds)
                Hnd Ha eq_refl eq_refl) as Ha'.
  exists ds. split; [reflexivity|].
  split. { unfold Routes.tenant_info. rewrite (authenticates_verified _ k _ Ha').
           eexists. split; reflexivity. }
  split; [rewrite Hf; apply or_else_truthy|].
  split; [rewrite Hc; apply or_else_truthy|].
  split; [rewrite Hl; apply or_else_truthy|].
  split; [rewrite Hb; apply or_else_truthy; reflexivity|].
  destruct (tenant_branding_run _ k favicon_ customCSS_ logoUrl_ brandColor_ _ Ha')
    as (ds' & Hrun' & Hf' & Hc' & Hl' & Hb').
  cbn [Api.set_domainSettings domainSettings] in Hf', Hc', Hl', Hb'.
  assert (Hsame : ds' = ds).
  { rewrite Hf, or_else_again, <- Hf in Hf'.
    rewrite Hc, or_else_again, <- Hc in Hc'.
    rewrite Hl, or_else_again, <- Hl in Hl'.
    rewrite Hb, brandColor_settles, <- Hb in Hb'.
    destruct ds, ds'. cbn in *. congruence. }
  rewrite Hrun', Hsame.
  assert (Hfix : Api.set_domainSettings (Api.set_domainSettings t ds) ds
                 = Api.set_domainSettings t ds) by reflexivity.
  rewrite Hfix, save_again. reflexivity.
Qed.

End Updates.

Lemma acme_authenticates : authenticates directory (Some "a3f1c2d4") acme.
Proof.
  exists "a3f1c2d4". split; [reflexivity|]. split; [discriminate | reflexivity].
Defined.

Lemma verify_domain_records_dns_witness :
  List.NoDup (map _id directory) /\
  authenticates directory (Some "a3f1c2d4") acme /\
  snd (Api.tenant_verify_domain (fun _ => true) directory (Some "a3f1c2d4"))
  = json true.
Proof.
  split; [exact directory_ids_distinct|]. split; [exact acme_authenticates|].
  destruct (verify_domain_records_dns (fun _ => true) directory (Some "a3f1c2d4")
              acme directory_ids_distinct acme_authenticates) as [_ H].
  exact (proj1 (H "docs.acme.io" eq_refl ltac:(discriminate))).
Defined.

Lemma branding_never_clears_witness :
  List.NoDup (map _id directory) /\
  authenticates directory (Some "a3f1c2d4") acme /\
  exists ds,
    snd (Api.tenant_branding directory (Some "a3f1c2d4")
           (Some "/uploads/f.ico") None None (Some "")) = json ds /\
    JS.truthy (brandColor ds) = true.
Proof.
  split; [exact directory_ids_distinct|]. split; [exact acme_authenticates|].
  destruct (branding_never_clears directory (Some "a3f1c2d4")
              (Some "/uploads/f.ico") None None (Some "") acme
              directory_ids_distinct acme_authenticates)
    as (ds & H1 & _ & _ & _ & _ & H2 & _).
  exists ds. split; [exact H1 | exact H2].
Defined.

(** ** Passwords and sessions *)

Section Sessions.


(** On a string of ASCII characters the code units are the bytes. *)
Lemma length_ascii (s : string) :
  forallb (fun c => (nat_of_ascii c <? 128)%nat) (list_ascii_of_string s) = true ->
  JS.length s = String.length s.
Proof.
  induction s as [|c s IH]; [reflexivity|].
  cbn [list_ascii_of_string forallb JS.length String.length].
  intros [Hc Hs]%andb_true_iff. rewrite (IH Hs).
  unfold JS.units. rewrite Hc. reflexivity.
Qed.

(** A character outside ASCII takes more bytes than code units: two
    euro signs are six bytes and two code units. *)
Lemma length_two_euro_signs :
  String.length two_euro_signs = 6%nat /\ JS.length two_euro_signs = 2%nat.
Proof. split; reflexivity. Qed.

(** The sample cast reads the digits of an id in either case. *)
Lemma cast24_either_case :
  cast24 "66D1F0A2C4E8B9A1D2E3F401" = cast24 "66d1f0a2c4e8b9a1d2e3f401" /\
  cast24 "66d1f0a2c4e8b9a1d2e3f401" = Some "66d1f0a2c4e8b9a1d2e3f401" /\
  cast24 "not-an-object-id" = None.
Proof. repeat split; reflexivity. Qed.

(** The accepted case of the password update, forwards. *)
Lemma password_update_run (db : list Tenant) (k : option string)
    (p : string) (t : Tenant) :
  authenticates db k t ->
  (6 <= JS.length p)%nat ->
  Api.tenant_subdomain_password db k (Some p)
  = (Api.save (Api.set_subdomainPassword t (Some p)) db, json tt).
Proof.
  intros Ha Hlen. unfold Api.tenant_subdomain_password.
  rewrite (authenticates_verified db k t Ha).
  assert (JS.truthy (Some p) = true) as ->.
  { apply truthy_spec. exists p. split; [reflexivity|].
    intros ->. simpl in Hlen. lia. }
  cbn [negb orb JS.interpolate].
  assert ((JS.length p <? 6)%nat = false) as -> by (apply Nat.ltb_ge; lia).
  reflexivity.
Qed.

(** X11: a password of fewer than six UTF-16 code units (what
    [password.length] counts), or none, is refused with 400 and nothing
    stored. Once a password of at least six code units has been stored
    for the tenant that owns the key, a login to that tenant's subdomain
    succeeds with it and is answered 401 with any other password. *)
Theorem password_update_then_login
    (resolves : string -> bool) (production : bool) (srv : Server)
    (k : option string) (p sd : string) (t : Tenant)
    (now : Z) (rnd : list Byte.byte) :
  List.NoDup (map _id (tenants srv)) ->
  unique_by subdomain (tenants srv) ->
  authenticates (tenants srv) k t ->
  subdomain t = Some sd ->
  (6 <= JS.length p)%nat ->
  let srv' := Api.handle resolves production srv
                (Api.PostSubdomainPassword k (Some p)) in
  status (snd (Api.subdomain_login now production rnd srv' sd p)) = 200%nat /\
  (forall pw, pw <> p ->
     snd (Api.subdomain_login now production rnd srv' sd pw)
     = fail 401 "Invalid password") /\
  (forall q, (JS.length q < 6)%nat ->
     Api.tenant_subdomain_password (tenants srv) k (Some q)
     = (tenants srv, fail 400 "Password must be at least 6 characters")) /\
  Api.tenant_subdomain_password (tenants srv) k None
  = (tenants srv, fail 400 "Password must be at least 6 characters").
Proof.
  intros Hnd Hu Ha Hsd Hlen srv'.
  assert (Hin : In t (tenants srv)) by (apply authenticates_In in Ha; tauto).
  set (t' := Api.set_subdomainPassword t (Some p)).
  assert (Hfind : findOne (by_subdomain sd) (tenants srv') = Some t').
  { unfold srv'. cbn [Api.handle Api.with_tenants tenants].
    rewrite (password_update_run (tenants srv) k p t Ha Hlen). cbn [fst].
    apply (findOne_save _ (tenants srv) t t' Hnd); [|reflexivity|].
    - apply (findOne_field subdomain (tenants srv) t sd Hu Hin Hsd).
    - apply field_is_true. exact Hsd. }
  assert (Hp : p <> EmptyString) by (intros ->; simpl in Hlen; lia).
  split. { apply (login_succeeds now production rnd srv' sd p t' Hfind);
           [reflexivity | exact Hp]. }
  split.
  { intros pw Hne. unfold Api.subdomain_login. rewrite Hfind.
    destruct (negb (JS.truthy (subdomainPassword t'))
              || negb (String.eqb (JS.interpolate (subdomainPassword t')) pw))
      eqn:E; [reflexivity|].
    apply login_password_test in E as [E _]. cbn in E. congruence. }
  split.
  { intros q Hq. unfold Api.tenant_subdomain_password.
    rewrite (authenticates_verified _ k t Ha). cbn [JS.interpolate].
    apply Nat.ltb_lt in Hq. rewrite Hq, orb_true_r. reflexivity. }
  unfold Api.tenant_subdomain_password.
  rewrite (authenticates_verified _ k t Ha). reflexivity.
Qed.

Lemma password_update_then_login_witness :
  List.NoDup (map _id (tenants fresh_server)) /\
  unique_by subdomain (tenants fresh_server) /\
  authenticates (tenants fresh_server) (Some "c5a6b7c8") open_docs /\
  subdomain open_docs = Some "open" /\
  (6 <= JS.length "opensesame")%nat /\
  status (snd (Api.subdomain_login 1725000100000 true sample_bytes
                 (Api.handle (fun _ => true) true fresh_server
                    (Api.PostSubdomainPassword (Some "c5a6b7c8") (Some "opensesame")))
                 "open" "opensesame")) = 200%nat /\
  (JS.length two_euro_signs < 6)%nat /\
  Api.tenant_subdomain_password (tenants fresh_server) (Some "c5a6b7c8")
    (Some two_euro_signs)
  = (tenants fresh_server, fail 400 "Password must be at least 6 characters").
Proof.
  assert (Ha : authenticates (tenants fresh_server) (Some "c5a6b7c8") open_docs).
  { exists "c5a6b7c8". split; [reflexivity|]. split; [discriminate | reflexivity]. }
  assert (Hl : (6 <= JS.length "opensesame")%nat) by (vm_compute; lia).
  assert (Hs : (JS.length two_euro_signs < 6)%nat) by (vm_compute; lia).
  split; [exact directory_ids_distinct|].
  split; [exact (proj2 (proj2 directory_is_ok))|].
  split; [exact Ha|]. split; [reflexivity|]. split; [exact Hl|].
  destruct (password_update_then_login (fun _ => true) true fresh_server
              (Some "c5a6b7c8") "opensesame" "open" open_docs
              1725000100000 sample_bytes directory_ids_distinct
              (proj2 (proj2 directory_is_ok)) Ha eq_refl Hl)
    as (Hok & _ & Hshort & _).
  split; [exact Hok|]. split; [exact Hs|].
  exact (Hshort two_euro_signs Hs).
Defined.

(** The API gate looks at the resolved tenant through its [_id] and
    its subdomain only. *)
Lemma api_gate_same_for_same_identity
    (sessions : gmap string Session) (now : Z) (path : string)
    (t t' : Tenant) (cookies : gmap string string) :
  _id t' = _id t -> subdomain t' = subdomain t ->
  fst (Api.verifySubdomainAccess sessions now path (Some t') cookies)
  = fst (Api.verifySubdomainAccess sessions now path (Some t) cookies).
Proof.
  intros Hid Hsd. unfold Api.verifySubdomainAccess, Api.session_ok.
  rewrite Hid, Hsd.
  destruct (skipped_path path); [reflexivity|].
  destruct (JS.truthy (cookies !! cookie_for (subdomain t))); [|reflexivity].
  destruct (sessions !! _) as [s|]; [|reflexivity].
  destruct (String.eqb (tenantId s) (_id t) && (now <? expires s)); reflexivity.
Qed.

(** X12: changing the subdomain password revokes nothing. After a login
    with the old password and an accepted password update by the tenant
    (a new password of at least six UTF-16 code units), the old password
    is refused at the login, yet the cookie of the earlier login still
    passes the API gate for that tenant until its expiry. *)
Theorem password_change_keeps_sessions
    (resolves : string -> bool) (production : bool) (srv : Server)
    (k : option string) (sd pw p path : string) (t : Tenant)
    (now later : Z) (rnd rnd' : list Byte.byte) :
  List.NoDup (map _id (tenants srv)) ->
  length rnd = 32%nat ->
  findOne (by_subdomain sd) (tenants srv) = Some t ->
  subdomainPassword t = Some pw ->
  pw <> EmptyString ->
  authenticates (tenants srv) k t ->
  (6 <= JS.length p)%nat ->
  pw <> p ->
  skipped_path path = false ->
  later < now + day_ms ->
  let logged := Api.subdomain_login now production rnd srv sd pw in
  let srv2 := Api.handle resolves production (fst logged)
                (Api.PostSubdomainPassword k (Some p)) in
  forall c, set_cookie (snd logged) = Some c ->
  exists t2,
    findOne (by_subdomain sd) (tenants srv2) = Some t2 /\
    subdomainPassword t2 = Some p /\
    snd (Api.subdomain_login later production rnd' srv2 sd pw)
    = fail 401 "Invalid password" /\
    fst (Api.verifySubdomainAccess (subdomainSessions srv2) later path (Some t2)
           {[ cookie_name c := cookie_value c ]}) = ALLOW.
Proof.
  intros Hnd Hlen Hf Hp Hne Ha Hlp Hdiff Hpath Hlater logged srv2 c Hc.
  pose proof (api_gate_after_login now later production rnd srv sd pw path t
                Hlen Hf Hp Hne Hpath c Hc) as Hgate.
  assert (Ht : tenants (fst logged) = tenants srv).
  { unfold logged. rewrite (login_result now production rnd srv sd pw t Hf Hp Hne).
    reflexivity. }
  set (t2 := Api.set_subdomainPassword t (Some p)).
  assert (Hsrv2 : tenants srv2 = Api.save t2 (tenants srv) /\
                  subdomainSessions srv2 = subdomainSessions (fst logged)).
  { unfold srv2. cbn [Api.handle Api.with_tenants tenants subdomainSessions].
    rewrite Ht, (password_update_run (tenants srv) k p t Ha Hlp). auto. }
  destruct Hsrv2 as [Hdb Hs].
  assert (Hfind : findOne (by_subdomain sd) (tenants srv2) = Some t2).
  { rewrite Hdb. apply (findOne_save _ (tenants srv) t t2 Hnd Hf eq_refl).
    apply findOne_Some in Hf as [_ Hq]. exact Hq. }
  exists t2. split; [exact Hfind|]. split; [reflexivity|]. split.
  - unfold Api.subdomain_login. rewrite Hfind.
    destruct (negb (JS.truthy (subdomainPassword t2))
              || negb (String.eqb (JS.interpolate (subdomainPassword t2)) pw))
      eqn:E; [reflexivity|].
    apply login_password_test in E as [E _]. cbn in E. congruence.
  - rewrite Hs, (api_gate_same_for_same_identity _ later path t t2);
      [|reflexivity|reflexivity].
    fold logged in Hgate. rewrite Hgate.
    apply Z.ltb_lt in Hlater. rewrite Hlater. reflexivity.
Qed.

Lemma password_change_keeps_sessions_witness :
  let logged := Api.subdomain_login 1725000100000 true sample_bytes
                  fresh_server "beta" "hunter22" in
  let srv2 := Api.handle (fun _ => true) true (fst logged)
                (Api.PostSubdomainPassword (Some "b7e9d0f1") (Some "correct-horse")) in
  List.NoDup (map _id (tenants fresh_server)) /\
  findOne (by_subdomain "beta") (tenants fresh_server) = Some beta /\
  authenticates (tenants fresh_server) (Some "b7e9d0f1") beta /\
  exists c t2,
    set_cookie (snd logged) = Some c /\
    subdomainPassword t2 = Some "correct-horse" /\
    fst (Api.verifySubdomainAccess (subdomainSessions srv2) 1725000200000 "/docs"
           (Some t2) {[ cookie_name c := cookie_value c ]}) = ALLOW.
Proof.
  cbv zeta.
  assert (Ha : authenticates (tenants fresh_server) (Some "b7e9d0f1") beta).
  { exists "b7e9d0f1". split; [reflexivity|]. split; [discriminate | reflexivity]. }
  split; [exact directory_ids_distinct|]. split; [reflexivity|].
  split; [exact Ha|].
  eexists. 
  destruct (password_change_keeps_sessions (fun _ => true) true fresh_server
              (Some "b7e9d0f1") "beta" "hunter22" "correct-horse" "/docs" beta
              1725000100000 1725000200000 sample_bytes sample_bytes
              directory_ids_distinct eq_refl eq_refl eq_refl
              ltac:(discriminate) Ha ltac:(vm_compute; lia) ltac:(discriminate)
              eq_refl eq_refl _ eq_refl)
    as (t2 & _ & H2 & _ & H4).
  exists t2. split; [reflexivity|]. split; [exact H2 | exact H4].
Defined.

Lemma handle_sessions (resolves : string -> bool) (production : bool)
    (srv : Server) (c : Api.Call) :
  match c with
  | Api.PostSubdomainLogin now rnd sd p =>
      subdomainSessions (Api.handle resolves production srv c)
      = subdomainSessions srv \/
      exists s, subdomainSessions (Api.handle resolves production srv c)
                = <[Api.generateSubdomainToken rnd := s]> (subdomainSessions srv)
  | _ => subdomainSessions (Api.handle resolves production srv c)
         = subdomainSessions srv
  end.
Proof.
  destruct c; try reflexivity.
  cbn [Api.handle]. unfold Api.subdomain_login.
  destruct (findOne _ (tenants srv)); [|left; reflexivity].
  match goal with
  | |- context [if ?c then _ else _] => destruct c
  end; [left; reflexivity | right; eexists; reflexivity].
Qed.

(** X13: the session store only grows. Whatever domain, verification,
    branding, password and login requests are served, a token that was
    in the store is still in it, expired or not; and it still maps to
    the same session unless a later login drew the very same token. *)
Theorem sessions_never_removed
    (resolves : string -> bool) (production : bool)
    (calls : list Api.Call) (srv : Server) (token : string) (s : Session) :
  subdomainSessions srv !! token = Some s ->
  is_Some (subdomainSessions (Api.run resolves production srv calls) !! token) /\
  ((forall now rnd sd p,
      In (Api.PostSubdomainLogin now rnd sd p) calls ->
      Api.generateSubdomainToken rnd <> token) ->
   subdomainSessions (Api.run resolves production srv calls) !! token = Some s).
Proof.
  revert srv s. induction calls as [|c calls IH]; intros srv s Hs.
  - split; [exists s; exact Hs | intros _; exact Hs].
  - unfold Api.run in *. cbn [fold_left].
    pose proof (handle_sessions resolves production srv c) as Hc.
    assert (Hstep : is_Some (subdomainSessions
                               (Api.handle resolves production srv c) !! token)).
    { destruct c; try (rewrite Hc; exists s; exact Hs).
      destruct Hc as [-> | [s' ->]]; [exists s; exact Hs|].
      rewrite lookup_insert. case_decide; [eexists; reflexivity | exists s; exact Hs]. }
    destruct Hstep as [s1 Hs1]. split.
    + apply (IH _ s1 Hs1).
    + intros Hfresh.
      assert (Hsame : subdomainSessions
                        (Api.handle resolves production srv c) !! token = Some s).
      { destruct c; try (rewrite Hc; exact Hs).
        destruct Hc as [-> | [s' ->]]; [exact Hs|].
        rewrite lookup_insert_ne; [exact Hs|].
        apply (Hfresh now randomBytes32 subdomain_ password). left. reflexivity. }
      apply (IH _ s Hsame). intros. eapply Hfresh. right. eassumption.
Qed.

End Sessions.

Lemma sessions_never_removed_witness :
  let srv := fst (Api.subdomain_login 1725000100000 true sample_bytes
                    fresh_server "beta" "hunter22") in
  let token := Api.generateSubdomainToken sample_bytes in
  let calls := [Api.PostSubdomainPassword (Some "b7e9d0f1") (Some "correct-horse");
                Api.PostSubdomainLogin 1825000000000 [] "acme" "secret123"] in
  expires <$> (subdomainSessions srv !! token) = Some (1725000100000 + day_ms) /\
  expires <$> (subdomainSessions (Api.run (fun _ => true) true srv calls) !! token)
  = Some (1725000100000 + day_ms).
Proof.
  cbv zeta. split; [reflexivity|].
  set (srv := fst (Api.subdomain_login 1725000100000 true sample_bytes
                     fresh_server "beta" "hunter22")).
  set (token := Api.generateSubdomainToken sample_bytes).
  assert (Hs : subdomainSessions srv !! token
               = Some {| tenantId := _id beta; session_subdomain := Some "beta";
                         expires := 1725000100000 + day_ms |}) by reflexivity.
  destruct (sessions_never_removed (fun _ => true) true
              [Api.PostSubdomainPassword (Some "b7e9d0f1") (Some "correct-horse");
               Api.PostSubdomainLogin 1825000000000 [] "acme" "secret123"]
              srv token _ Hs) as [_ H].
  rewrite H; [reflexivity|].
  intros now rnd sd p [E|[E|[]]]; [discriminate E|].
  injection E as <- <- <- <-. discriminate.
Defined.

(** ** The two gates, request by request *)

Section GateDecisions.

(** X14: for a resolved tenant and a path that is not skipped, the API
    gate lets the request through exactly when the cookie named after
    the tenant's subdomain holds a non-empty token that the store maps
    to a session with this tenant's [_id] and an expiry after now; in
    every other case it redirects to the login page for that subdomain.
    Without a resolved tenant it lets the request through. *)
Theorem api_gate_decision
    (sessions : gmap string Session) (now : Z) (path : string)
    (t : Tenant) (cookies : gmap string string) :
  skipped_path path = false ->
  let valid :=
    exists v s, cookies !! cookie_for (subdomain t) = Some v /\
                v <> EmptyString /\ sessions !! v = Some s /\
                tenantId s = _id t /\ now < expires s in
  (valid ->
     Api.verifySubdomainAccess sessions now path (Some t) cookies
     = (ALLOW, Some t)) /\
  (~ valid ->
     Api.verifySubdomainAccess sessions now path (Some t) cookies
     = (CHALLENGE ("/subdomain-login?subdomain=" +:+ JS.interpolate (subdomain t)),
        None)) /\
  Api.verifySubdomainAccess sessions now path None cookies = (ALLOW, None).
Proof.
  intros Hp valid. unfold Api.verifySubdomainAccess. rewrite Hp.
  split; [|split; [|reflexivity]].
  - intros Hv. apply session_ok_spec in Hv. rewrite Hv. reflexivity.
  - intros Hn.
    destruct (Api.session_ok sessions now t (cookies !! cookie_for (subdomain t)))
      eqn:E; [|reflexivity].
    apply session_ok_spec in E. destruct (Hn E).
Qed.

Lemma api_gate_decision_witness :
  skipped_path "/docs" = false /\
  Api.verifySubdomainAccess ∅ 1725000100000 "/docs" (Some acme)
    {[ "subdomain_auth_acme" := "f00d" ]}
  = (CHALLENGE "/subdomain-login?subdomain=acme", None).
Proof.
  split; [reflexivity|].
  destruct (api_gate_decision ∅ 1725000100000 "/docs" acme
              {[ "subdomain_auth_acme" := "f00d" ]} eq_refl) as (_ & H & _).
  apply H. intros (v & s & _ & _ & Hs & _).
  rewrite lookup_empty in Hs. discriminate.
Defined.

(** X15: after an accepted login to the subdomain of the tenant a host
    resolves to, a request to that host carrying the cookie the login
    set passes the API gate as long as the clock is before
    [now + 24h] and is redirected to the login page from then on; the
    same request without cookies is redirected. *)
Theorem login_cookie_opens_api_gate_until_expiry
    (now later : Z) (production : bool) (rnd : list Byte.byte) (srv : Server)
    (sd pw host path : string) (t : Tenant) :
  length rnd = 32%nat ->
  Api.identifyTenantByDomain (tenants srv) host = Some t ->
  findOne (by_subdomain sd) (tenants srv) = Some t ->
  subdomainPassword t = Some pw ->
  pw <> EmptyString ->
  skipped_path path = false ->
  let r := Api.subdomain_login now production rnd srv sd pw in
  exists c,
    set_cookie (snd r) = Some c /\
    Api.gate (fst r) later host path {[ cookie_name c := cookie_value c ]}
    = (if later <? now + day_ms then ALLOW
       else CHALLENGE ("/subdomain-login?subdomain=" +:+ sd)) /\
    Api.gate (fst r) later host path ∅
    = CHALLENGE ("/subdomain-login?subdomain=" +:+ sd).
Proof.
  intros Hlen Hres Hf Hp Hne Hpath r.
  pose proof (login_result now production rnd srv sd pw t Hf Hp Hne) as Hr.
  fold r in Hr.
  assert (Hsd : subdomain t = Some sd).
  { apply findOne_Some in Hf as [_ Hq]. apply field_is_true in Hq. exact Hq. }
  eexists. split; [rewrite Hr; reflexivity|].
  unfold Api.gate.
  assert (Ht : tenants (fst r) = tenants srv) by (rewrite Hr; reflexivity).
  rewrite Ht, Hres. split.
  - pose proof (api_gate_after_login now later production rnd srv sd pw path t
                  Hlen Hf Hp Hne Hpath) as Hg.
    cbv zeta in Hg. fold r in Hg. apply Hg. rewrite Hr. reflexivity.
  - rewrite (api_gate_challenges_without_cookie _ later path t ∅ Hpath
               (lookup_empty _)).
    rewrite Hsd. reflexivity.
Qed.

Lemma login_cookie_opens_api_gate_until_expiry_witness :
  let r := Api.subdomain_login 1725000100000 true sample_bytes
             fresh_server "beta" "hunter22" in
  length sample_bytes = 32%nat /\
  Api.identifyTenantByDomain (tenants fresh_server) "beta.docforge.com" = Some beta /\
  findOne (by_subdomain "beta") (tenants fresh_server) = Some beta /\
  exists c,
    set_cookie (snd r) = Some c /\
    Api.gate (fst r) (1725000100000 + day_ms) "beta.docforge.com" "/"
      {[ cookie_name c := cookie_value c ]}
    = CHALLENGE "/subdomain-login?subdomain=beta".
Proof.
  cbv zeta. split; [reflexivity|]. split; [reflexivity|]. split; [reflexivity|].
  destruct (login_cookie_opens_api_gate_until_expiry 1725000100000
              (1725000100000 + day_ms) true sample_bytes fresh_server
              "beta" "hunter22" "beta.docforge.com" "/" beta
              eq_refl eq_refl eq_refl eq_refl ltac:(discriminate) eq_refl)
    as (c & Hc & Hg & _).
  exists c. split; [exact Hc | exact Hg].
Defined.

End GateDecisions.

(** ** The rendering process: gate and page routes together *)

Section Rendering.

(** For a path that is not skipped, the middleware of the rendering
    process attaches the tenant it looked up, whatever it decides. *)
Lemma frontend_attaches_lookup
    (apiCall : string -> string -> option View.t) (host path : string)
    (cookies : gmap string string) :
  skipped_path path = false ->
  snd (Frontend.identifyTenantByDomain apiCall host path cookies)
  = Frontend.lookup apiCall host.
Proof.
  intros Hs. unfold Frontend.identifyTenantByDomain. rewrite Hs.
  destruct (Frontend.lookup apiCall host) as [v|]; [|reflexivity].
  destruct (JS.truthy (View.subdomain v) && JS.truthy (View.subdomainPassword v));
    [|reflexivity].
  destruct (String.eqb path "/subdomain-login"); [reflexivity|].
  destruct (negb (JS.truthy (cookies !! cookie_for (View.subdomain v))));
    reflexivity.
Qed.

(** X16: the two processes resolve a host alike, on the paths the
    rendering process does not skip. With the API process reachable and
    a path outside [/api/], [/css/], [/js/] and [/images/], the tenant
    the rendering process attaches to the request is the JSON view of
    the tenant the API process attaches for the same host, whatever the
    cookies and whether the request is let through or redirected, and
    it is absent exactly when that one is. For a path under one of the
    four prefixes the rendering process attaches nothing, whatever the
    API process attaches (its resolver does not look at the path). *)
Theorem processes_resolve_alike (db : list Tenant) (host path : string)
    (cookies : gmap string string) :
  let attached :=
    snd (Frontend.identifyTenantByDomain (Frontend.apiCall_by_domain db)
           host path cookies) in
  (skipped_path path = false ->
   attached = Api.by_domain_json <$> Api.identifyTenantByDomain db host /\
   (attached = None <-> Api.identifyTenantByDomain db host = None)) /\
  (skipped_path path = true -> attached = None).
Proof.
  cbv zeta. split.
  - intros Hs. rewrite (frontend_attaches_lookup _ host path cookies Hs).
    pose proof (frontend_resolve_agrees db host) as H.
    unfold Frontend.resolve in H. rewrite H. split; [reflexivity|].
    destruct (Api.identifyTenantByDomain db host); simpl; split;
      solve [reflexivity | discriminate].
  - intros Hs. unfold Frontend.identifyTenantByDomain. rewrite Hs. reflexivity.
Qed.

(** At the sample directory: a page of Beta and a stylesheet of Beta. *)
Lemma processes_resolve_alike_witness :
  snd (Frontend.identifyTenantByDomain (Frontend.apiCall_by_domain directory)
         "beta.docforge.com" "/docs" ∅)
  = Some (Api.by_domain_json beta) /\
  Api.identifyTenantByDomain directory "beta.docforge.com" = Some beta /\
  snd (Frontend.identifyTenantByDomain (Frontend.apiCall_by_domain directory)
         "beta.docforge.com" "/css/site.css" ∅)
  = None.
Proof.
  destruct (processes_resolve_alike directory "beta.docforge.com" "/docs" ∅)
    as [Hn _].
  destruct (processes_resolve_alike directory "beta.docforge.com" "/css/site.css" ∅)
    as [_ Hs].
  destruct (Hn eq_refl) as [Hv _].
  split; [rewrite Hv; reflexivity|]. split; [reflexivity|].
  exact (Hs eq_refl).
Defined.

(** X17: the rendering process fails open. When both lookups of a host
    come back empty, as they do when the API process is unreachable or
    answers an error, no request is redirected to a login page and no
    tenant is attached, whatever protection the tenant has set. *)
Theorem rendering_gate_fails_open
    (apiCall : string -> string -> option View.t)
    (host path : string) (cookies : gmap string string) :
  apiCall host "custom" = None ->
  apiCall (JS.first (JS.split dot host)) "subdomain" = None ->
  Frontend.identifyTenantByDomain apiCall host path cookies
  = (if skipped_path path then EXEMPT else ALLOW, None) /\
  (forall L (route : option View.t -> Site.Reply L),
     Site.behind_gate apiCall host path cookies route = route None).
Proof.
  intros Hc Hs.
  assert (Hl : Frontend.lookup apiCall host = None).
  { unfold Frontend.lookup. rewrite Hc, Hs.
    destruct (JS.includes host parent_domain); reflexivity. }
  assert (Hg : Frontend.identifyTenantByDomain apiCall host path cookies
               = (if skipped_path path then EXEMPT else ALLOW, None)).
  { unfold Frontend.identifyTenantByDomain. rewrite Hl.
    destruct (skipped_path path); reflexivity. }
  split; [exact Hg|].
  intros L route. unfold Site.behind_gate. rewrite Hg.
  destruct (skipped_path path); reflexivity.
Qed.

Lemma rendering_gate_fails_open_witness :
  (fun _ _ : string => @None View.t) "beta.docforge.com" "custom" = None /\
  Frontend.identifyTenantByDomain (fun _ _ => None) "beta.docforge.com" "/docs" ∅
  = (ALLOW, None).
Proof.
  split; [reflexivity|].
  exact (proj1 (rendering_gate_fails_open (fun _ _ => None) "beta.docforge.com"
                  "/docs" ∅ eq_refl eq_refl)).
Defined.

(** X18: a redirect of the rendering gate never loops. Its target is
    the login page for the non-empty subdomain label of the resolved,
    password protected tenant, and the request for that page passes the
    gate and is rendered. *)
Theorem rendering_challenge_reaches_login_page
    (apiCall : string -> string -> option View.t)
    (host path : string) (cookies : gmap string string) (target : string) :
  fst (Frontend.identifyTenantByDomain apiCall host path cookies)
  = CHALLENGE target ->
  exists v label,
    Frontend.lookup apiCall host = Some v /\
    View.subdomain v = Some label /\ label <> EmptyString /\
    JS.truthy (View.subdomainPassword v) = true /\
    JS.truthy (cookies !! ("subdomain_auth_" +:+ label)) = false /\
    target = "/subdomain-login?subdomain=" +:+ label /\
    Site.behind_gate apiCall host "/subdomain-login" cookies
      (fun _ => Site.subdomain_login_page (Some label))
    = Site.Render "subdomain-login"
        {| Site.login_title := "Access Required - " +:+ label;
           Site.login_subdomain := label |}.
Proof.
  unfold Frontend.identifyTenantByDomain.
  destruct (skipped_path path); [discriminate|].
  destruct (Frontend.lookup apiCall host) as [v|] eqn:Hl; [|discriminate].
  destruct (JS.truthy (View.subdomain v)) eqn:Hs; [|discriminate].
  destruct (JS.truthy (View.subdomainPassword v)) eqn:Hp; [|discriminate].
  cbn [andb]. destruct (String.eqb path "/subdomain-login"); [discriminate|].
  destruct (JS.truthy (cookies !! cookie_for (View.subdomain v))) eqn:Hc;
    [discriminate|].
  cbn [negb fst]. intros [= <-].
  apply truthy_spec in Hs as (label & Hsub & Hne).
  exists v, label. rewrite Hsub in *. cbn [cookie_for login_url JS.interpolate] in *.
  repeat split; try assumption; try reflexivity.
  unfold Site.behind_gate, Frontend.identifyTenantByDomain.
  change (skipped_path "/subdomain-login") with false. cbv iota.
  rewrite Hl, Hsub.
  assert (JS.truthy (Some label) = true) as Ht
    by (apply truthy_spec; exists label; auto).
  rewrite Ht, Hp. cbn [andb]. rewrite String.eqb_refl.
  unfold Site.subdomain_login_page. rewrite Ht. reflexivity.
Qed.

Lemma rendering_challenge_reaches_login_page_witness :
  fst (Frontend.identifyTenantByDomain (Frontend.apiCall_by_domain directory)
         "beta.docforge.com" "/docs" ∅)
  = CHALLENGE "/subdomain-login?subdomain=beta" /\
  Site.behind_gate (Frontend.apiCall_by_domain directory) "beta.docforge.com"
    "/subdomain-login" ∅ (fun _ => Site.subdomain_login_page (Some "beta"))
  = Site.Render "subdomain-login"
      {| Site.login_title := "Access Required - beta";
         Site.login_subdomain := "beta" |}.
Proof.
  assert (Hg : fst (Frontend.identifyTenantByDomain
                      (Frontend.apiCall_by_domain directory)
                      "beta.docforge.com" "/docs" ∅)
               = CHALLENGE "/subdomain-login?subdomain=beta") by reflexivity.
  split; [exact Hg|].
  destruct (rendering_challenge_reaches_login_page
              (Frontend.apiCall_by_domain directory) "beta.docforge.com" "/docs" ∅
              "/subdomain-login?subdomain=beta" Hg)
    as (v & label & Hl & Hs & _ & _ & _ & _ & Hr).
  vm_compute in Hl. injection Hl as <-. injection Hs as <-. exact Hr.
Defined.

(** X19: the rendering process hands the tenant's API key to whoever
    passes its gate. For a host that resolves to a tenant with a
    non-empty [apiKey], when the tenant has no subdomain password (or no
    subdomain), or the request carries any non-empty cookie under the
    tenant's name, a request for [/] or [/domains] without an [apiKey]
    query parameter is answered by a redirect whose URL contains the
    tenant's API key. *)
Theorem page_redirect_carries_api_key
    (db : list Tenant) (host : string) (cookies : gmap string string)
    (t : Tenant) (query header : option string)
    (apiCall_info : string -> option Info.t)
    (apiCall_pages : string -> option (list Page.t)) :
  Api.identifyTenantByDomain db host = Some t ->
  apiKey t <> EmptyString ->
  JS.truthy (subdomain t) && JS.truthy (subdomainPassword t) = false \/
  JS.truthy (cookies !! cookie_for (subdomain t)) = true ->
  JS.truthy query = false ->
  Site.behind_gate (Frontend.apiCall_by_domain db) host "/" cookies
    (fun dt => Site.home apiCall_info apiCall_pages dt query header)
  = Site.Redirect ("/dashboard?apiKey=" +:+ apiKey t) /\
  Site.behind_gate (Frontend.apiCall_by_domain db) host "/domains" cookies
    (fun dt => Site.domains apiCall_info dt query)
  = Site.Redirect ("/domains?apiKey=" +:+ apiKey t).
Proof.
  intros Hres Hkey Hpass Hq.
  assert (Hl : Frontend.lookup (Frontend.apiCall_by_domain db) host
               = Some (Api.by_domain_json t)).
  { pose proof (frontend_resolve_agrees db host) as H.
    unfold Frontend.resolve in H. rewrite H, Hres. reflexivity. }
  assert (Hgate : forall path,
            skipped_path path = false ->
            String.eqb path "/subdomain-login" = false ->
            exists d,
              Frontend.identifyTenantByDomain (Frontend.apiCall_by_domain db)
                host path cookies = (d, Some (Api.by_domain_json t)) /\
              (d = ALLOW)).
  { intros path Hsk Hlg. unfold Frontend.identifyTenantByDomain.
    rewrite Hsk, Hl. cbn [Api.by_domain_json View.subdomain View.subdomainPassword].
    destruct Hpass as [-> | Hc].
    - eexists. split; reflexivity.
    - rewrite Hlg, Hc. cbn [negb].
      destruct (JS.truthy (subdomain t) && JS.truthy (subdomainPassword t));
        eexists; split; reflexivity. }
  assert (Hauto : JS.truthy (Some (apiKey t)) = true)
    by (apply truthy_spec; exists (apiKey t); auto).
  split.
  - destruct (Hgate "/" eq_refl eq_refl) as (d & Hg & ->).
    unfold Site.behind_gate. rewrite Hg. unfold Site.home. rewrite Hq.
    reflexivity.
  - destruct (Hgate "/domains" eq_refl eq_refl) as (d & Hg & ->).
    unfold Site.behind_gate. rewrite Hg. unfold Site.domains, JS.or_else.
    rewrite Hq. cbn [Site.autoApiKey Api.by_domain_json View.apiKey].
    rewrite Hauto. reflexivity.
Qed.

Lemma page_redirect_carries_api_key_witness :
  Api.identifyTenantByDomain directory "open.docforge.com" = Some open_docs /\
  apiKey open_docs <> EmptyString /\
  Site.behind_gate (Frontend.apiCall_by_domain directory) "open.docforge.com" "/" ∅
    (fun dt => Site.home (fun _ => None) (fun _ => None) dt None None)
  = Site.Redirect "/dashboard?apiKey=c5a6b7c8".
Proof.
  assert (Hk : apiKey open_docs <> EmptyString) by discriminate.
  split; [reflexivity|]. split; [exact Hk|].
  exact (proj1 (page_redirect_carries_api_key directory "open.docforge.com" ∅
                  open_docs None None (fun _ => None) (fun _ => None)
                  eq_refl Hk (or_introl eq_refl) eq_refl)).
Defined.

End Rendering.

(** ** Ordering helpers *)

Section Ordering.

Context {A : Type} (key : A -> Z).

Lemma insert_desc_perm (x : A) (l : list A) :
  Permutation (insert_desc key x l) (x :: l).
Proof.
  induction l as [|y l IH]; [reflexivity|].
  cbn [insert_desc]. destruct (key x <? key y); [|reflexivity].
  rewrite IH. apply perm_swap.
Qed.

Lemma sort_desc_perm (l : list A) : Permutation (sort_desc key l) l.
Proof.
  induction l as [|x l IH]; [reflexivity|].
  unfold sort_desc in *. cbn [fold_right].
  rewrite insert_desc_perm, IH. reflexivity.
Qed.

Lemma sort_desc_In (l : list A) (x : A) : In x (sort_desc key l) <-> In x l.
Proof.
  split; apply Permutation_in;
    [apply sort_desc_perm | symmetry; apply sort_desc_perm].
Qed.

Lemma sort_desc_length (l : list A) : length (sort_desc key l) = length l.
Proof. apply Permutation_length, sort_desc_perm. Qed.

Lemma insert_desc_sorted (x : A) (l : list A) :
  newest_first key l -> newest_first key (insert_desc key x l).
Proof.
  induction l as [|y l IH]; intros Hs.
  - cbn. split; [intros y [] | exact I].
  - cbn [insert_desc]. destruct Hs as [Hy Hs].
    destruct (key x <? key y) eqn:E.
    + apply Z.ltb_lt in E. cbn [newest_first]. split; [|apply IH; exact Hs].
      intros z Hz. apply (Permutation_in _ (insert_desc_perm x l)) in Hz.
      destruct Hz as [<-|Hz]; [lia | apply Hy; exact Hz].
    + apply Z.ltb_ge in E. cbn [newest_first]. split; [|split; assumption].
      intros z [<-|Hz]; [exact E|]. specialize (Hy z Hz). lia.
Qed.

Lemma sort_desc_sorted (l : list A) : newest_first key (sort_desc key l).
Proof.
  induction l as [|x l IH]; [exact I|].
  unfold sort_desc in *. cbn [fold_right]. apply insert_desc_sorted. exact IH.
Qed.

Lemma newest_first_split (l1 l2 : list A) :
  newest_first key (l1 ++ l2) ->
  newest_first key l1 /\
  forall x y, In x l1 -> In y l2 -> key y <= key x.
Proof.
  induction l1 as [|a l1 IH]; cbn [app newest_first]; intros H.
  - split; [exact I | intros x y []].
  - destruct H as [Ha H]. destruct (IH H) as [Hs Hc]. split.
    + split; [|exact Hs]. intros y Hy. apply Ha. apply in_or_app. auto.
    + intros x y [<-|Hx] Hy; [apply Ha; apply in_or_app; auto | auto].
Qed.

Lemma newest_first_map {B : Type} (f : B -> A) (l : list B) :
  newest_first (fun b => key (f b)) l -> newest_first key (map f l).
Proof.
  induction l as [|b l IH]; [auto|]. cbn [map newest_first].
  intros [Hb Hs]. split; [|apply IH; exact Hs].
  intros y Hy. apply in_map_iff in Hy as (b' & <- & Hb'). auto.
Qed.

End Ordering.

(** ** Debugging and administration routes *)

Section Administration.

Lemma findOne_exists (q : Tenant -> bool) (db : list Tenant) (t : Tenant) :
  In t db -> q t = true -> exists t', findOne q db = Some t'.
Proof.
  intros Hin Hq. unfold findOne. destruct (find q db) as [t'|] eqn:E.
  - exists t'. reflexivity.
  - rewrite (find_none _ _ E t Hin) in Hq. discriminate.
Qed.

(** X20: the debugging route asks for no credential and answers one
    row per stored tenant, newest first, each with the tenant's API key;
    every non-empty key in the answer passes [verifyApiKey]. *)
Theorem debug_route_discloses_every_key (db : list Tenant) (k : option string) :
  exists rows,
    Routes.debug_tenants db k = json rows /\
    Routes.debug_tenants db None = json rows /\
    length rows = length db /\
    (forall t, In t db ->
       exists row, In row rows /\ Routes.debug_id row = _id t /\
                   Routes.debug_apiKey row = apiKey t) /\
    newest_first Routes.debug_createdAt rows /\
    (forall row, In row rows -> Routes.debug_apiKey row <> EmptyString ->
       exists t, authenticates db (Some (Routes.debug_apiKey row)) t).
Proof.
  unfold Routes.debug_tenants. eexists. split; [reflexivity|].
  split; [reflexivity|].
  split. { rewrite length_map. apply sort_desc_length. }
  split. { intros t Hin. eexists. split.
           - apply in_map. apply sort_desc_In. exact Hin.
           - split; reflexivity. }
  split. { apply (newest_first_map Routes.debug_createdAt).
           apply (sort_desc_sorted createdAt). }
  intros row Hin Hne. apply in_map_iff in Hin as (t & <- & Hin).
  apply sort_desc_In in Hin. cbn [Routes.debug_apiKey] in *.
  destruct (findOne_exists (by_apiKey (apiKey t)) db t Hin) as [t' Ht'].
  { apply String.eqb_refl. }
  exists t', (apiKey t). auto.
Qed.

Lemma or_else_cases (a b : option string) :
  (JS.truthy a = true /\ JS.or_else a b = a) \/
  (JS.truthy a = false /\ JS.or_else a b = b).
Proof. unfold JS.or_else. destruct (JS.truthy a); auto. Qed.

Lemma super_admin_key_set (env : option string) :
  Routes.SUPER_ADMIN_KEY env <> EmptyString /\
  (JS.truthy env = false ->
   Routes.SUPER_ADMIN_KEY env = "docforge-super-admin-2025").
Proof.
  unfold Routes.SUPER_ADMIN_KEY, JS.or_else.
  destruct (JS.truthy env) eqn:E.
  - apply truthy_spec in E as (s & -> & Hs). split; [exact Hs | discriminate].
  - split; [discriminate | reflexivity].
Qed.

Lemma key_test (v : option string) (key : string) :
  key <> EmptyString ->
  (negb (JS.truthy v) || negb (String.eqb (JS.interpolate v) key) = false
   <-> v = Some key).
Proof.
  intros Hk. rewrite orb_false_iff, !negb_false_iff, truthy_spec, String.eqb_eq.
  split.
  - intros [(s & -> & _) E]. simpl in E. congruence.
  - intros ->. split; [exists key; auto | reflexivity].
Qed.

(** X21: the administration key is never empty, and it is the constant
    [docforge-super-admin-2025] whenever the environment sets none. The
    API check passes exactly when the header, if non-empty, is the key,
    or else the query parameter is the key: a wrong non-empty header is
    refused even beside the right query parameter. The [/admin] page of
    the rendering process, which computes the key in the same way from
    its own environment, passes exactly when its query parameter is the
    key. *)
Theorem super_admin_check (env header query adminKey : option string) :
  let KEY := Routes.SUPER_ADMIN_KEY env in
  KEY <> EmptyString /\
  (JS.truthy env = false -> KEY = "docforge-super-admin-2025") /\
  (@Routes.verifySuperAdmin string env header query = None <->
   (JS.truthy header = true /\ header = Some KEY) \/
   (JS.truthy header = false /\ query = Some KEY)) /\
  (@Routes.verifySuperAdmin string env header query <> None ->
   @Routes.verifySuperAdmin string env header query
   = Some (fail 403 "Super admin access required")) /\
  (Site.admin env adminKey = Site.Render "admin" ("Super Admin - DocForge", "admin")
   <-> adminKey = Some KEY) /\
  (adminKey <> Some KEY ->
   Site.admin env adminKey = Site.Send 403 "Super admin access required").
Proof.
  intros KEY. destruct (super_admin_key_set env) as [Hk Hd].
  split; [exact Hk|]. split; [exact Hd|].
  unfold Routes.verifySuperAdmin, Site.admin. fold KEY.
  repeat split.
  - destruct (negb _ || negb _) eqn:E; [discriminate|]. intros _.
    apply (key_test _ KEY Hk) in E.
    destruct (or_else_cases header query) as [[T E']|[T E']];
      rewrite E' in E; auto.
  - intros H.
    assert (E : JS.or_else header query = Some KEY).
    { destruct (or_else_cases header query) as [[T E']|[T E']];
        destruct H as [[T' H]|[T' H]]; congruence. }
    apply (key_test _ KEY Hk) in E. rewrite E. reflexivity.
  - destruct (negb _ || negb _); [reflexivity | congruence].
  - destruct (negb (JS.truthy adminKey) || _) eqn:E; [discriminate|].
    intros _. apply (key_test _ KEY Hk). exact E.
  - intros H. apply (key_test _ KEY Hk) in H. rewrite H. reflexivity.
  - intros H. destruct (negb (JS.truthy adminKey) || _) eqn:E; [reflexivity|].
    apply (key_test _ KEY Hk) in E. contradiction.
Qed.

Lemma ids_determine (db : list Tenant) (x y : Tenant) :
  List.NoDup (map _id db) -> In x db -> In y db -> _id x = _id y -> x = y.
Proof.
  induction db as [|d rest IH]; intros Hnd Hx Hy E; [destruct Hx|].
  simpl in Hnd. apply NoDup_cons_iff in Hnd as [Hfresh Hnd].
  destruct Hx as [->|Hx]; destruct Hy as [->|Hy].
  - reflexivity.
  - destruct Hfresh. rewrite E. apply in_map. exact Hy.
  - destruct Hfresh. rewrite <- E. apply in_map. exact Hx.
  - apply IH; assumption.
Qed.

Lemma remove_by_id_In (oid : string) (db : list Tenant) (d : Tenant) :
  List.NoDup (map _id db) ->
  (In d (Routes.remove_by_id oid db) <-> In d db /\ _id d <> oid).
Proof.
  induction db as [|x rest IH]; intros Hnd; [simpl; tauto|].
  simpl in Hnd. apply NoDup_cons_iff in Hnd as [Hfresh Hnd].
  cbn [Routes.remove_by_id]. destruct (String.eqb (_id x) oid) eqn:E.
  - apply String.eqb_eq in E. split.
    + intros Hin. split; [right; exact Hin|].
      intros Hd. apply Hfresh. rewrite E, <- Hd. apply in_map. exact Hin.
    + intros [[->|Hin] Hne]; [congruence | exact Hin].
  - apply String.eqb_neq in E. cbn [In]. rewrite (IH Hnd). split.
    + intros [<-|[Hin Hne]]; [split; [left; reflexivity | exact E] | tauto].
    + intros [[<-|Hin] Hne]; [left; reflexivity | tauto].
Qed.

(** X22: an accepted [DELETE /api/admin/tenant/:id] removes the tenant
    with that [_id] and no other, removes exactly the credentials that
    carry its [_id], and leaves every page in place, the deleted
    tenant's pages included; if no other tenant had the same API key,
    that key is refused from then on. *)
Theorem admin_delete_tenant_effects
    (castObjectId : string -> option string) (castError : string -> string)
    (env header query : option string) (c : Routes.Collections)
    (id oid : string) (t : Tenant) :
  @Routes.verifySuperAdmin string env header query = None ->
  castObjectId id = Some oid ->
  List.NoDup (map _id (Routes.all_tenants c)) ->
  In t (Routes.all_tenants c) ->
  _id t = oid ->
  let r := Routes.admin_delete_tenant castObjectId castError env header query c id in
  snd r = json "Tenant deleted successfully" /\
  (forall d, In d (Routes.all_tenants (fst r))
             <-> In d (Routes.all_tenants c) /\ _id d <> oid) /\
  (forall cr, In cr (Routes.all_credentials (fst r))
              <-> In cr (Routes.all_credentials c) /\ Credential.tenantId cr <> oid) /\
  Routes.all_pages (fst r) = Routes.all_pages c /\
  ((forall d, In d (Routes.all_tenants c) -> apiKey d = apiKey t -> d = t) ->
   forall t', ~ authenticates (Routes.all_tenants (fst r)) (Some (apiKey t)) t').
Proof.
  intros Hadmin Hcast Hnd Hin Hid r. subst r.
  unfold Routes.admin_delete_tenant. rewrite Hadmin, Hcast.
  assert (Hfind : findOne (fun d => String.eqb (_id d) oid) (Routes.all_tenants c)
                  = Some t).
  { apply findOne_the; [exact Hin | apply String.eqb_eq; exact Hid |].
    intros d Hd Hq. apply String.eqb_eq in Hq.
    apply (ids_determine (Routes.all_tenants c) d t Hnd Hd Hin). congruence. }
  rewrite Hfind. cbn [fst snd Routes.all_tenants Routes.all_credentials Routes.all_pages].
  split; [reflexivity|].
  split; [intros d; apply remove_by_id_In; exact Hnd|].
  split.
  { intros cr. rewrite filter_In, negb_true_iff, String.eqb_neq, Hid. tauto. }
  split; [reflexivity|].
  intros Hkey t' (key & [= <-] & _ & Hf).
  apply findOne_Some in Hf as [Hin' Hq]. apply String.eqb_eq in Hq.
  apply remove_by_id_In in Hin' as [Hin' Hne]; [|exact Hnd].
  apply Hne. rewrite (Hkey t' Hin' Hq). exact Hid.
Qed.

End Administration.

Lemma admin_delete_tenant_effects_witness :
  let r := Routes.admin_delete_tenant cast24 (fun s => s) None
             (Some "docforge-super-admin-2025") None sample_collections
             "66d1f0a2c4e8b9a1d2e3f401" in
  @Routes.verifySuperAdmin string None (Some "docforge-super-admin-2025") None = None /\
  cast24 "66d1f0a2c4e8b9a1d2e3f401" = Some (_id acme) /\
  List.NoDup (map _id (Routes.all_tenants sample_collections)) /\
  In acme (Routes.all_tenants sample_collections) /\
  map Credential.serviceName (Routes.all_credentials (fst r)) = ["search"] /\
  Routes.all_pages (fst r) = sample_pages.
Proof.
  cbv zeta.
  assert (Hin : In acme (Routes.all_tenants sample_collections)) by (simpl; auto).
  split; [reflexivity|]. split; [reflexivity|].
  split; [exact directory_ids_distinct|]. split; [exact Hin|].
  split; [reflexivity|].
  destruct (admin_delete_tenant_effects cast24 (fun s => s) None
              (Some "docforge-super-admin-2025") None sample_collections
              "66d1f0a2c4e8b9a1d2e3f401" (_id acme) acme
              eq_refl eq_refl directory_ids_distinct Hin eq_refl)
    as (_ & _ & _ & H & _).
  exact H.
Defined.

(** ** Credentials *)

Section Credentials.

Variable castObjectId : string -> option string.
Variable castError : string -> string.

Lemma remove_first_In (q : Credential.t -> bool) (creds : list Credential.t)
    (cr : Credential.t) :
  In cr creds -> q cr = false -> In cr (Routes.remove_first q creds).
Proof.
  induction creds as [|x rest IH]; intros Hin Hq; [destruct Hin|].
  cbn [Routes.remove_first]. destruct (q x) eqn:E.
  - destruct Hin as [->|Hin]; [congruence | exact Hin].
  - destruct Hin as [->|Hin]; [left; reflexivity | right; auto].
Qed.

Lemma remove_first_length (q : Credential.t -> bool)
    (creds : list Credential.t) :
  (length creds <= S (length (Routes.remove_first q creds)))%nat.
Proof.
  induction creds as [|x rest IH]; [simpl; lia|].
  cbn [Routes.remove_first]. destruct (q x); simpl; lia.
Qed.

(** X23: credentials stay with their tenant. For the tenant that owns
    the key, the list route answers exactly the stored credentials that
    carry its [_id]; the [:id] route answers only a stored credential
    with that [_id] and the requested id; a delete removes at most one
    credential and never one of another tenant; an id that the ObjectId
    cast refuses is answered 400 with nothing removed. *)
Theorem credentials_stay_with_their_tenant
    (db : list Tenant) (creds : list Credential.t) (k : option string)
    (t : Tenant) :
  authenticates db k t ->
  (exists l, Routes.get_credentials db creds k = json l /\
             forall cr, In cr l <-> In cr creds /\ Credential.tenantId cr = _id t) /\
  (forall id cr,
     Routes.get_credential castObjectId castError db creds k id = json cr ->
     In cr creds /\ Credential.tenantId cr = _id t /\
     castObjectId id = Some (Credential._id cr)) /\
  (forall id cr,
     In cr creds -> Credential.tenantId cr <> _id t ->
     In cr (fst (Routes.delete_credential castObjectId castError db creds k id))) /\
  (forall id,
     (length creds
      <= S (length (fst (Routes.delete_credential castObjectId castError db creds k id))))%nat) /\
  (forall id, castObjectId id = None ->
     Routes.get_credential castObjectId castError db creds k id
     = fail 400 (castError id) /\
     Routes.delete_credential castObjectId castError db creds k id
     = (creds, fail 400 (castError id))).
Proof.
  intros Ha.
  unfold Routes.get_credentials, Routes.get_credential, Routes.delete_credential.
  rewrite !(authenticates_verified db k t Ha).
  split.
  { eexists. split; [reflexivity|]. intros cr.
    rewrite filter_In, String.eqb_eq. tauto. }
  split.
  { intros id cr. destruct (castObjectId id) as [oid|]; [|discriminate].
    destruct (find (Routes.own_credential oid t) creds) as [cr'|] eqn:E;
      [|discriminate].
    intros [= <-]. apply find_some in E as [Hin Hq].
    apply andb_true_iff in Hq as [H1 H2].
    apply String.eqb_eq in H1, H2. subst oid. auto. }
  split.
  { intros id cr Hin Hne. destruct (castObjectId id) as [oid|]; [|exact Hin].
    destruct (find (Routes.own_credential oid t) creds); [|exact Hin].
    cbn [fst]. apply remove_first_In; [exact Hin|].
    unfold Routes.own_credential. apply andb_false_iff. right.
    apply String.eqb_neq. exact Hne. }
  split.
  { intros id. destruct (castObjectId id) as [oid|]; [|simpl; lia].
    destruct (find (Routes.own_credential oid t) creds); [|simpl; lia].
    cbn [fst]. apply remove_first_length. }
  intros id ->. split; reflexivity.
Qed.

End Credentials.

Lemma credentials_stay_with_their_tenant_witness :
  authenticates directory (Some "a3f1c2d4") acme /\
  exists l, Routes.get_credentials directory sample_credentials (Some "a3f1c2d4")
            = json l /\
            map Credential.serviceName l = ["billing"; "mailer"].
Proof.
  split; [exact acme_authenticates|].
  destruct (credentials_stay_with_their_tenant cast24 (fun s => s) directory
              sample_credentials (Some "a3f1c2d4") acme acme_authenticates)
    as [(l & Hl & _) _].
  exists l. split; [exact Hl|].
  vm_compute in Hl. injection Hl as <-. reflexivity.
Defined.

(** ** Statistics: the analytics route and the home page *)

Section Statistics.

Lemma set_add_In (seen : list string) (x y : string) :
  In y (set_add seen x) <-> In y seen \/ y = x.
Proof.
  unfold set_add. destruct (existsb (String.eqb x) seen) eqn:E.
  - apply existsb_exists in E as (z & Hz & Hxz). apply String.eqb_eq in Hxz.
    subst z. split; [auto | intros [H| ->]; assumption].
  - rewrite in_app_iff. simpl. split; [intros [H|[<-|[]]]; auto | intros [H| ->]; auto].
Qed.

Lemma set_add_NoDup (seen : list string) (x : string) :
  List.NoDup seen -> List.NoDup (set_add seen x).
Proof.
  intros Hnd. unfold set_add. destruct (existsb (String.eqb x) seen) eqn:E;
    [exact Hnd|].
  apply List.NoDup_app; [exact Hnd | repeat constructor; auto |].
  intros y Hy [Hxy|[]]. subst y.
  assert (existsb (String.eqb x) seen = true); [|congruence].
  apply existsb_exists. exists x. split; [exact Hy | apply String.eqb_refl].
Qed.

Lemma set_add_length (seen : list string) (x : string) :
  (length (set_add seen x) <= S (length seen))%nat.
Proof.
  unfold set_add. destruct (existsb _ seen); [lia|].
  rewrite length_app. simpl. lia.
Qed.

Lemma fold_set_add (xs seen : list string) :
  List.NoDup seen ->
  List.NoDup (fold_left set_add xs seen) /\
  (forall y, In y (fold_left set_add xs seen) <-> In y seen \/ In y xs) /\
  (length (fold_left set_add xs seen) <= length seen + length xs)%nat.
Proof.
  revert seen. induction xs as [|x xs IH]; intros seen Hnd.
  - simpl. split; [exact Hnd|]. split; [tauto | lia].
  - cbn [fold_left].
    destruct (IH (set_add seen x) (set_add_NoDup seen x Hnd)) as (H1 & H2 & H3).
    split; [exact H1|]. split.
    + intros y. rewrite H2, set_add_In. simpl. intuition (subst; auto).
    + pose proof (set_add_length seen x). simpl. lia.
Qed.

(** [[...new Set(xs)]] has no repetition, the members of [xs], and at
    most as many entries. *)
Lemma distinct_spec (xs : list string) :
  List.NoDup (distinct xs) /\
  (forall y, In y (distinct xs) <-> In y xs) /\
  (length (distinct xs) <= length xs)%nat.
Proof.
  destruct (fold_set_add xs [] (List.NoDup_nil _)) as (H1 & H2 & H3).
  split; [exact H1|]. split; [|exact H3].
  intros y. unfold distinct. rewrite H2. simpl. tauto.
Qed.

Lemma filter_length_perm {A : Type} (q : A -> bool) (l l' : list A) :
  Permutation l l' -> length (List.filter q l) = length (List.filter q l').
Proof.
  induction 1 as [|x l l' _ IH|x y l|l l' l'' _ IH1 _ IH2]; simpl.
  - reflexivity.
  - destruct (q x); simpl; congruence.
  - destruct (q x), (q y); reflexivity.
  - congruence.
Qed.

Lemma list_sum_cons (a : nat) (l : list nat) :
  list_sum (a :: l) = (a + list_sum l)%nat.
Proof. reflexivity. Qed.

Lemma indicator_sum (x : string) (cs : list string) :
  List.NoDup cs -> In x cs ->
  list_sum (map (fun c => if String.eqb x c then 1%nat else 0%nat) cs) = 1%nat.
Proof.
  induction cs as [|c cs IH]; intros Hnd Hin; [destruct Hin|].
  apply NoDup_cons_iff in Hnd as [Hfresh Hnd]. cbn [map]. rewrite ?list_sum_cons.
  destruct (String.eqb x c) eqn:E.
  - apply String.eqb_eq in E. subst c.
    assert (list_sum (map (fun c => if String.eqb x c then 1%nat else 0%nat) cs)
            = 0%nat) as ->; [|reflexivity].
    clear IH Hnd Hin. induction cs as [|c cs IH]; [reflexivity|].
    cbn [map]. rewrite ?list_sum_cons. destruct (String.eqb x c) eqn:E.
    + apply String.eqb_eq in E. subst c. destruct Hfresh. left. reflexivity.
    + rewrite IH; [reflexivity|]. intros H. apply Hfresh. right. exact H.
  - apply String.eqb_neq in E. destruct Hin as [->|Hin]; [congruence|].
    rewrite (IH Hnd Hin). reflexivity.
Qed.

(** The pages counted per category add up to all pages. *)
Lemma counts_add_up {A : Type} (cat : A -> string) (l : list A)
    (cs : list string) :
  List.NoDup cs ->
  (forall p, In p l -> In (cat p) cs) ->
  list_sum (map (fun c => length (List.filter (fun p => String.eqb (cat p) c) l)) cs)
  = length l.
Proof.
  intros Hnd. induction l as [|p l IH]; intros Hall.
  - cbn [List.filter length]. clear. induction cs as [|c cs IHc]; [reflexivity|].
    cbn [map]. rewrite list_sum_cons, IHc. reflexivity.
  - assert (Hsplit : forall cs',
      list_sum (map (fun c => length (List.filter (fun p => String.eqb (cat p) c)
                                                  (p :: l))) cs')
      = (list_sum (map (fun c => if String.eqb (cat p) c then 1 else 0) cs')
         + list_sum (map (fun c => length (List.filter
                                             (fun p => String.eqb (cat p) c) l)) cs'))%nat).
    { induction cs' as [|c cs' IHc]; [reflexivity|].
      cbn [map]. rewrite !list_sum_cons, IHc. cbn [List.filter].
      destruct (String.eqb (cat p) c); cbn [length]; lia. }
    rewrite Hsplit, IH, indicator_sum; [reflexivity | exact Hnd | |].
    + apply Hall. left. reflexivity.
    + intros q Hq. apply Hall. right. exact Hq.
Qed.

Lemma In_firstn {A : Type} (n : nat) (l : list A) (x : A) :
  In x (firstn n l) -> In x l.
Proof.
  intros H. rewrite <- (firstn_skipn n l). apply in_or_app. left. exact H.
Qed.

(** X24: for the tenant that owns the key, the analytics reply counts
    that tenant's pages and credentials only; its category breakdown
    lists every category once, with a count of at least one, and the
    counts add up to the number of pages. *)
Theorem analytics_breakdown_adds_up
    (db : list Tenant) (pages : list Page.t) (creds : list Credential.t)
    (k : option string) (t : Tenant) :
  authenticates db k t ->
  let mine := List.filter (fun p => String.eqb (Page.tenantId p) (_id t)) pages in
  exists a,
    Routes.analytics db pages creds k = json a /\
    Routes.analytics_pages a = length mine /\
    Routes.analytics_credentials a
    = length (List.filter (fun cr => String.eqb (Credential.tenantId cr) (_id t))
                          creds) /\
    list_sum (map snd (Routes.categoryBreakdown a)) = Routes.analytics_pages a /\
    List.NoDup (map fst (Routes.categoryBreakdown a)) /\
    (forall cat n, In (cat, n) (Routes.categoryBreakdown a) ->
       (1 <= n)%nat /\
       n = length (List.filter (fun p => String.eqb (Page.category p) cat) mine)) /\
    Routes.analytics_categories a = length (Routes.categoryBreakdown a) /\
    (Routes.analytics_categories a <= Routes.analytics_pages a)%nat.
Proof.
  intros Ha mine. unfold Routes.analytics.
  rewrite (authenticates_verified db k t Ha). fold mine.
  destruct (distinct_spec (map Page.category mine)) as (Hnd & Hin & Hlen).
  pose proof (sort_desc_perm Page.updatedAt mine) as Hperm.
  eexists. split; [reflexivity|].
  cbn [Routes.analytics_pages Routes.analytics_credentials
       Routes.categoryBreakdown Routes.analytics_categories].
  split; [apply sort_desc_length|]. split; [reflexivity|].
  split.
  { rewrite map_map. cbn [snd].
    apply counts_add_up; [exact Hnd|].
    intros p Hp. apply Hin. apply in_map. apply (sort_desc_In Page.updatedAt). exact Hp. }
  split. { rewrite map_map. cbn [fst]. rewrite map_id. exact Hnd. }
  split.
  { intros cat n Hcn. apply in_map_iff in Hcn as (c & [= <- <-] & Hc).
    rewrite (filter_length_perm _ _ _ Hperm). split; [|reflexivity].
    apply Hin in Hc. apply in_map_iff in Hc as (p & Hcat & Hp).
    assert (Hpf : In p (List.filter (fun p => String.eqb (Page.category p) c) mine)).
    { apply filter_In. split; [exact Hp | apply String.eqb_eq; exact Hcat]. }
    destruct (List.filter _ mine); [destruct Hpf | simpl; lia]. }
  split; [rewrite length_map; reflexivity|].
  rewrite sort_desc_length. rewrite length_map in Hlen. exact Hlen.
Qed.

(** X25: the [recentPages] of the analytics reply are the five most
    recently updated pages of the tenant (all of them when there are
    fewer), newest first: every page of the tenant is either listed or
    not newer than any listed page. *)
Theorem analytics_recent_pages
    (db : list Tenant) (pages : list Page.t) (creds : list Credential.t)
    (k : option string) (t : Tenant) :
  authenticates db k t ->
  let entry p := {| Routes.recent_title := Page.title p;
                    Routes.recent_category := Page.category p;
                    Routes.recent_updatedAt := Page.updatedAt p |} in
  exists a,
    Routes.analytics db pages creds k = json a /\
    length (Routes.recentPages a) = Nat.min 5 (Routes.analytics_pages a) /\
    newest_first Routes.recent_updatedAt (Routes.recentPages a) /\
    (forall r, In r (Routes.recentPages a) ->
       exists p, In p pages /\ Page.tenantId p = _id t /\ r = entry p) /\
    (forall p, In p pages -> Page.tenantId p = _id t ->
       In (entry p) (Routes.recentPages a) \/
       forall r, In r (Routes.recentPages a) ->
                 Page.updatedAt p <= Routes.recent_updatedAt r).
Proof.
  intros Ha entry. unfold Routes.analytics.
  rewrite (authenticates_verified db k t Ha).
  set (mine := List.filter (fun p => String.eqb (Page.tenantId p) (_id t)) pages).
  set (sorted := sort_desc Page.updatedAt mine).
  pose proof (sort_desc_sorted Page.updatedAt mine) as Hsorted. fold sorted in Hsorted.
  rewrite <- (firstn_skipn 5 sorted) in Hsorted.
  apply newest_first_split in Hsorted as [Hfirst Hcross].
  eexists. split; [reflexivity|].
  cbn [Routes.recentPages Routes.analytics_pages]. unfold slice0.
  split; [rewrite length_map, length_firstn; reflexivity|].
  split. { apply (newest_first_map Routes.recent_updatedAt). exact Hfirst. }
  split.
  { intros r Hr. apply in_map_iff in Hr as (p & <- & Hp).
    apply In_firstn in Hp. unfold sorted in Hp.
    apply (proj1 (sort_desc_In Page.updatedAt _ _)) in Hp. unfold mine in Hp.
    apply filter_In in Hp as [Hp Hq]. apply String.eqb_eq in Hq.
    exists p. auto. }
  intros p Hp Hown.
  assert (Hs : In p sorted).
  { unfold sorted. apply (sort_desc_In Page.updatedAt). unfold mine.
    apply filter_In. split; [exact Hp | apply String.eqb_eq; exact Hown]. }
  rewrite <- (firstn_skipn 5 sorted) in Hs. apply in_app_or in Hs as [Hs|Hs].
  - left. apply (in_map entry) in Hs. exact Hs.
  - right. intros r Hr. apply in_map_iff in Hr as (q & <- & Hq).
    apply (Hcross q p Hq Hs).
Qed.

End Statistics.

Lemma analytics_breakdown_adds_up_witness :
  authenticates directory (Some "a3f1c2d4") acme /\
  exists a,
    Routes.analytics directory sample_pages sample_credentials (Some "a3f1c2d4")
    = json a /\
    Routes.categoryBreakdown a = [("guides", 2%nat); ("api", 1%nat)] /\
    list_sum (map snd (Routes.categoryBreakdown a)) = Routes.analytics_pages a.
Proof.
  split; [exact acme_authenticates|].
  destruct (analytics_breakdown_adds_up directory sample_pages sample_credentials
              (Some "a3f1c2d4") acme acme_authenticates)
    as (a & Ha & _ & _ & Hsum & _).
  exists a. split; [exact Ha|]. split; [|exact Hsum].
  vm_compute in Ha. injection Ha as <-. reflexivity.
Defined.

Lemma analytics_recent_pages_witness :
  authenticates directory (Some "a3f1c2d4") acme /\
  exists a,
    Routes.analytics directory sample_pages sample_credentials (Some "a3f1c2d4")
    = json a /\
    map Routes.recent_title (Routes.recentPages a) = ["auth"; "deploy"; "install"] /\
    newest_first Routes.recent_updatedAt (Routes.recentPages a).
Proof.
  split; [exact acme_authenticates|].
  destruct (analytics_recent_pages directory sample_pages sample_credentials
              (Some "a3f1c2d4") acme acme_authenticates)
    as (a & Ha & _ & Hs & _).
  exists a. split; [exact Ha|]. split; [|exact Hs].
  vm_compute in Ha. injection Ha as <-. reflexivity.
Defined.

(** ** The statistics of the home page *)

Section HomePage.

Lemma max_time_spec (x : Z) (xs : list Z) :
  (forall y, In y (x :: xs) -> y <= Site.max_time x xs) /\
  In (Site.max_time x xs) (x :: xs).
Proof.
  unfold Site.max_time. revert x. induction xs as [|a xs IH]; intros x.
  - cbn. split; [intros y [<-|[]]; lia | auto].
  - cbn [fold_left]. destruct (IH (Z.max x a)) as [Hle Hin]. split.
    + intros y [<-|[<-|Hy]].
      * specialize (Hle (Z.max x a) (or_introl eq_refl)). lia.
      * specialize (Hle (Z.max x a) (or_introl eq_refl)). lia.
      * apply Hle. right. exact Hy.
    + destruct Hin as [Hm|Hm]; [|right; right; exact Hm].
      rewrite <- Hm. destruct (Z.max_spec x a) as [[_ ->]|[_ ->]]; cbn; auto.
Qed.

(** X26: the home page shows the pages in the order latest update
    first, whatever order the API answered them in, because the sort of
    the statistics is done in place on the array that is rendered. Its
    [recentPages] are the first three of that order, [totalPages] is the
    number of pages, the number of categories does not exceed it, and
    [lastUpdated] is absent exactly for no pages and otherwise the
    update time of the first page shown, which no page exceeds. *)
Theorem home_page_statistics (pages : list Page.t) :
  let stats := fst (Site.home_stats_of pages) in
  let shown := snd (Site.home_stats_of pages) in
  Permutation shown pages /\
  newest_first Page.updatedAt shown /\
  Site.recentPages stats = firstn 3 shown /\
  Site.totalPages stats = length pages /\
  (Site.categories stats <= Site.totalPages stats)%nat /\
  (Site.lastUpdated stats = None <-> pages = []) /\
  Site.lastUpdated stats = Page.updatedAt <$> head shown /\
  (forall p, In p pages ->
     exists latest, Site.lastUpdated stats = Some latest /\
                    Page.updatedAt p <= latest).
Proof.
  intros stats shown. subst stats shown. unfold Site.home_stats_of.
  cbn [fst snd Site.recentPages Site.totalPages Site.categories Site.lastUpdated].
  pose proof (sort_desc_perm Page.updatedAt pages) as Hperm.
  pose proof (sort_desc_sorted Page.updatedAt pages) as Hsorted.
  destruct (distinct_spec (map Page.category pages)) as (_ & _ & Hlen).
  rewrite length_map in Hlen.
  split; [exact Hperm|]. split; [exact Hsorted|]. split; [reflexivity|].
  split; [reflexivity|]. split; [exact Hlen|].
  destruct (sort_desc Page.updatedAt pages) as [|p0 rest] eqn:Es.
  - apply Permutation_nil in Hperm. subst pages. cbn.
    repeat split; auto. intros p [].
  - cbn [map head fmap option_fmap option_map].
    destruct (max_time_spec (Page.updatedAt p0) (map Page.updatedAt rest))
      as [Hmax Hin].
    destruct Hsorted as [Hfirst _].
    assert (Hm : Site.max_time (Page.updatedAt p0) (map Page.updatedAt rest)
                 = Page.updatedAt p0).
    { apply Z.le_antisymm; [|apply Hmax; left; reflexivity].
      destruct Hin as [<-|Hin]; [lia|].
      apply in_map_iff in Hin as (q & <- & Hq). apply Hfirst. exact Hq. }
    rewrite Hm. split.
    + split; [discriminate|]. intros ->.
      apply Permutation_sym, Permutation_nil in Hperm. discriminate.
    + split; [reflexivity|].
      intros p Hp. exists (Page.updatedAt p0). split; [reflexivity|].
      apply (Permutation_in _ (Permutation_sym Hperm)) in Hp.
      destruct Hp as [<-|Hp]; [lia | apply Hfirst; exact Hp].
Qed.

End HomePage.

(** ** Tenant creation and the invariants of the API process *)

Section Lifecycle.

Variable saveError : Routes.SaveError -> string.
Variable resolves : string -> bool.
Variable production : bool.

Lemma findOne_app (q : Tenant -> bool) (db : list Tenant) (t : Tenant) :
  findOne q (db ++ [t])%list
  = match findOne q db with
    | Some x => Some x
    | None => if q t then Some t else None
    end.
Proof.
  unfold findOne. induction db as [|d rest IH]; [reflexivity|].
  cbn [app find]. destruct (q d); [reflexivity | exact IH].
Qed.

Lemma existsb_false_In {A : Type} (q : A -> bool) (l : list A) :
  existsb q l = false -> forall x, In x l -> q x = false.
Proof.
  intros H x Hin. destruct (q x) eqn:E; [|reflexivity].
  assert (existsb q l = true) by (apply existsb_exists; eauto). congruence.
Qed.

(** What an accepted creation did. *)
Lemma create_tenant_accepted (new_id : string) (now : Z)
    (rnd : list Byte.byte) (db : list Tenant) (name_ domain_ : option string) :
  let r := Routes.create_tenant saveError new_id now rnd db name_ domain_ in
  status (snd r) = 200%nat ->
  exists t,
    r = ((db ++ [t])%list,
         json {| Routes.created_tenant := t; Routes.created_apiKey := toHex rnd |}) /\
    _id t = new_id /\ apiKey t = toHex rnd /\
    customDomain t = None /\ subdomain t = None /\ subdomainPassword t = None /\
    (forall d, In d db -> _id d <> new_id).
Proof.
  unfold Routes.create_tenant.
  destruct (Routes.missing_paths name_ domain_); [|cbn; discriminate].
  cbv zeta.
  destruct (existsb (fun d => String.eqb (_id d) new_id) db) eqn:Eid;
    [cbn; discriminate|].
  match goal with
  | |- context [if ?c then _ else _] => destruct c; [cbn; discriminate|]
  end.
  intros _. eexists. split; [reflexivity|]. cbn.
  repeat split; try reflexivity.
  intros d Hd. apply String.eqb_neq.
  apply (existsb_false_In _ db Eid d Hd).
Qed.

(** X27: [POST /api/tenant] refuses a missing or empty name or domain
    with 400 and stores nothing. When it answers 200, exactly one tenant
    was appended; its API key is the 64-digit hex form of the 32 random
    bytes and, if no stored tenant had that key, authenticates as the
    new tenant at once; the keys of the stored tenants work as before;
    and the new tenant has no custom domain, subdomain or password, so
    every host resolves as it did before. *)
Theorem create_tenant_effects (new_id : string) (now : Z)
    (rnd : list Byte.byte) (db : list Tenant) (name_ domain_ : option string) :
  length rnd = 32%nat ->
  let r := Routes.create_tenant saveError new_id now rnd db name_ domain_ in
  (JS.truthy name_ = false \/ JS.truthy domain_ = false ->
   fst r = db /\ status (snd r) = 400%nat) /\
  (status (snd r) = 200%nat ->
   exists t,
     fst r = (db ++ [t])%list /\
     snd r = json {| Routes.created_tenant := t;
                     Routes.created_apiKey := apiKey t |} /\
     _id t = new_id /\
     String.length (apiKey t) = 64%nat /\
     fromHex (apiKey t) = Some rnd /\
     ((forall d, In d db -> apiKey d <> apiKey t) ->
      authenticates (fst r) (Some (apiKey t)) t) /\
     (forall k t0, authenticates db k t0 -> authenticates (fst r) k t0) /\
     customDomain t = None /\ subdomain t = None /\ subdomainPassword t = None /\
     (forall host, Api.identifyTenantByDomain (fst r) host
                   = Api.identifyTenantByDomain db host)).
Proof.
  intros Hlen r. split.
  - subst r. unfold Routes.create_tenant, Routes.missing_paths.
    intros [-> | ->]; [|destruct (JS.truthy name_)]; cbn; auto.
  - intros Hok.
    destruct (create_tenant_accepted new_id now rnd db name_ domain_ Hok)
      as (t & Hr & Hid & Hkey & Hcd & Hsd & Hpw & _).
    fold r in Hr. rewrite Hr. cbn [fst snd]. exists t.
    assert (Hl : String.length (apiKey t) = 64%nat).
    { rewrite Hkey, toHex_length, Hlen. reflexivity. }
    split; [reflexivity|]. split; [rewrite Hkey; reflexivity|].
    split; [exact Hid|]. split; [exact Hl|].
    split; [rewrite Hkey; apply fromHex_toHex|].
    split.
    { intros Hfresh. exists (apiKey t). split; [reflexivity|]. split.
      - intros E. rewrite E in Hl. discriminate.
      - rewrite findOne_app.
        assert (findOne (by_apiKey (apiKey t)) db = None) as ->.
        { apply findOne_None. intros d Hd. apply String.eqb_neq.
          apply Hfresh. exact Hd. }
        unfold by_apiKey. rewrite String.eqb_refl. reflexivity. }
    split.
    { intros k t0 (key & -> & Hne & Hf). exists key.
      split; [reflexivity|]. split; [exact Hne|].
      rewrite findOne_app, Hf. reflexivity. }
    split; [exact Hcd|]. split; [exact Hsd|]. split; [exact Hpw|].
    intros host. unfold Api.identifyTenantByDomain.
    rewrite !findOne_app. unfold by_customDomain, by_subdomain.
    rewrite Hcd, Hsd. cbn [field_is].
    destruct (findOne _ db); [reflexivity|].
    destruct (JS.includes host parent_domain); [|reflexivity].
    destruct (findOne _ db); reflexivity.
Qed.





End Lifecycle.

Lemma create_tenant_effects_witness :
  let r := Routes.create_tenant (fun _ => "rejected") "66d1f0a2c4e8b9a1d2e3f405"
             1725000009000 sample_bytes directory (Some "Gamma") (Some "gamma.io") in
  length sample_bytes = 32%nat /\
  status (snd r) = 200%nat /\
  exists t, fst r = (directory ++ [t])%list /\
            authenticates (fst r) (Some (apiKey t)) t /\
            Api.identifyTenantByDomain (fst r) "gamma.docforge.com" = None.
Proof.
  cbv zeta. split; [reflexivity|]. split; [reflexivity|].
  destruct (create_tenant_effects (fun _ => "rejected") "66d1f0a2c4e8b9a1d2e3f405"
              1725000009000 sample_bytes directory (Some "Gamma") (Some "gamma.io")
              eq_refl) as [_ H].
  destruct (H eq_refl) as (t & H1 & H2 & _ & _ & _ & H6 & _ & _ & _ & _ & H11).
  exists t. split; [exact H1|]. split.
  - apply H6. intros d Hd E.
    assert (Hk : apiKey t = toHex sample_bytes).
    { vm_compute in H2. injection H2 as <-. reflexivity. }
    rewrite Hk in E. destruct Hd as [<-|[<-|[<-|[]]]]; discriminate E.
  - rewrite H11. reflexivity.
Defined.



(** ** The tool dispatcher *)

Section Tools.

(** X29: the tool server handles exactly the tools it advertises: a
    name is in the advertised list, which has no repetition, exactly
    when the dispatcher has a method for it. A call to any other name is
    answered by the error result [Error: Unknown tool: <name>] flagged
    [isError]; a call to an advertised tool answers what its method
    returns, or, when the method throws, its message flagged [isError]. *)
Theorem advertised_tools_are_handled
    {Args : Type} (methods : Mcp.Tool -> Args -> Mcp.Outcome)
    (name : string) (args : Args) :
  List.NoDup Mcp.advertised /\
  (In name Mcp.advertised <-> exists tool, Mcp.dispatch name = Some tool) /\
  (~ In name Mcp.advertised ->
   Mcp.callTool methods name args
   = {| Mcp.text := "Error: Unknown tool: " +:+ name; Mcp.isError := true |}) /\
  (forall tool, Mcp.dispatch name = Some tool ->
     (forall r, methods tool args = Mcp.Returned r ->
                Mcp.callTool methods name args = r) /\
     (forall message, methods tool args = Mcp.Threw message ->
                Mcp.callTool methods name args
                = {| Mcp.text := "Error: " +:+ message; Mcp.isError := true |})).
Proof.
  assert (Hiff : In name Mcp.advertised <-> exists tool, Mcp.dispatch name = Some tool).
  { split.
    - intros H. unfold Mcp.advertised in H. cbn [In] in H.
      repeat (destruct H as [<-|H]; [eexists; reflexivity|]). destruct H.
    - intros [tool H]. unfold Mcp.dispatch in H.
      repeat match type of H with
             | context [String.eqb name ?s] =>
                 destruct (String.eqb name s) eqn:E;
                 [apply String.eqb_eq in E; subst name; cbn; tauto | clear E]
             end.
      discriminate. }
  split.
  { unfold Mcp.advertised.
    repeat (constructor; [cbn; intros H;
                          repeat (destruct H as [H|H]; [discriminate H|]);
                          exact H|]).
    constructor. }
  split; [exact Hiff|]. split.
  - intros Hn. unfold Mcp.callTool.
    destruct (Mcp.dispatch name) as [tool|] eqn:E; [|reflexivity].
    destruct Hn. apply Hiff. exists tool. reflexivity.
  - intros tool Hd. unfold Mcp.callTool. rewrite Hd.
    split; [intros r -> | intros message ->]; reflexivity.
Qed.

End Tools.
